(** * Credential-gated encryption: a shallow embedding of the browser package

    The development follows the TypeScript sources of the browser package
    (utils.ts, did.ts, jwt.ts, index.ts) and of the enhanced Lit Action
    (litActionEnhanced.ts).  Pure functions are Rocq functions; a JavaScript
    [throw] is the [Throw] constructor of [result]; the clock, the random
    source and the foreign libraries (ethers, JSON, Date) are explicit
    parameters.

    Conventions of the model:
    - a JavaScript string is a [string] whose characters are the code units
      0..255 (the Latin-1 fragment; every string this program builds itself
      -- DIDs, hex, base64, JSON text -- is ASCII);
    - a JavaScript number is an integer [Z] (time stamps, ages, chain ids),
      and [NaN] is [None] where a number can be one;
    - a byte array ([Uint8Array]) is a [list byte]. *)

From Stdlib Require Import String Ascii List ZArith Lia Bool.
From Stdlib.Strings Require Import Byte.
From Stdlib Require Import DecimalString DecimalZ.
Import ListNotations.

Open Scope string_scope.
Open Scope Z_scope.

(** ** Results and exceptions *)

Inductive JsError : Type :=
| Error (message : string)
| TypeError (message : string)
| SyntaxError (message : string)
| RangeError (message : string)
| InvalidCharacterError.

Inductive result (A : Type) : Type :=
| Ok (a : A)
| Throw (e : JsError).

Arguments Ok {A} a.
Arguments Throw {A} e.

Definition bind {A B : Type} (r : result A) (k : A -> result B) : result B :=
  match r with
  | Ok a => k a
  | Throw e => Throw e
  end.

Declare Scope js_scope.
Delimit Scope js_scope with js.
Notation "'let*' x ':=' r 'in' k" := (bind r (fun x => k))
  (at level 10, x name, r at level 100, k at level 200) : js_scope.
Open Scope js_scope.

Definition error_message (e : JsError) : string :=
  match e with
  | Error m | TypeError m | SyntaxError m | RangeError m => m
  | InvalidCharacterError => "The string to be decoded is not correctly encoded."
  end.

(** ** JavaScript strings *)

Module JsString.

Definition code (c : ascii) : Z := Z.of_N (N_of_ascii c).
Definition chr (n : Z) : ascii := ascii_of_N (Z.to_N n).

(** [String.prototype.toLowerCase] on code units 0..255: the letters A-Z
    and the capital letters U+00C0..U+00DE other than the multiplication
    sign U+00D7 move up by 32. *)
Definition lower_char (c : ascii) : ascii :=
  let n := code c in
  if ((65 <=? n) && (n <=? 90))
     || ((192 <=? n) && (n <=? 222) && negb (n =? 215))
  then chr (n + 32) else c.

Fixpoint toLowerCase (s : string) : string :=
  match s with
  | EmptyString => EmptyString
  | String c s' => String (lower_char c) (toLowerCase s')
  end.

(** [s.startsWith(p)] *)
Fixpoint startsWith (p s : string) : bool :=
  match p, s with
  | EmptyString, _ => true
  | String _ _, EmptyString => false
  | String a p', String b s' => Ascii.eqb a b && startsWith p' s'
  end.

(** [s.includes(sub)] *)
Fixpoint includes (sub s : string) : bool :=
  startsWith sub s ||
  match s with
  | EmptyString => false
  | String _ s' => includes sub s'
  end.

(** [s.split(sep)] for a one-character separator: never the empty list. *)
Fixpoint split (sep : ascii) (s : string) : list string :=
  match s with
  | EmptyString => [EmptyString]
  | String c s' =>
      if Ascii.eqb c sep then EmptyString :: split sep s'
      else match split sep s' with
           | [] => [String c EmptyString]
           | h :: t => String c h :: t
           end
  end.

(** [parts.join(sep)] *)
Fixpoint join (sep : string) (parts : list string) : string :=
  match parts with
  | [] => EmptyString
  | [p] => p
  | p :: rest => p ++ sep ++ join sep rest
  end.

(** White space and line terminators among the code units 0..255. *)
Definition is_space (c : ascii) : bool :=
  let n := code c in
  ((9 <=? n) && (n <=? 13)) || (n =? 32) || (n =? 160).

Fixpoint trimStart (s : string) : string :=
  match s with
  | EmptyString => EmptyString
  | String c s' => if is_space c then trimStart s' else s
  end.

(** [trimEnd] written structurally: a suffix made of white space only is
    dropped. *)
Fixpoint trimEnd (s : string) : string :=
  match s with
  | EmptyString => EmptyString
  | String c s' =>
      match trimEnd s' with
      | EmptyString => if is_space c then EmptyString else String c EmptyString
      | t => String c t
      end
  end.

Definition trim (s : string) : string := trimEnd (trimStart s).

Definition len (s : string) : Z := Z.of_nat (String.length s).

Fixpoint all_chars (p : ascii -> bool) (s : string) : bool :=
  match s with
  | EmptyString => true
  | String c s' => p c && all_chars p s'
  end.

(** [arr.pop()] right after a [split]: the last element. *)
Fixpoint pop (l : list string) : option string :=
  match l with
  | [] => None
  | [x] => Some x
  | _ :: t => pop t
  end.

(** [s.endsWith(suffix)] *)
Fixpoint endsWith (suffix s : string) : bool :=
  String.eqb suffix s ||
  match s with
  | EmptyString => false
  | String _ s' => endsWith suffix s'
  end.

Fixpoint drop (n : nat) (s : string) : string :=
  match n, s with
  | O, _ => s
  | S n', String _ s' => drop n' s'
  | S _, EmptyString => EmptyString
  end.

(** [s.replace(pattern, replacement)] for a string pattern: the first
    occurrence only. *)
Fixpoint replace_first (pattern replacement s : string) : string :=
  if startsWith pattern s then replacement ++ drop (String.length pattern) s
  else match s with
       | EmptyString => EmptyString
       | String c s' => String c (replace_first pattern replacement s')
       end.

End JsString.

(** ** JavaScript values as far as JSON carries them *)

#[local] Set Warnings "-register-all".

Inductive jsval : Type :=
| JUndefined
| JNull
| JBool (b : bool)
| JNum (n : Z)
| JStr (s : string)
| JArr (items : list jsval)
| JObj (props : list (string * jsval)).

Module JsVal.

(** ToBoolean *)
Definition truthy (v : jsval) : bool :=
  match v with
  | JUndefined | JNull => false
  | JBool b => b
  | JNum n => negb (n =? 0)
  | JStr s => negb (String.eqb s "")
  | JArr _ | JObj _ => true
  end.

(** [a === b].  Arrays and objects are compared by reference; two values
    that come from different places (a parsed token, a parameter) are
    different references. *)
Definition strict_eq (a b : jsval) : bool :=
  match a, b with
  | JUndefined, JUndefined => true
  | JNull, JNull => true
  | JBool x, JBool y => Bool.eqb x y
  | JNum x, JNum y => x =? y
  | JStr x, JStr y => String.eqb x y
  | _, _ => false
  end.

Fixpoint lookup (k : string) (props : list (string * jsval)) : jsval :=
  match props with
  | [] => JUndefined
  | (k', v) :: rest => if String.eqb k k' then v else lookup k rest
  end.

(** Property read [v.k]: a [TypeError] on [undefined] and [null],
    [undefined] for a property that is not there. *)
Definition get (v : jsval) (k : string) : result jsval :=
  match v with
  | JUndefined => Throw (TypeError ("Cannot read properties of undefined (reading '" ++ k ++ "')"))
  | JNull => Throw (TypeError ("Cannot read properties of null (reading '" ++ k ++ "')"))
  | JObj props => Ok (lookup k props)
  | _ => Ok JUndefined
  end.

(** Decimal rendering of an integer, as a template literal does it. *)
Definition num_to_string (n : Z) : string :=
  NilZero.string_of_int (Z.to_int n).

(** ToString, used by template literals. *)
Fixpoint to_string (v : jsval) : string :=
  match v with
  | JUndefined => "undefined"
  | JNull => "null"
  | JBool true => "true"
  | JBool false => "false"
  | JNum n => num_to_string n
  | JStr s => s
  | JArr items =>
      JsString.join ","
        (map (fun x => match x with
                       | JUndefined | JNull => EmptyString
                       | _ => to_string x
                       end) items)
  | JObj _ => "[object Object]"
  end.

End JsVal.

(** ** Bytes, base64 and hexadecimal text *)

Module Bytes.

Definition Z_of_byte (b : byte) : Z := Z.of_N (Byte.to_N b).

Definition byte_of_Z (z : Z) : byte :=
  match Byte.of_N (Z.to_N (z mod 256)) with
  | Some b => b
  | None => x00
  end.

(** [String.fromCharCode(...bytes)] and the [charCodeAt] loop that fills a
    [Uint8Array] from a binary string. *)
Definition fromCharCodes (l : list byte) : string := string_of_list_byte l.
Definition charCodes (s : string) : list byte := list_byte_of_string s.

(** The base64 alphabet: A-Z, a-z, 0-9, [+], [/]. *)
Definition b64_char (i : Z) : ascii :=
  if i <? 26 then JsString.chr (65 + i)
  else if i <? 52 then JsString.chr (97 + (i - 26))
  else if i <? 62 then JsString.chr (48 + (i - 52))
  else if i =? 62 then "+"%char
  else "/"%char.

Definition b64_index (c : ascii) : option Z :=
  let n := JsString.code c in
  if (65 <=? n) && (n <=? 90) then Some (n - 65)
  else if (97 <=? n) && (n <=? 122) then Some (n - 97 + 26)
  else if (48 <=? n) && (n <=? 57) then Some (n - 48 + 52)
  else if n =? 43 then Some 62
  else if n =? 47 then Some 63
  else None.

(** [btoa] on the characters of a binary string, three bytes at a time. *)
Fixpoint b64_encode (l : list byte) : string :=
  match l with
  | a :: b :: c :: rest =>
      let n := Z_of_byte a * 65536 + Z_of_byte b * 256 + Z_of_byte c in
      String (b64_char (n / 262144))
        (String (b64_char ((n / 4096) mod 64))
           (String (b64_char ((n / 64) mod 64))
              (String (b64_char (n mod 64)) (b64_encode rest))))
  | [a; b] =>
      let n := Z_of_byte a * 65536 + Z_of_byte b * 256 in
      String (b64_char (n / 262144))
        (String (b64_char ((n / 4096) mod 64))
           (String (b64_char ((n / 64) mod 64)) "="))
  | [a] =>
      let n := Z_of_byte a * 65536 in
      String (b64_char (n / 262144))
        (String (b64_char ((n / 4096) mod 64)) "==")
  | [] => EmptyString
  end.

Definition btoa (binary : string) : string := b64_encode (charCodes binary).

(** [atob] is the forgiving base64 decoder: it drops ASCII white space,
    drops one or two trailing [=] when the length is a multiple of four,
    refuses a length of 1 modulo 4 and any character outside the alphabet,
    and discards the bits left over at the end. *)
Definition is_ascii_whitespace (c : ascii) : bool :=
  let n := JsString.code c in
  (n =? 9) || (n =? 10) || (n =? 12) || (n =? 13) || (n =? 32).

Fixpoint remove_chars (p : ascii -> bool) (s : string) : string :=
  match s with
  | EmptyString => EmptyString
  | String c s' => if p c then remove_chars p s' else String c (remove_chars p s')
  end.

Definition is_eq_sign (c : ascii) : bool := Ascii.eqb c "="%char.

(** Drop one [=] at the end, if there is one. *)
Fixpoint drop_last_eq (s : string) : string :=
  match s with
  | EmptyString => EmptyString
  | String c EmptyString => if is_eq_sign c then EmptyString else s
  | String c s' => String c (drop_last_eq s')
  end.

Fixpoint sextets (s : string) : option (list Z) :=
  match s with
  | EmptyString => Some []
  | String c s' =>
      match b64_index c, sextets s' with
      | Some i, Some l => Some (i :: l)
      | _, _ => None
      end
  end.

Fixpoint b64_decode (l : list Z) : list byte :=
  match l with
  | a :: b :: c :: d :: rest =>
      let n := a * 262144 + b * 4096 + c * 64 + d in
      byte_of_Z (n / 65536) :: byte_of_Z (n / 256) :: byte_of_Z n :: b64_decode rest
  | [a; b; c] =>
      let n := a * 262144 + b * 4096 + c * 64 in
      [byte_of_Z (n / 65536); byte_of_Z (n / 256)]
  | [a; b] =>
      let n := a * 262144 + b * 4096 in
      [byte_of_Z (n / 65536)]
  | _ => []
  end.

Definition atob (data : string) : result string :=
  let data := remove_chars is_ascii_whitespace data in
  let data :=
    if JsString.len data mod 4 =? 0 then drop_last_eq (drop_last_eq data)
    else data in
  if JsString.len data mod 4 =? 1 then Throw InvalidCharacterError
  else match sextets data with
       | None => Throw InvalidCharacterError
       | Some l => Ok (fromCharCodes (b64_decode l))
       end.

(** [s.replace(/a/g, b)] for single characters. *)
Fixpoint replace_char (a b : ascii) (s : string) : string :=
  match s with
  | EmptyString => EmptyString
  | String c s' => String (if Ascii.eqb c a then b else c) (replace_char a b s')
  end.

Fixpoint repeat_char (c : ascii) (n : nat) : string :=
  match n with
  | O => EmptyString
  | S n' => String c (repeat_char c n')
  end.

(** [s.padEnd(target, "=")] *)
Definition padEnd (s : string) (target : Z) (c : ascii) : string :=
  s ++ repeat_char c (Z.to_nat (target - JsString.len s)).

(** Two lower-case hexadecimal digits: [b.toString(16).padStart(2, '0')]. *)
Definition hex_digit (i : Z) : ascii :=
  if i <? 10 then JsString.chr (48 + i) else JsString.chr (97 + (i - 10)).

Definition hex2 (b : byte) : string :=
  let n := Z_of_byte b in
  String (hex_digit (n / 16)) (String (hex_digit (n mod 16)) EmptyString).

(** [Array.from(bytes).map(b => ...).join('')] *)
Fixpoint hex_of_bytes (l : list byte) : string :=
  match l with
  | [] => EmptyString
  | b :: rest => hex2 b ++ hex_of_bytes rest
  end.

(** [new Uint8Array(n)] and [arr.set(src, offset)], which throws when the
    source does not fit. *)
Definition new_Uint8Array (n : nat) : list byte := repeat x00 n.

Definition set (arr src : list byte) (offset : nat) : result (list byte) :=
  if (offset + List.length src <=? List.length arr)%nat
  then Ok (firstn offset arr ++ src ++ skipn (offset + List.length src) arr)%list
  else Throw (RangeError "offset is out of bounds").

(** [arr.slice(from, to)] *)
Definition slice (arr : list byte) (from to : nat) : list byte :=
  firstn (to - from) (skipn from arr).

End Bytes.

(** ** The platform and the ethers library

    The built-ins of the JavaScript runtime and the functions imported from
    ethers are parameters of the model. *)

Class Platform : Type := {
  (** [JSON.stringify(v)] for a value other than [undefined] *)
  JSON_stringify : jsval -> string;
  (** [JSON.parse(text)], which throws a [SyntaxError] *)
  JSON_parse : string -> result jsval;
  (** [new TextEncoder().encode(s)] *)
  TextEncoder_encode : string -> list byte;
  (** [new TextDecoder().decode(bytes)] *)
  TextDecoder_decode : list byte -> string;
  (** [new Date(s).getTime()]; [None] is [NaN] *)
  Date_getTime : string -> option Z;
  (** ToNumber on strings, arrays and objects; [None] is [NaN] *)
  ToNumber : jsval -> option Z;
  (** [new Date(ms).toISOString()], a [RangeError] on an invalid time *)
  Date_toISOString : option Z -> result string
}.

Record Signature : Type := {
  sig_r : string;
  sig_s : string;
  sig_v : Z
}.

Class Ethers : Type := {
  keccak256 : list byte -> string;
  toUtf8Bytes : string -> list byte;
  getBytes : string -> result (list byte);
  isAddress : string -> bool;
  getAddress : string -> result string;
  recoverAddress : string -> Signature -> result string
}.

(** An ethers [Wallet]: its address and the [sign] method of its signing
    key. *)
Record Wallet : Type := {
  address : string;
  signingKey_sign : string -> Signature
}.

(** ToNumber; [None] is [NaN]. *)
Definition to_number `{Platform} (v : jsval) : option Z :=
  match v with
  | JNum x => Some x
  | JUndefined => None
  | JNull => Some 0
  | JBool b => Some (if b then 1 else 0)
  | _ => ToNumber v
  end.

(** [a < n] and [a > n] for a number [n]: the operand [a] is converted with
    ToNumber, and a comparison with [NaN] is false. *)
Definition js_lt `{Platform} (a : jsval) (n : Z) : bool :=
  match to_number a with
  | Some x => x <? n
  | None => false
  end.

Definition js_gt `{Platform} (a : jsval) (n : Z) : bool :=
  match to_number a with
  | Some x => n <? x
  | None => false
  end.

(** [new Date(v).getTime()]: a string is parsed, [undefined] gives [NaN],
    a number is the time itself when it is in the range of [Date]. *)
Definition date_getTime `{Platform} (v : jsval) : option Z :=
  match v with
  | JStr s => Date_getTime s
  | JUndefined => None
  | JArr _ | JObj _ => Date_getTime (JsVal.to_string v)
  | _ =>
      match to_number v with
      | Some n => if Z.abs n <=? 8640000000000000 then Some n else None
      | None => None
      end
  end.

(** ** did.ts: the DID:PKH codec *)

Module Did.

Record DIDPKHAddress : Type := {
  did : string;
  address : string;
  (** the result of [parseInt]; [None] is [NaN] *)
  chainId : option Z
}.

(** [createDIDPKH(address, chainId = 1)] *)
Definition createDIDPKH `{Ethers} (address : string) (chainId : Z) : result string :=
  if negb (isAddress address)
  then Throw (Error ("Invalid Ethereum address: " ++ address))
  else
    let* checksumAddress := getAddress address in
    Ok ("did:pkh:eip155:" ++ JsVal.num_to_string chainId ++ ":" ++ checksumAddress).

Definition is_digit (c : ascii) : bool :=
  let n := JsString.code c in (48 <=? n) && (n <=? 57).

Definition is_hex (c : ascii) : bool :=
  let n := JsString.code c in
  ((48 <=? n) && (n <=? 57)) || ((97 <=? n) && (n <=? 102))
  || ((65 <=? n) && (n <=? 70)).

(** The longest prefix of digits, and what follows it. *)
Fixpoint span_digits (s : string) : string * string :=
  match s with
  | EmptyString => (EmptyString, EmptyString)
  | String c s' =>
      if is_digit c
      then let (d, rest) := span_digits s' in (String c d, rest)
      else (EmptyString, s)
  end.

(** [0x[a-fA-F0-9]{40}] up to the end of the input *)
Definition is_0x_hex40 (a : string) : bool :=
  JsString.startsWith "0x" a
  && (String.length a =? 42)%nat
  && JsString.all_chars is_hex (JsString.drop 2 a).

(** [did.match(/^did:pkh:eip155:(\d+):(0x[a-fA-F0-9]{40})$/)]: the two
    groups of a match.  The digits are followed by a colon, so the greedy
    group is the whole run of digits. *)
Definition match_didPattern (did : string) : option (string * string) :=
  if JsString.startsWith "did:pkh:eip155:" did then
    let (chainIdStr, rest) := span_digits (JsString.drop 15 did) in
    match chainIdStr, rest with
    | String _ _, String ":" addr =>
        if is_0x_hex40 addr then Some (chainIdStr, addr) else None
    | _, _ => None
    end
  else None.

(** [parseInt(s, 10)] on a string of digits *)
Definition parseInt10 (s : string) : option Z :=
  option_map Z.of_uint (NilZero.uint_of_string s).

Definition parseDIDPKH `{Ethers} (did : string) : result DIDPKHAddress :=
  match match_didPattern did with
  | None => Throw (Error ("Invalid DID:PKH format: " ++ did))
  | Some (chainIdStr, address) =>
      let chainId := parseInt10 chainIdStr in
      if negb (isAddress address)
      then Throw (Error ("Invalid address in DID:PKH: " ++ address))
      else
        let* checksum := getAddress address in
        Ok {| did := did; address := checksum; chainId := chainId |}
  end.

Definition validateDIDPKHAddress `{Ethers} (did expectedAddress : string) : bool :=
  match parseDIDPKH did with
  | Ok parsed =>
      String.eqb (JsString.toLowerCase (address parsed))
                 (JsString.toLowerCase expectedAddress)
  | Throw _ => false
  end.

Definition extractAddressFromDID `{Ethers} (did : string) : result string :=
  let* parsed := parseDIDPKH did in Ok (address parsed).

Definition isValidDIDPKH `{Ethers} (did : string) : bool :=
  match match_didPattern did with
  | None => false
  | Some (_, address) => isAddress address
  end.

End Did.

(** ** utils.ts: trust list, requirement validation, credential matching *)

Module Utils.

(** Where the code runs: a browser with the variables Vite substitutes for
    [import.meta.env], Node with [process.env], or neither. *)
Inductive Runtime : Type :=
| Browser (VITE_TRUSTED_ISSUERS VITE_LIT_CAPACITY_CREDIT_TOKEN_ID : option string)
| Node (process_env : string -> option string)
| Other.

Definition DEFAULT_TRUSTED_ISSUERS : string :=
  "did:web:rebasedemokey.pages.dev,did:web:issuer.tinycloud.xyz".

(** [a || b] on an optional string: [b] when [a] is undefined or empty. *)
Definition or_default (a : option string) (b : string) : string :=
  match a with
  | Some (String c s) => String c s
  | _ => b
  end.

(** [getEnv(name)]; the [console.warn] calls of the original leave no
    trace here. *)
Definition getEnv (rt : Runtime) (name : string) : result string :=
  match rt with
  | Browser vite_issuers vite_token =>
      if String.eqb name "TRUSTED_ISSUERS"
      then Ok (or_default vite_issuers DEFAULT_TRUSTED_ISSUERS)
      else if String.eqb name "LIT_CAPACITY_CREDIT_TOKEN_ID"
      then Ok (or_default vite_token EmptyString)
      else Ok EmptyString
  | Node process_env =>
      match process_env name with
      | Some (String c s) => Ok (String c s)
      | _ => Throw (Error ("Node: " ++ name
                           ++ " ENV is not defined, please define it in the .env file"))
      end
  | Other =>
      if String.eqb name "TRUSTED_ISSUERS" then Ok DEFAULT_TRUSTED_ISSUERS
      else Ok EmptyString
  end.

Definition getTrustedIssuers (rt : Runtime) : result (list string) :=
  let* trustedIssuersEnv := getEnv rt "TRUSTED_ISSUERS" in
  Ok (filter (fun issuer => (0 <? JsString.len issuer))
        (map JsString.trim (JsString.split "," trustedIssuersEnv))).

(** [list.includes(x)] on strings *)
Definition includes_string (l : list string) (x : string) : bool :=
  existsb (String.eqb x) l.

Definition validateTrustedIssuer (rt : Runtime) (issuer : string) : result bool :=
  let* trustedIssuers := getTrustedIssuers rt in
  Ok (includes_string trustedIssuers issuer).

(** [claims]: [githubHandle] is typed [string | string[]] and checked at run
    time, so it is any value here, [JUndefined] when absent;
    [minIssuanceAge] is a number when present. *)
Record Claims : Type := {
  githubHandle : jsval;
  minIssuanceAge : option Z;
  requiredEvidence : option (list string)
}.

Record CredentialRequirements : Type := {
  issuer : string;
  credentialType : string;
  claims : option Claims
}.

(** [requirements.claims?.githubHandle] *)
Definition claims_githubHandle (requirements : CredentialRequirements) : jsval :=
  match claims requirements with
  | Some c => githubHandle c
  | None => JUndefined
  end.

(** [requirements.claims?.minIssuanceAge] *)
Definition claims_minIssuanceAge (requirements : CredentialRequirements) : option Z :=
  match claims requirements with
  | Some c => minIssuanceAge c
  | None => None
  end.

(** [Array.isArray(h) ? h : [h]] *)
Definition as_array (h : jsval) : list jsval :=
  match h with
  | JArr items => items
  | _ => [h]
  end.

(** [!handle || typeof handle !== 'string' || handle.trim().length === 0] *)
Definition invalid_handle (handle : jsval) : bool :=
  negb (JsVal.truthy handle)
  || match handle with
     | JStr s => JsString.len (JsString.trim s) =? 0
     | _ => true
     end.

Fixpoint check_handles (handles : list jsval) : result unit :=
  match handles with
  | [] => Ok tt
  | handle :: rest =>
      if invalid_handle handle
      then Throw (Error ("Invalid GitHub handle: " ++ JsVal.to_string handle
                         ++ ". GitHub handles must be non-empty strings."))
      else check_handles rest
  end.

Definition validateGithubCredentialRequirements
    (rt : Runtime) (requirements : CredentialRequirements) : result unit :=
  let* trusted := validateTrustedIssuer rt (issuer requirements) in
  let* _ :=
    if negb trusted then
      let* trustedIssuers := getTrustedIssuers rt in
      Throw (Error ("Untrusted issuer: " ++ issuer requirements
                    ++ ". Trusted issuers: " ++ JsString.join ", " trustedIssuers))
    else Ok tt in
  if negb (String.eqb (credentialType requirements) "GitHubVerification")
  then Throw (Error ("Invalid credential type: " ++ credentialType requirements
                     ++ ". Only GitHubVerification is supported."))
  else
    match claims_githubHandle requirements with
    | JUndefined => Ok tt
    | h => check_handles (as_array h)
    end.

(** [credentialSubject] is typed [any]; the code reads its [id] and calls
    [includes] on it, so it is an optional object with an optional string
    [id] here. *)
Record CredentialSubject : Type := {
  id : option string
}.

Record ParsedCredential : Type := {
  jwt : string;
  cred_issuer : string;
  subject : string;
  credentialSubject : option CredentialSubject;
  evidence : jsval;
  issuanceDate : string;
  handle : option string
}.

(** [credentials || []] *)
Definition loadCredentials (credentials : option (list ParsedCredential))
  : list ParsedCredential :=
  match credentials with
  | Some l => l
  | None => []
  end.

(** [requiredHandles.includes(cred.handle)] for a string [cred.handle] *)
Definition includes_handle (requiredHandles : list jsval) (h : string) : bool :=
  existsb (JsVal.strict_eq (JStr h)) requiredHandles.

(** The subject test: [cred.credentialSubject], its [id] and
    [id.includes(userAddress.toLowerCase())]. *)
Definition subject_matches (cred : ParsedCredential) (userAddress : string) : bool :=
  match credentialSubject cred with
  | Some cs =>
      match id cs with
      | Some (String c s) =>
          JsString.includes (JsString.toLowerCase userAddress) (String c s)
      | _ => false
      end
  | None => false
  end.

(** The handle test, run when [requirements.claims?.githubHandle] is
    truthy. *)
Definition handle_matches (cred : ParsedCredential)
    (requirements : CredentialRequirements) : bool :=
  let h := claims_githubHandle requirements in
  if JsVal.truthy h then
    match handle cred with
    | Some (String c s) => includes_handle (as_array h) (String c s)
    | _ => false
    end
  else true.

(** The issuance test, run when [requirements.claims?.minIssuanceAge] is
    truthy: [issuanceTime < minTime] rejects, and is false on [NaN]. *)
Definition issuance_matches `{Platform} (Date_now : Z) (cred : ParsedCredential)
    (requirements : CredentialRequirements) : bool :=
  match claims_minIssuanceAge requirements with
  | Some age =>
      if age =? 0 then true
      else
        let minTime := Date_now - age * 1000 in
        match Date_getTime (issuanceDate cred) with
        | Some issuanceTime => negb (issuanceTime <? minTime)
        | None => true
        end
  | None => true
  end.

(** The callback of [credentials.find]. *)
Definition credential_matches `{Platform} (Date_now : Z)
    (requirements : CredentialRequirements) (userAddress : string)
    (cred : ParsedCredential) : bool :=
  if negb (String.eqb (cred_issuer cred) (issuer requirements)) then false
  else if negb (subject_matches cred userAddress) then false
  else if negb (handle_matches cred requirements) then false
  else if negb (issuance_matches Date_now cred requirements) then false
  else true.

(** [findMatchingCredential]: [credentials.find(...) || null] *)
Definition findMatchingCredential `{Platform} (Date_now : Z)
    (credentials : list ParsedCredential)
    (requirements : CredentialRequirements) (userAddress : string)
  : option ParsedCredential :=
  find (credential_matches Date_now requirements userAddress) credentials.

(** The requirement as the JSON value a token carries. *)
Definition claims_to_js (c : Claims) : jsval :=
  JObj ((match githubHandle c with
         | JUndefined => []
         | h => [("githubHandle", h)]
         end)
        ++ (match minIssuanceAge c with
            | Some n => [("minIssuanceAge", JNum n)]
            | None => []
            end)
        ++ (match requiredEvidence c with
            | Some l => [("requiredEvidence", JArr (map JStr l))]
            | None => []
            end))%list.

Definition requirements_to_js (r : CredentialRequirements) : jsval :=
  JObj ([("issuer", JStr (issuer r)); ("credentialType", JStr (credentialType r))]
        ++ match claims r with
           | Some c => [("claims", claims_to_js c)]
           | None => []
           end)%list.

End Utils.

(** ** jwt.ts: the ES256K token signer and verifier *)

Module Jwt.

(** [base64urlEncode(data)] for a [Uint8Array] *)
Definition base64urlEncode_bytes (bytes : list byte) : string :=
  let base64 := Bytes.btoa (Bytes.fromCharCodes bytes) in
  Bytes.remove_chars Bytes.is_eq_sign
    (Bytes.replace_char "/" "_" (Bytes.replace_char "+" "-" base64)).

(** [base64urlEncode(data)] for a string, encoded with [TextEncoder] first *)
Definition base64urlEncode `{Platform} (data : string) : string :=
  base64urlEncode_bytes (TextEncoder_encode data).

Definition base64urlDecode (data : string) : result (list byte) :=
  let base64 := Bytes.replace_char "_" "/" (Bytes.replace_char "-" "+" data) in
  let padded :=
    Bytes.padEnd base64
      (JsString.len base64 + (4 - JsString.len base64 mod 4) mod 4) "=" in
  let* binary := Bytes.atob padded in
  Ok (Bytes.charCodes binary).

(** [generateNonce()]: [random] is what [crypto.getRandomValues] wrote into
    the 16-byte array. *)
Definition generateNonce (random : list byte) : string :=
  base64urlEncode_bytes random.

(** Writing a property of an object literal after a spread: the value of an
    existing key is replaced in place, a new key goes to the end. *)
Fixpoint obj_set (k : string) (v : jsval) (props : list (string * jsval))
  : list (string * jsval) :=
  match props with
  | [] => [(k, v)]
  | (k', v') :: rest =>
      if String.eqb k k' then (k, v) :: rest else (k', v') :: obj_set k v rest
  end.

Definition jwt_header (userDID : string) : jsval :=
  JObj [("alg", JStr "ES256K"); ("typ", JStr "JWT");
        ("kid", JStr (userDID ++ "#controller"))].

(** [{...payload, iss, sub, iat, exp, nonce}] *)
Definition completePayload (payload : list (string * jsval)) (userDID : string)
    (now expirationMinutes : Z) (nonce : string) : jsval :=
  JObj (obj_set "nonce" (JStr nonce)
         (obj_set "exp" (JNum (now + expirationMinutes * 60))
           (obj_set "iat" (JNum now)
             (obj_set "sub" (JStr userDID)
               (obj_set "iss" (JStr userDID) payload))))).

(** [signES256KJWT(wallet, payload, expirationMinutes)], run at the clock
    reading [Date_now] (milliseconds) with the random bytes [random]. *)
Definition signES256KJWT `{Platform} `{Ethers} (Date_now : Z) (random : list byte)
    (wallet : Wallet) (payload : list (string * jsval)) (expirationMinutes : Z)
  : result string :=
  let now := Date_now / 1000 in
  let* userDID := Did.createDIDPKH (address wallet) 1 in
  let header := jwt_header userDID in
  let completePayload :=
    completePayload payload userDID now expirationMinutes (generateNonce random) in
  let encodedHeader := base64urlEncode (JSON_stringify header) in
  let encodedPayload := base64urlEncode (JSON_stringify completePayload) in
  let signingInput := encodedHeader ++ "." ++ encodedPayload in
  let messageHash := keccak256 (toUtf8Bytes signingInput) in
  let signature := signingKey_sign wallet messageHash in
  let* rBytes := getBytes (sig_r signature) in
  let* sBytes := getBytes (sig_s signature) in
  let rawSignature := Bytes.new_Uint8Array 64 in
  let* rawSignature := Bytes.set rawSignature rBytes 0 in
  let* rawSignature := Bytes.set rawSignature sBytes 32 in
  let encodedSignature := base64urlEncode_bytes rawSignature in
  Ok (signingInput ++ "." ++ encodedSignature).

Record Verified : Type := {
  header : jsval;
  payload : jsval;
  valid : bool
}.

(** A segment taken out of [jwt.split('.')] by destructuring is falsy when
    it is missing or empty. *)
Definition segment (parts : list string) (i : nat) : option string :=
  match nth_error parts i with
  | Some (String c s) => Some (String c s)
  | _ => None
  end.

(** [JSON.parse(new TextDecoder().decode(base64urlDecode(segment)))] *)
Definition decode_segment `{Platform} (encoded : string) : result jsval :=
  let* bytes := base64urlDecode encoded in
  JSON_parse (TextDecoder_decode bytes).

(** [v.startsWith(p)] on a value that need not be a string *)
Definition call_startsWith (v : jsval) (p : string) : result bool :=
  match v with
  | JStr s => Ok (JsString.startsWith p s)
  | JUndefined =>
      Throw (TypeError "Cannot read properties of undefined (reading 'startsWith')")
  | JNull =>
      Throw (TypeError "Cannot read properties of null (reading 'startsWith')")
  | _ => Throw (TypeError "startsWith is not a function")
  end.

(** [v.split(':').pop()] on a value known to be a string *)
Definition last_segment (v : jsval) : option string :=
  match v with
  | JStr s => JsString.pop (JsString.split ":" s)
  | _ => None
  end.

(** The loop over the recovery parameters: the first recovered address that
    equals the signer's, case apart; a throwing recovery is skipped. *)
Fixpoint try_recover `{Ethers} (messageHash r s signerAddress : string)
    (recoveryParams : list Z) : option string :=
  match recoveryParams with
  | [] => None
  | recoveryParam :: rest =>
      let v := recoveryParam + 27 in
      match recoverAddress messageHash {| sig_r := r; sig_s := s; sig_v := v |} with
      | Ok recovered =>
          if String.eqb (JsString.toLowerCase recovered)
                        (JsString.toLowerCase signerAddress)
          then Some recovered
          else try_recover messageHash r s signerAddress rest
      | Throw _ => try_recover messageHash r s signerAddress rest
      end
  end.

(** [verifyES256KJWT(jwt)], run at the clock reading [Date_now]. *)
Definition verifyES256KJWT `{Platform} `{Ethers} (Date_now : Z) (jwt : string)
  : result Verified :=
  let parts := JsString.split "." jwt in
  match segment parts 0, segment parts 1, segment parts 2 with
  | Some encodedHeader, Some encodedPayload, Some encodedSignature =>
      let* header := decode_segment encodedHeader in
      let* payload := decode_segment encodedPayload in
      let* alg := JsVal.get header "alg" in
      if negb (JsVal.strict_eq alg (JStr "ES256K"))
      then Throw (Error ("Unsupported algorithm: " ++ JsVal.to_string alg))
      else
        let* iss := JsVal.get payload "iss" in
        let* is_pkh := call_startsWith iss "did:pkh:eip155:" in
        let* sub := JsVal.get payload "sub" in
        if negb is_pkh || negb (JsVal.strict_eq iss sub)
        then Throw (Error "Invalid DID format in JWT")
        else
          match last_segment iss with
          | Some (String c a) =>
              let signerAddress := String c a in
              if negb (isAddress signerAddress)
              then Throw (Error "Invalid address in JWT DID")
              else
                let now := Date_now / 1000 in
                let* exp := JsVal.get payload "exp" in
                if js_lt exp now
                then Ok {| header := header; payload := payload; valid := false |}
                else
                  let signingInput := encodedHeader ++ "." ++ encodedPayload in
                  let messageHash := keccak256 (toUtf8Bytes signingInput) in
                  let* rawSignature := base64urlDecode encodedSignature in
                  if negb (List.length rawSignature =? 64)%nat
                  then Throw (Error "Invalid signature length")
                  else
                    let r := "0x" ++ Bytes.hex_of_bytes (Bytes.slice rawSignature 0 32) in
                    let s := "0x" ++ Bytes.hex_of_bytes (Bytes.slice rawSignature 32 64) in
                    let recoveredAddress :=
                      try_recover messageHash r s signerAddress [0; 1] in
                    let valid :=
                      match recoveredAddress with Some _ => true | None => false end in
                    Ok {| header := header; payload := payload; valid := valid |}
          | _ => Throw (Error "Invalid address in JWT DID")
          end
  | _, _, _ => Throw (Error "Invalid JWT format")
  end.

(** The payload fields [createEncryptionJWT] and [createDecryptionJWT] pass
    to the signer. *)
Definition purpose_payload (purpose : string)
    (credentialRequirements : Utils.CredentialRequirements)
  : list (string * jsval) :=
  [("aud", JStr "lit-protocol-encryption");
   ("purpose", JStr purpose);
   ("resource", JStr "credential-gated-secret");
   ("credential_requirements", Utils.requirements_to_js credentialRequirements)].

Definition createEncryptionJWT `{Platform} `{Ethers} (Date_now : Z) (random : list byte)
    (wallet : Wallet) (credentialRequirements : Utils.CredentialRequirements)
  : result string :=
  signES256KJWT Date_now random wallet
    (purpose_payload "encrypt" credentialRequirements) 5.

Definition createDecryptionJWT `{Platform} `{Ethers} (Date_now : Z) (random : list byte)
    (wallet : Wallet) (credentialRequirements : Utils.CredentialRequirements)
  : result string :=
  signES256KJWT Date_now random wallet
    (purpose_payload "decrypt" credentialRequirements) 5.

(** [parseJWT(jwt)]: decoding without verification *)
Definition parseJWT `{Platform} (jwt : string) : result (jsval * jsval) :=
  let parts := JsString.split "." jwt in
  match segment parts 0, segment parts 1 with
  | Some encodedHeader, Some encodedPayload =>
      let* header := decode_segment encodedHeader in
      let* payload := decode_segment encodedPayload in
      Ok (header, payload)
  | _, _ => Throw (Error "Invalid JWT format")
  end.

(** [validateJWTUserAddress]: every exception inside becomes [false]; a
    [payload.iss] that is no string makes [did.match] throw. *)
Definition validateJWTUserAddress `{Platform} `{Ethers}
    (jwt expectedAddress : string) : bool :=
  match parseJWT jwt with
  | Ok (_, payload) =>
      match JsVal.get payload "iss" with
      | Ok (JStr iss) => Did.validateDIDPKHAddress iss expectedAddress
      | _ => false
      end
  | Throw _ => false
  end.

End Jwt.

(** ** Effects: a trace of what a run does

    A run of an orchestrating function yields its outcome and the list of
    the effects it performed, in order.  Besides the console and the
    external services, the trace records two steps that are plain function
    calls in the source, minting a token and matching the credential pool,
    so that a trace tells which steps of the protocol a run reached. *)

Inductive Event : Type :=
| console_log (message : string)
| console_warn (message : string)
| console_error (message : string)
| mint_token (purpose signer : string)
| match_credentials (userAddress : string)
| new_LitNodeClient
| litNodeClient_connect
| litContracts_connect
| mintCapacityCreditsNFT
| createCapacityDelegationAuthSig
| getSessionSigs
| executeJs (jsParams : jsval)
| litNodeClient_disconnect
| fetch (url : string)
| decryptAndCombine (ciphertext dataToEncryptHash : jsval)
| setResponse (response : jsval).

Definition M (A : Type) : Type := (result A * list Event)%type.

Definition ret {A : Type} (a : A) : M A := (Ok a, []).

Definition throw {A : Type} (e : JsError) : M A := (Throw e, []).

Definition emit (e : Event) : M unit := (Ok tt, [e]).

Definition lift {A : Type} (r : result A) : M A := (r, []).

Definition mbind {A B : Type} (m : M A) (k : A -> M B) : M B :=
  match m with
  | (Ok a, t1) => let (r, t2) := k a in (r, (t1 ++ t2)%list)
  | (Throw e, t1) => (Throw e, t1)
  end.

(** [try { m } catch (e) { handler e }] *)
Definition try_catch {A : Type} (m : M A) (handler : JsError -> M A) : M A :=
  match m with
  | (Ok a, t1) => (Ok a, t1)
  | (Throw e, t1) => let (r, t2) := handler e in (r, (t1 ++ t2)%list)
  end.

(** [try { m } finally { cleanup }]: the cleanup sees what ran before it,
    and an exception of its own replaces the outcome. *)
Definition try_finally {A : Type} (m : M A) (cleanup : list Event -> M unit) : M A :=
  let (r, t1) := m in
  match cleanup t1 with
  | (Ok _, t2) => (r, (t1 ++ t2)%list)
  | (Throw e, t2) => (Throw e, (t1 ++ t2)%list)
  end.

Notation "'do' x '<-' m ';' k" := (mbind m (fun x => k))
  (at level 10, x name, m at level 100, k at level 200) : js_scope.

Definition outcome {A : Type} (m : M A) : result A := fst m.
Definition trace {A : Type} (m : M A) : list Event := snd m.

(** The bundle the encryption phase produces. *)
Record Metadata : Type := {
  mock : option bool
}.

Record EncryptedData : Type := {
  ciphertext : string;
  dataToEncryptHash : string;
  accessControlConditions : jsval;
  accsResourceString : string;
  credentialRequirements : Utils.CredentialRequirements;
  userSignedJWT : string;
  userAddress : string;
  metadata : option Metadata
}.

(** ** index.ts of the credentials-only browser package *)

Module CredentialsOnly.

(** [encryptedData.metadata?.mock], as a condition *)
Definition metadata_mock (encryptedData : EncryptedData) : bool :=
  match metadata encryptedData with
  | Some m => match mock m with Some b => b | None => false end
  | None => false
  end.

Definition is_mock (encryptedData : EncryptedData) : bool :=
  metadata_mock encryptedData
  || String.eqb (userSignedJWT encryptedData) "mock.jwt.token".

(** [a || b] on an optional string argument *)
Definition or_else (a : option string) (b : string) : string :=
  match a with
  | Some (String c s) => String c s
  | _ => b
  end.

(** [userAddress && userAddress.toLowerCase() !== encryptedData.userAddress.toLowerCase()] *)
Definition address_differs (address : option string) (encryptedData : EncryptedData) : bool :=
  match address with
  | Some (String c s) =>
      negb (String.eqb (JsString.toLowerCase (String c s))
                       (JsString.toLowerCase (userAddress encryptedData)))
  | _ => false
  end.

(** [decryptFromCredentialsWithJWT(encryptedData, userCredentials = [], userAddress?)] *)
Definition decryptFromCredentialsWithJWT `{Platform} (Date_now : Z)
    (encryptedData : EncryptedData)
    (userCredentials : option (list Utils.ParsedCredential))
    (userAddress' : option string) : M jsval :=
  if is_mock encryptedData then
    do _ <- emit (console_log "Detected mock encrypted data, using mock decryption...");
    match Bytes.atob (ciphertext encryptedData) with
    | Ok decodedContent =>
        ret (JObj [("response",
                    JObj [("success", JBool true); ("secret", JStr decodedContent)])])
    | Throw error =>
        do _ <- emit (console_error ("Failed to decode mock content: " ++ error_message error));
        ret (JObj [("response",
                    JObj [("success", JBool false);
                          ("error", JStr "Failed to decode mock encrypted content")])])
    end
  else
    try_catch
      (do _ <- (if address_differs userAddress' encryptedData
           then emit (console_warn
                        "User address mismatch - proceeding with credential verification")
           else ret tt);
       do _ <- emit (console_log "Verifying credentials for access...");
       do _ <- emit (console_log "Loading credentials...");
       let credentials := Utils.loadCredentials userCredentials in
       let address := or_else userAddress' (userAddress encryptedData) in
       do _ <- emit (match_credentials address);
       let matchingCredential :=
         Utils.findMatchingCredential Date_now credentials
           (credentialRequirements encryptedData) address in
       match matchingCredential with
       | None =>
           throw (Error "No matching credential found for the specified requirements")
       | Some cred =>
           do _ <- emit (console_log
                      ("Found matching credential for "
                       ++ match Utils.handle cred with
                          | Some h => h
                          | None => "undefined"
                          end));
           throw (Error ("Real Lit Protocol decryption requires wallet operations. "
                         ++ "This browser package is designed for credentials-only decryption. "
                         ++ "Please use mock encrypted content for testing."))
       end)
      (fun error =>
         do _ <- emit (console_error (error_message error));
         throw error).

End CredentialsOnly.

(** ** index.ts of the wallet-based browser package *)

Module WalletBased.

(** The Lit network as this run finds it: what each call answers. *)
Record LitNetwork : Type := {
  net_connect : result unit;
  net_contracts_connect : result unit;
  net_mintCapacityCreditsNFT : result string;
  net_createCapacityDelegationAuthSig : string -> string -> result jsval;
  net_getSessionSigs : string -> jsval -> result jsval;
  net_executeJs : jsval -> jsval -> result jsval
}.

Definition is_new_LitNodeClient (e : Event) : bool :=
  match e with
  | new_LitNodeClient => true
  | _ => false
  end.

(** The parameters handed to the Lit Action. *)
Definition jsParams (encryptedData : EncryptedData) (credentialJWT : string)
    (walletAddress decryptionJWT : string) : jsval :=
  JObj [("accessControlConditions", accessControlConditions encryptedData);
        ("ciphertext", JStr (ciphertext encryptedData));
        ("dataToEncryptHash", JStr (dataToEncryptHash encryptedData));
        ("credentialJWT", JStr credentialJWT);
        ("credentialRequirements",
         Utils.requirements_to_js (credentialRequirements encryptedData));
        ("userAddress", JStr walletAddress);
        ("userSignedJWT", JStr decryptionJWT);
        ("operationPurpose", JStr "decrypt")].

(** [decryptFromCredentialsWithJWT(encryptedData, userWallet, userCredentials = [])].
    The clock is read once for the whole run. *)
Definition decryptFromCredentialsWithJWT `{Platform} `{Ethers}
    (rt : Utils.Runtime) (net : LitNetwork) (Date_now : Z) (random : list byte)
    (encryptedData : EncryptedData) (userWallet : Wallet)
    (userCredentials : option (list Utils.ParsedCredential)) : M jsval :=
  try_finally
    (try_catch
       (if negb (String.eqb (JsString.toLowerCase (address userWallet))
                            (JsString.toLowerCase (userAddress encryptedData)))
        then throw (Error "User wallet does not match the encrypted data owner")
        else if negb (Jwt.validateJWTUserAddress (userSignedJWT encryptedData)
                        (address userWallet))
        then throw (Error "Stored user JWT does not match user address")
        else
          do _ <- emit (console_log "Generating fresh decryption JWT...");
          do _ <- emit (mint_token "decrypt" (address userWallet));
          do decryptionJWT <-
            lift (Jwt.createDecryptionJWT Date_now random userWallet
                    (credentialRequirements encryptedData));
          do _ <- emit (console_log ("Decryption JWT signed with DID: did:pkh:eip155:1:"
                                     ++ address userWallet));
          do _ <- emit (console_log "Loading credentials...");
          let credentials := Utils.loadCredentials userCredentials in
          do _ <- emit (match_credentials (address userWallet));
          match Utils.findMatchingCredential Date_now credentials
                  (credentialRequirements encryptedData) (address userWallet) with
          | None =>
              throw (Error "No matching credential found for the specified requirements")
          | Some matchingCredential =>
              do _ <- emit (console_log
                              ("Found matching credential for "
                               ++ match Utils.handle matchingCredential with
                                  | Some h => h
                                  | None => "undefined"
                                  end));
              do _ <- emit (console_log "Connecting to the Lit network...");
              do _ <- emit new_LitNodeClient;
              do _ <- emit litNodeClient_connect;
              do _ <- lift (net_connect net);
              do _ <- emit (console_log "Connected to the Lit network");
              do _ <- emit (console_log "Connecting LitContracts client to network...");
              do _ <- emit litContracts_connect;
              do _ <- lift (net_contracts_connect net);
              do _ <- emit (console_log "Connected LitContracts client to network");
              do configured <- lift (Utils.getEnv rt "LIT_CAPACITY_CREDIT_TOKEN_ID");
              do capacityTokenId <-
                (if String.eqb configured EmptyString then
                   do _ <- emit (console_log
                                   "No Capacity Credit provided, minting a new one...");
                   do _ <- emit mintCapacityCreditsNFT;
                   do minted <- lift (net_mintCapacityCreditsNFT net);
                   do _ <- emit (console_log
                                   ("Minted new Capacity Credit with ID: " ++ minted));
                   ret minted
                 else
                   do _ <- emit (console_log
                                   ("Using provided Capacity Credit with ID: " ++ configured));
                   ret configured);
              do _ <- emit (console_log "Creating capacityDelegationAuthSig...");
              do _ <- emit createCapacityDelegationAuthSig;
              do capacityDelegationAuthSig <-
                lift (net_createCapacityDelegationAuthSig net capacityTokenId
                        (address userWallet));
              do _ <- emit (console_log "Capacity Delegation Auth Sig created");
              do _ <- emit (console_log "Getting the Session Signatures...");
              do _ <- emit getSessionSigs;
              do sessionSigs <-
                lift (net_getSessionSigs net (accsResourceString encryptedData)
                        capacityDelegationAuthSig);
              do _ <- emit (console_log "Generated the Session Signatures");
              do _ <- emit (console_log
                              "Executing enhanced Lit Action with dual-factor authentication...");
              let params :=
                jsParams encryptedData (Utils.jwt matchingCredential)
                  (address userWallet) decryptionJWT in
              do _ <- emit (executeJs params);
              do litActionResult <- lift (net_executeJs net sessionSigs params);
              do _ <- emit (console_log "Executed enhanced Lit Action");
              ret litActionResult
          end)
       (fun error =>
          do _ <- emit (console_error (error_message error));
          throw error))
    (fun ran =>
       if existsb is_new_LitNodeClient ran then emit litNodeClient_disconnect
       else ret tt).

End WalletBased.

(** ** litActionEnhanced.ts: the Lit Action with dual verification *)

Module LitAction.

(** What [fetch] resolves to. *)
Record Response : Type := {
  ok : bool;
  status : Z;
  json : result jsval
}.

(** The node the action runs on: its clock and the services it reaches. *)
Record Env : Type := {
  Date_now : Z;
  env_fetch : string -> result Response;
  crypto_subtle_importKey : jsval -> result jsval;
  crypto_subtle_verify : jsval -> list byte -> list byte -> result bool;
  Lit_Actions_decryptAndCombine : jsval -> jsval -> jsval -> result jsval
}.

(** The parameters the caller passes ([jsParams]), globals of the action. *)
Record Params : Type := {
  accessControlConditions : jsval;
  ciphertext : jsval;
  dataToEncryptHash : jsval;
  credentialJWT : string;
  credentialRequirements : jsval;
  userAddress : string;
  userSignedJWT : string;
  operationPurpose : jsval
}.

Record Verified : Type := {
  header : jsval;
  payload : jsval;
  valid : bool
}.

(** The loop over [27, 28]. *)
Fixpoint try_recover `{Ethers} (messageHash r s expectedAddress : string)
    (vs : list Z) : bool :=
  match vs with
  | [] => false
  | v :: rest =>
      match recoverAddress messageHash {| sig_r := r; sig_s := s; sig_v := v |} with
      | Ok recovered =>
          if String.eqb (JsString.toLowerCase recovered)
                        (JsString.toLowerCase expectedAddress)
          then true
          else try_recover messageHash r s expectedAddress rest
      | Throw _ => try_recover messageHash r s expectedAddress rest
      end
  end.

(** [verifyES256KJWT(jwt, expectedAddress)] of the action: every failure,
    expiry included, is thrown. *)
Definition verifyES256KJWT `{Platform} `{Ethers} (env : Env)
    (jwt expectedAddress : string) : result Verified :=
  let parts := JsString.split "." jwt in
  match Jwt.segment parts 0, Jwt.segment parts 1, Jwt.segment parts 2 with
  | Some encodedHeader, Some encodedPayload, Some encodedSignature =>
      let* headerBytes := Jwt.base64urlDecode encodedHeader in
      let* payloadBytes := Jwt.base64urlDecode encodedPayload in
      let* header := JSON_parse (TextDecoder_decode headerBytes) in
      let* payload := JSON_parse (TextDecoder_decode payloadBytes) in
      let* alg := JsVal.get header "alg" in
      if negb (JsVal.strict_eq alg (JStr "ES256K"))
      then Throw (Error ("Unsupported algorithm: " ++ JsVal.to_string alg))
      else
        let* iss := JsVal.get payload "iss" in
        let* is_pkh := Jwt.call_startsWith iss "did:pkh:eip155:" in
        let* sub := JsVal.get payload "sub" in
        if negb is_pkh || negb (JsVal.strict_eq iss sub)
        then Throw (Error "Invalid DID format in JWT")
        else
          match Jwt.last_segment iss with
          | None => Throw (TypeError "Cannot read properties of undefined (reading 'toLowerCase')")
          | Some signerAddress =>
              if negb (String.eqb (JsString.toLowerCase signerAddress)
                                  (JsString.toLowerCase expectedAddress))
              then Throw (Error "JWT signer does not match expected address")
              else
                let now := Date_now env / 1000 in
                let* exp := JsVal.get payload "exp" in
                if js_lt exp now then Throw (Error "JWT expired")
                else
                  let signingInput := encodedHeader ++ "." ++ encodedPayload in
                  let messageHash := keccak256 (toUtf8Bytes signingInput) in
                  let* rawSignature := Jwt.base64urlDecode encodedSignature in
                  if negb (List.length rawSignature =? 64)%nat
                  then Throw (Error "Invalid signature length")
                  else
                    let r := "0x" ++ Bytes.hex_of_bytes (Bytes.slice rawSignature 0 32) in
                    let s := "0x" ++ Bytes.hex_of_bytes (Bytes.slice rawSignature 32 64) in
                    if negb (try_recover messageHash r s expectedAddress [27; 28])
                    then Throw (Error "Invalid JWT signature")
                    else Ok {| header := header; payload := payload; valid := true |}
          end
  | _, _, _ => Throw (Error "Invalid JWT format")
  end.

(** [base64UrlDecode(str)], the helper of the EdDSA path *)
Definition base64UrlDecode (str : string) : result (list byte) :=
  Jwt.base64urlDecode str.

(** [resolveDIDWeb(did)]; [did] is whatever the requirement names as its
    issuer. *)
Definition resolveDIDWeb (env : Env) (did : jsval) : M jsval :=
  match did with
  | JStr did =>
      let domain := JsString.replace_first "did:web:" EmptyString did in
      let url := "https://" ++ domain ++ "/.well-known/did.json" in
      do _ <- emit (fetch url);
      do response <- lift (env_fetch env url);
      if negb (ok response)
      then throw (Error ("Failed to fetch DID document: "
                         ++ JsVal.num_to_string (status response)))
      else lift (json response)
  | JUndefined =>
      throw (TypeError "Cannot read properties of undefined (reading 'replace')")
  | JNull => throw (TypeError "Cannot read properties of null (reading 'replace')")
  | _ => throw (TypeError "did.replace is not a function")
  end.

(** [v.endsWith(suffix)] on a value that need not be a string *)
Definition call_endsWith (v : jsval) (suffix : string) : result bool :=
  match v with
  | JStr s => Ok (JsString.endsWith suffix s)
  | JUndefined =>
      Throw (TypeError "Cannot read properties of undefined (reading 'endsWith')")
  | JNull => Throw (TypeError "Cannot read properties of null (reading 'endsWith')")
  | _ => Throw (TypeError "method.id.endsWith is not a function")
  end.

Fixpoint find_key (methods : list jsval) (keyId : jsval) : result jsval :=
  match methods with
  | [] => Throw (Error ("Key " ++ JsVal.to_string keyId ++ " not found in DID document"))
  | method :: rest =>
      let* mid := JsVal.get method "id" in
      let* selected :=
        if JsVal.strict_eq mid keyId then Ok true
        else call_endsWith mid "#controller" in
      if selected then
        let* type := JsVal.get method "type" in
        let* publicKeyJwk := JsVal.get method "publicKeyJwk" in
        if JsVal.strict_eq type (JStr "Ed25519VerificationKey2018")
           && JsVal.truthy publicKeyJwk
        then Ok publicKeyJwk
        else find_key rest keyId
      else find_key rest keyId
  end.

(** [extractPublicKey(didDocument, keyId)]: [for ... of] over
    [didDocument.verificationMethod || []]. *)
Definition extractPublicKey (didDocument keyId : jsval) : result jsval :=
  let* vm := JsVal.get didDocument "verificationMethod" in
  match vm with
  | JArr methods => find_key methods keyId
  | JStr (String c s) =>
      Throw (TypeError "Cannot read properties of undefined (reading 'endsWith')")
  | _ =>
      if JsVal.truthy vm
      then Throw (TypeError "verificationMethods is not iterable")
      else find_key [] keyId
  end.

(** A segment of [jwt.split('.')] used as a string: reading a method of a
    missing one throws. *)
Definition required_segment (parts : list string) (i : nat) : result string :=
  match nth_error parts i with
  | Some s => Ok s
  | None => Throw (TypeError "Cannot read properties of undefined (reading 'replace')")
  end.

(** [JSON.parse(atob(b64.replace(/-/g, '+').replace(/_/g, '/')))] *)
Definition decode_part `{Platform} (b64 : string) : result jsval :=
  let* binary := Bytes.atob (Bytes.replace_char "_" "/" (Bytes.replace_char "-" "+" b64)) in
  JSON_parse binary.

Record EdDSAVerified : Type := {
  ed_valid : bool;
  ed_payload : jsval;
  ed_header : jsval;
  ed_issuer : jsval
}.

(** [a && a < now] and [a && a > now] *)
Definition elapsed `{Platform} (exp : jsval) (now : Z) : bool :=
  JsVal.truthy exp && js_lt exp now.

Definition still_future `{Platform} (nbf : jsval) (now : Z) : bool :=
  JsVal.truthy nbf && js_gt nbf now.

(** Step 10 of [verifyJWTWithEdDSA]: the claims of the payload, checked
    after the signature. *)
Definition verify_claims `{Platform} (env : Env) (header payload : jsval)
  : result EdDSAVerified :=
  let now := Date_now env / 1000 in
  let* exp := JsVal.get payload "exp" in
  if elapsed exp now then Throw (Error "JWT expired")
  else
    let* nbf := JsVal.get payload "nbf" in
    if still_future nbf now then Throw (Error "JWT not yet valid")
    else
      let* iss := JsVal.get payload "iss" in
      Ok {| ed_valid := true; ed_payload := payload; ed_header := header;
            ed_issuer := iss |}.

(** [verifyJWTWithEdDSA(jwt, issuerDID)] *)
Definition verifyJWTWithEdDSA `{Platform} (env : Env) (jwt : string) (issuerDID : jsval)
  : M EdDSAVerified :=
  let parts := JsString.split "." jwt in
  do headerB64 <- lift (required_segment parts 0);
  do header <- lift (decode_part headerB64);
  do payloadB64 <- lift (required_segment parts 1);
  do payload <- lift (decode_part payloadB64);
  do alg <- lift (JsVal.get header "alg");
  if negb (JsVal.strict_eq alg (JStr "EdDSA"))
  then throw (Error "Unsupported algorithm")
  else
    do didDocument <- resolveDIDWeb env issuerDID;
    do kid <- lift (JsVal.get header "kid");
    let keyId :=
      if JsVal.truthy kid then kid
      else JStr (JsVal.to_string issuerDID ++ "#controller") in
    do publicKeyJwk <- lift (extractPublicKey didDocument keyId);
    do publicKey <- lift (crypto_subtle_importKey env publicKeyJwk);
    let dataToVerify := TextEncoder_encode (headerB64 ++ "." ++ payloadB64) in
    do signatureB64 <- lift (required_segment parts 2);
    do signature <- lift (base64UrlDecode signatureB64);
    do isValid <- lift (crypto_subtle_verify env publicKey signature dataToVerify);
    if negb isValid then throw (Error "Invalid JWT signature")
    else lift (verify_claims env header payload).

(** [credentialTypes.includes(x)] on [vc.type || []], which may be an array
    or a string. *)
Definition types_include (types x : jsval) : result bool :=
  match types with
  | JArr items => Ok (existsb (JsVal.strict_eq x) items)
  | JStr (String c s) => Ok (JsString.includes (JsVal.to_string x) (String c s))
  | _ =>
      if JsVal.truthy types
      then Throw (TypeError "credentialTypes.includes is not a function")
      else Ok false
  end.

(** [evidence && evidence.handle] *)
Definition evidence_handle (evidence : jsval) : result jsval :=
  if JsVal.truthy evidence then JsVal.get evidence "handle" else Ok evidence.

(** [requirements.claims && requirements.claims.k] *)
Definition claims_field (requirements : jsval) (k : string) : result jsval :=
  let* claims := JsVal.get requirements "claims" in
  if JsVal.truthy claims then JsVal.get claims k else Ok claims.

(** [validateCredentialClaims(jwtPayload, requirements, userAddress)] *)
Definition validateCredentialClaims `{Platform} (env : Env)
    (jwtPayload requirements : jsval) (userAddress : string) : result bool :=
  let* vc := JsVal.get jwtPayload "vc" in
  if negb (JsVal.truthy vc)
  then Throw (Error "No verifiable credential found in JWT")
  else
    let* credentialTypes := JsVal.get vc "type" in
    let* credentialType := JsVal.get requirements "credentialType" in
    let* has_type := types_include credentialTypes credentialType in
    if negb has_type
    then Throw (Error ("Required credential type "
                       ++ JsVal.to_string credentialType ++ " not found"))
    else
      let* iss := JsVal.get jwtPayload "iss" in
      let* issuer := JsVal.get requirements "issuer" in
      if negb (JsVal.strict_eq iss issuer)
      then Throw (Error "Credential issuer does not match requirements")
      else
        let* credentialSubject := JsVal.get vc "credentialSubject" in
        let* subject_id :=
          if JsVal.truthy credentialSubject
          then JsVal.get credentialSubject "id" else Ok JUndefined in
        if negb (JsVal.truthy subject_id)
        then Throw (Error "No credential subject found")
        else
          match Jwt.last_segment subject_id with
          | None => Throw (TypeError "credentialSubject.id.split is not a function")
          | Some subjectAddress =>
              if negb (String.eqb (JsString.toLowerCase subjectAddress)
                                  (JsString.toLowerCase userAddress))
              then Throw (Error "Credential subject does not match user address")
              else
                let* githubHandle := claims_field requirements "githubHandle" in
                let* _ :=
                  if JsVal.truthy githubHandle then
                    let requiredHandles := Utils.as_array githubHandle in
                    let* evidence := JsVal.get vc "evidence" in
                    let* handle := evidence_handle evidence in
                    if negb (JsVal.truthy handle)
                       || negb (existsb (JsVal.strict_eq handle) requiredHandles)
                    then Throw (Error ("GitHub handle requirement not met. Required: "
                                       ++ JsVal.to_string githubHandle ++ ", Found: "
                                       ++ JsVal.to_string handle))
                    else Ok tt
                  else Ok tt in
                let* minIssuanceAge := claims_field requirements "minIssuanceAge" in
                if JsVal.truthy minIssuanceAge then
                  let* issuanceDate := JsVal.get vc "issuanceDate" in
                  let issuanceTime := date_getTime issuanceDate in
                  let minTime :=
                    option_map (fun age => Date_now env - age * 1000)
                      (to_number minIssuanceAge) in
                  match issuanceTime, minTime with
                  | Some t, Some m =>
                      if t <? m then Throw (Error "Credential is too old") else Ok true
                  | _, _ => Ok true
                  end
                else Ok true
          end.

(** [JSON.stringify(v)], which is [undefined] on [undefined] *)
Definition js_stringify `{Platform} (v : jsval) : jsval :=
  match v with
  | JUndefined => JUndefined
  | _ => JStr (JSON_stringify v)
  end.

(** [new Date(v * 1000).toISOString()] *)
Definition iso_of_seconds `{Platform} (v : jsval) : result string :=
  Date_toISOString (option_map (fun n => n * 1000) (to_number v)).

(** [e.message.includes(...)] chain that names the kind of failure *)
Definition errorType (message : string) : string :=
  if JsString.includes "ES256K" message then "user_jwt_verification"
  else if JsString.includes "GitHub" message then "github_credential_verification"
  else if JsString.includes "decrypt" message then "decryption_error"
  else "general_error".

(** The body of the [try] block of [_litActionCodeWithES256K]. *)
Definition main `{Platform} `{Ethers} (env : Env) (p : Params) : M unit :=
  do _ <- emit (console_log "Starting enhanced dual-factor credential verification...");
  do _ <- emit (console_log "Verifying ES256K JWT signature...");
  do es256kResult <- lift (verifyES256KJWT env (userSignedJWT p) (userAddress p));
  do purpose <- lift (JsVal.get (payload es256kResult) "purpose");
  if negb (JsVal.strict_eq purpose (operationPurpose p))
  then throw (Error ("JWT purpose mismatch. Expected: "
                     ++ JsVal.to_string (operationPurpose p)
                     ++ ", Got: " ++ JsVal.to_string purpose))
  else
    do jwtCredReqs <- lift (JsVal.get (payload es256kResult) "credential_requirements");
    if negb (JsVal.strict_eq (js_stringify jwtCredReqs)
                             (js_stringify (credentialRequirements p)))
    then throw (Error "JWT credential requirements do not match operation requirements")
    else
      do aud <- lift (JsVal.get (payload es256kResult) "aud");
      if negb (JsVal.strict_eq aud (JStr "lit-protocol-encryption"))
      then throw (Error ("Invalid JWT audience: " ++ JsVal.to_string aud))
      else
        do _ <- emit (console_log
                        "ES256K JWT verified successfully - User proved control of Ethereum address");
        do _ <- emit (console_log "Verifying GitHub credential JWT signature...");
        do issuer <- lift (JsVal.get (credentialRequirements p) "issuer");
        do verificationResult <- verifyJWTWithEdDSA env (credentialJWT p) issuer;
        do _ <- emit (console_log "GitHub credential JWT signature verified successfully");
        do _ <- lift (validateCredentialClaims env (ed_payload verificationResult)
                        (credentialRequirements p) (userAddress p));
        do _ <- emit (console_log "Credential claims validated successfully");
        do _ <- emit (console_log "All verifications passed - proceeding with decryption...");
        do _ <- emit (decryptAndCombine (ciphertext p) (dataToEncryptHash p));
        do secret <- lift (Lit_Actions_decryptAndCombine env
                             (accessControlConditions p) (ciphertext p)
                             (dataToEncryptHash p));
        do _ <- emit (console_log
                        "Secret decrypted successfully with dual-factor authentication");
        do vc_iss <- lift (JsVal.get (ed_payload verificationResult) "iss");
        do vc_sub <- lift (JsVal.get (ed_payload verificationResult) "sub");
        do vc <- lift (JsVal.get (ed_payload verificationResult) "vc");
        do evidence <- lift (JsVal.get vc "evidence");
        do githubHandle <-
          lift (match evidence with
                | JUndefined | JNull => Ok JUndefined
                | _ => JsVal.get evidence "handle"
                end);
        do issuanceDate <- lift (JsVal.get vc "issuanceDate");
        do userDID <- lift (JsVal.get (payload es256kResult) "iss");
        do iat <- lift (JsVal.get (payload es256kResult) "iat");
        do issuedAt <- lift (iso_of_seconds iat);
        do exp <- lift (JsVal.get (payload es256kResult) "exp");
        do expiresAt <- lift (iso_of_seconds exp);
        do nonce <- lift (JsVal.get (payload es256kResult) "nonce");
        emit (setResponse
                (JObj [("response",
                  JObj [("success", JBool true);
                        ("secret", secret);
                        ("verifiedCredential",
                         JObj [("issuer", vc_iss); ("subject", vc_sub);
                               ("githubHandle", githubHandle);
                               ("issuanceDate", issuanceDate)]);
                        ("verifiedUserJWT",
                         JObj [("userDID", userDID); ("purpose", purpose);
                               ("issuedAt", JStr issuedAt);
                               ("expiresAt", JStr expiresAt);
                               ("nonce", nonce)]);
                        ("authenticationFactors",
                         JArr [JStr "GitHub credential from trusted issuer";
                               JStr "Ethereum key ownership proof"])])])).

(** [_litActionCodeWithES256K]: the body, and the [catch] that reports a
    failure through [Lit.Actions.setResponse]. *)
Definition litActionCodeWithES256K `{Platform} `{Ethers} (env : Env) (p : Params)
  : M unit :=
  try_catch (main env p)
    (fun e =>
       do _ <- emit (console_error
                       ("Enhanced dual-factor credential verification failed: "
                        ++ error_message e));
       emit (setResponse
               (JObj [("response",
                 JObj [("success", JBool false);
                       ("error", JStr (error_message e));
                       ("errorType", JStr (errorType (error_message e)))])]))).

End LitAction.

(** ** A reference platform

    Concrete instances of the two interfaces, on which the examples run:
    ISO-8601 dates in UTC, UTF-8 on the code units 0..255, compact JSON
    text with integer numbers, Keccak-256 and the EIP-55 address checksum.
    The signature scheme of the reference wallet is a stand-in that
    discloses the signer; it only serves to run the protocol. *)

Module Reference.

Definition digit_val (c : ascii) : Z := JsString.code c - 48.

Fixpoint digits_val (acc : Z) (s : string) : option Z :=
  match s with
  | EmptyString => Some acc
  | String c s' =>
      if Did.is_digit c then digits_val (acc * 10 + digit_val c) s' else None
  end.

(** Days since 1970-01-01 of a civil date (proleptic Gregorian). *)
Definition days_from_civil (y m d : Z) : Z :=
  let y := if m <=? 2 then y - 1 else y in
  let era := y / 400 in
  let yoe := y - era * 400 in
  let mp := if 2 <? m then m - 3 else m + 9 in
  let doy := (153 * mp + 2) / 5 + d - 1 in
  let doe := yoe * 365 + yoe / 4 - yoe / 100 + doy in
  era * 146097 + doe - 719468.

Definition days_in_month (y m : Z) : Z :=
  if m =? 2
  then (if ((y mod 4 =? 0) && negb (y mod 100 =? 0)) || (y mod 400 =? 0) then 29 else 28)
  else if (m =? 4) || (m =? 6) || (m =? 9) || (m =? 11) then 30 else 31.

(** [YYYY-MM-DDTHH:MM:SSZ], the form of a credential's issuance date. *)
Definition parse_iso (s : string) : option Z :=
  match s with
  | String y1 (String y2 (String y3 (String y4 (String "-"
      (String m1 (String m2 (String "-" (String d1 (String d2 (String "T"
        (String h1 (String h2 (String ":" (String n1 (String n2 (String ":"
          (String s1 (String s2 (String "Z" EmptyString))))))))))))))))))) =>
      match digits_val 0 (String y1 (String y2 (String y3 (String y4 EmptyString)))),
            digits_val 0 (String m1 (String m2 EmptyString)),
            digits_val 0 (String d1 (String d2 EmptyString)),
            digits_val 0 (String h1 (String h2 EmptyString)),
            digits_val 0 (String n1 (String n2 EmptyString)),
            digits_val 0 (String s1 (String s2 EmptyString)) with
      | Some y, Some m, Some d, Some h, Some n, Some sec =>
          if (1 <=? m) && (m <=? 12) && (1 <=? d) && (d <=? days_in_month y m)
             && (h <=? 23) && (n <=? 59) && (sec <=? 59)
          then Some ((days_from_civil y m d * 86400 + h * 3600 + n * 60 + sec) * 1000)
          else None
      | _, _, _, _, _, _ => None
      end
  | _ => None
  end.

Definition pad_left (width : nat) (s : string) : string :=
  Bytes.repeat_char "0" (width - String.length s) ++ s.

Definition dec (width : nat) (n : Z) : string :=
  pad_left width (JsVal.num_to_string n).

(** [toISOString] for the years 0..9999. *)
Definition to_iso (t : option Z) : result string :=
  match t with
  | None => Throw (RangeError "Invalid time value")
  | Some ms =>
      let days := ms / 86400000 in
      let rem := ms mod 86400000 in
      let z := days + 719468 in
      let era := z / 146097 in
      let doe := z - era * 146097 in
      let yoe := (doe - doe / 1460 + doe / 36524 - doe / 146096) / 365 in
      let doy := doe - (365 * yoe + yoe / 4 - yoe / 100) in
      let mp := (5 * doy + 2) / 153 in
      let d := doy - (153 * mp + 2) / 5 + 1 in
      let m := if mp <? 10 then mp + 3 else mp - 9 in
      let y := yoe + era * 400 + (if m <=? 2 then 1 else 0) in
      if (0 <=? y) && (y <=? 9999) then
        Ok (dec 4 y ++ "-" ++ dec 2 m ++ "-" ++ dec 2 d ++ "T"
            ++ dec 2 (rem / 3600000) ++ ":" ++ dec 2 ((rem / 60000) mod 60) ++ ":"
            ++ dec 2 ((rem / 1000) mod 60) ++ "." ++ dec 3 (rem mod 1000) ++ "Z")
      else Throw (RangeError "Invalid time value")
  end.

(** UTF-8 of the code units 0..255; a sequence that decodes to nothing in
    that range is shown as a question mark. *)
Fixpoint utf8_encode (s : string) : list byte :=
  match s with
  | EmptyString => []
  | String c s' =>
      let n := JsString.code c in
      if n <? 128 then Bytes.byte_of_Z n :: utf8_encode s'
      else Bytes.byte_of_Z (192 + n / 64) :: Bytes.byte_of_Z (128 + n mod 64)
           :: utf8_encode s'
  end.

Fixpoint utf8_decode (l : list byte) : string :=
  match l with
  | [] => EmptyString
  | b :: rest =>
      let n := Bytes.Z_of_byte b in
      if n <? 128 then String (JsString.chr n) (utf8_decode rest)
      else
        match rest with
        | b2 :: rest' =>
            let n2 := Bytes.Z_of_byte b2 in
            if ((n =? 194) || (n =? 195)) && (128 <=? n2) && (n2 <? 192)
            then String (JsString.chr ((n - 192) * 64 + (n2 - 128))) (utf8_decode rest')
            else String "?" (utf8_decode rest)
        | [] => String "?" EmptyString
        end
  end.

(** Compact JSON text.  The quotation mark is character 34. *)
Definition quote : ascii := JsString.chr 34.
Definition backslash : ascii := JsString.chr 92.

Fixpoint escape (s : string) : string :=
  match s with
  | EmptyString => EmptyString
  | String c s' =>
      let n := JsString.code c in
      if (n =? 34) || (n =? 92) then String backslash (String c (escape s'))
      else if n <? 32
      then String backslash
             (String "u" (String "0" (String "0"
                (String (Bytes.hex_digit (n / 16))
                   (String (Bytes.hex_digit (n mod 16)) (escape s'))))))
      else String c (escape s')
  end.

Definition json_string (s : string) : string :=
  String quote (escape s ++ String quote EmptyString).

Fixpoint stringify (v : jsval) : string :=
  match v with
  | JUndefined => "undefined"
  | JNull => "null"
  | JBool true => "true"
  | JBool false => "false"
  | JNum n => JsVal.num_to_string n
  | JStr s => json_string s
  | JArr items =>
      "[" ++ JsString.join ","
               (map (fun x => match x with
                              | JUndefined => "null"
                              | _ => stringify x
                              end) items) ++ "]"
  | JObj props =>
      "{" ++ JsString.join ","
               ((fix members (l : list (string * jsval)) : list string :=
                   match l with
                   | [] => []
                   | (k, JUndefined) :: rest => members rest
                   | (k, x) :: rest =>
                       (json_string k ++ ":" ++ stringify x) :: members rest
                   end) props) ++ "}"
  end.

Definition hex_val (c : ascii) : option Z :=
  let n := JsString.code c in
  if (48 <=? n) && (n <=? 57) then Some (n - 48)
  else if (97 <=? n) && (n <=? 102) then Some (n - 87)
  else if (65 <=? n) && (n <=? 70) then Some (n - 55)
  else None.

(** The characters of a JSON string after its opening quotation mark, and
    what follows the closing one. *)
Fixpoint parse_chars (s : string) : option (string * string) :=
  match s with
  | EmptyString => None
  | String c s' =>
      let n := JsString.code c in
      if n =? 34 then Some (EmptyString, s')
      else if n <? 32 then None
      else if n =? 92 then
        match s' with
        | String e s'' =>
            let en := JsString.code e in
            if (en =? 34) || (en =? 92) || (en =? 47) then
              option_map (fun '(t, r) => (String e t, r)) (parse_chars s'')
            else if en =? 110 then
              option_map (fun '(t, r) => (String (JsString.chr 10) t, r)) (parse_chars s'')
            else if en =? 116 then
              option_map (fun '(t, r) => (String (JsString.chr 9) t, r)) (parse_chars s'')
            else if en =? 114 then
              option_map (fun '(t, r) => (String (JsString.chr 13) t, r)) (parse_chars s'')
            else if en =? 98 then
              option_map (fun '(t, r) => (String (JsString.chr 8) t, r)) (parse_chars s'')
            else if en =? 102 then
              option_map (fun '(t, r) => (String (JsString.chr 12) t, r)) (parse_chars s'')
            else if en =? 117 then
              match s'' with
              | String "0" (String "0" (String h1 (String h2 s3))) =>
                  match hex_val h1, hex_val h2 with
                  | Some a, Some b =>
                      option_map (fun '(t, r) => (String (JsString.chr (a * 16 + b)) t, r))
                        (parse_chars s3)
                  | _, _ => None
                  end
              | _ => None
              end
            else None
        | EmptyString => None
        end
      else option_map (fun '(t, r) => (String c t, r)) (parse_chars s')
  end.

Fixpoint parse_digits (acc : Z) (s : string) : Z * string :=
  match s with
  | String c s' =>
      if Did.is_digit c then parse_digits (acc * 10 + digit_val c) s' else (acc, s)
  | EmptyString => (acc, s)
  end.

Definition starts_digit (s : string) : bool :=
  match s with
  | String c _ => Did.is_digit c
  | EmptyString => false
  end.

(** A value at the head of the text and the rest of the text; [fuel] bounds
    the nesting. *)
Fixpoint parse_value (fuel : nat) (s : string) : option (jsval * string) :=
  match fuel with
  | O => None
  | S fuel' =>
      match s with
      | String "n" (String "u" (String "l" (String "l" r))) => Some (JNull, r)
      | String "t" (String "r" (String "u" (String "e" r))) => Some (JBool true, r)
      | String "f" (String "a" (String "l" (String "s" (String "e" r)))) =>
          Some (JBool false, r)
      | String "-" r =>
          if starts_digit r
          then let (n, r') := parse_digits 0 r in Some (JNum (- n), r')
          else None
      | String "[" (String "]" r) => Some (JArr [], r)
      | String "[" r =>
          option_map (fun '(l, r') => (JArr l, r'))
          ((fix items (k : nat) (s : string) : option (list jsval * string) :=
             match k with
             | O => None
             | S k' =>
                 match parse_value fuel' s with
                 | Some (v, String "," r') =>
                     option_map (fun '(l, r'') => (v :: l, r'')) (items k' r')
                 | Some (v, String "]" r') => Some ([v], r')
                 | _ => None
                 end
             end) (String.length s) r)
      | String "{" (String "}" r) => Some (JObj [], r)
      | String "{" r =>
          option_map (fun '(l, r') => (JObj l, r'))
          ((fix members (k : nat) (s : string) : option (list (string * jsval) * string) :=
             match k with
             | O => None
             | S k' =>
                 match s with
                 | String q r0 =>
                     if JsString.code q =? 34 then
                       match parse_chars r0 with
                       | Some (key, String ":" r1) =>
                           match parse_value fuel' r1 with
                           | Some (v, String "," r') =>
                               option_map (fun '(l, r'') => ((key, v) :: l, r''))
                                 (members k' r')
                           | Some (v, String "}" r') => Some ([(key, v)], r')
                           | _ => None
                           end
                       | _ => None
                       end
                     else None
                 | EmptyString => None
                 end
             end) (String.length s) r)
      | String c r =>
          if JsString.code c =? 34 then
            option_map (fun '(t, r') => (JStr t, r')) (parse_chars r)
          else if Did.is_digit c
          then let (n, r') := parse_digits 0 s in Some (JNum n, r')
          else None
      | EmptyString => None
      end
  end.

Definition parse (text : string) : result jsval :=
  match parse_value (S (String.length text)) text with
  | Some (v, EmptyString) => Ok v
  | _ => Throw (SyntaxError "Unexpected token in JSON")
  end.

(** ToNumber of a string of digits; anything else is [NaN] here. *)
Definition string_to_number (v : jsval) : option Z :=
  match v with
  | JStr EmptyString => Some 0
  | JStr s => digits_val 0 s
  | _ => None
  end.

#[export] Instance platform : Platform := {|
  JSON_stringify := stringify;
  JSON_parse := parse;
  TextEncoder_encode := utf8_encode;
  TextDecoder_decode := utf8_decode;
  Date_getTime := parse_iso;
  ToNumber := string_to_number;
  Date_toISOString := to_iso
|}.

(** Keccak-256: the sponge over Keccak-f[1600] with rate 136 and the
    padding 0x01 .. 0x80; a state is 25 lanes of 64 bits, lane [(x, y)] at
    index [x + 5 * y]. *)
Definition mask64 : Z := 18446744073709551615.

Definition rotl64 (x n : Z) : Z :=
  Z.land (Z.lor (Z.shiftl x n) (Z.shiftr x (64 - n))) mask64.

Definition lane (st : list Z) (i : nat) : Z := nth i st 0.

Definition rotation_offsets : list Z :=
  [0; 1; 62; 28; 27;
   36; 44; 6; 55; 20;
   3; 10; 43; 25; 39;
   41; 45; 15; 21; 8;
   18; 2; 61; 56; 14].

Definition round_constants : list Z :=
  [0x0000000000000001; 0x0000000000008082; 0x800000000000808A; 0x8000000080008000;
   0x000000000000808B; 0x0000000080000001; 0x8000000080008081; 0x8000000000008009;
   0x000000000000008A; 0x0000000000000088; 0x0000000080008009; 0x000000008000000A;
   0x000000008000808B; 0x800000000000008B; 0x8000000000008089; 0x8000000000008003;
   0x8000000000008002; 0x8000000000000080; 0x000000000000800A; 0x800000008000000A;
   0x8000000080008081; 0x8000000000008080; 0x0000000080000001; 0x8000000080008008].

Definition theta (st : list Z) : list Z :=
  let C := map (fun x => Z.lxor (lane st x)
                           (Z.lxor (lane st (x + 5))
                              (Z.lxor (lane st (x + 10))
                                 (Z.lxor (lane st (x + 15)) (lane st (x + 20))))))
               (seq 0 5) in
  let D := map (fun x => Z.lxor (nth ((x + 4) mod 5) C 0)
                           (rotl64 (nth ((x + 1) mod 5) C 0) 1))
               (seq 0 5) in
  map (fun i => Z.lxor (lane st i) (nth (i mod 5) D 0)) (seq 0 25).

(** rho and pi together: lane [(X, Y)] of the result is lane [(x, X)] of the
    input rotated, with [x = X + 3 Y mod 5]. *)
Definition rho_pi (st : list Z) : list Z :=
  map (fun j =>
         let X := (j mod 5)%nat in
         let Y := (j / 5)%nat in
         let x := ((X + 3 * Y) mod 5)%nat in
         let src := (x + 5 * X)%nat in
         rotl64 (lane st src) (nth src rotation_offsets 0))
      (seq 0 25).

Definition chi (st : list Z) : list Z :=
  map (fun i =>
         let x := (i mod 5)%nat in
         let y := (i / 5)%nat in
         Z.lxor (lane st i)
           (Z.land (Z.lxor (lane st ((x + 1) mod 5 + 5 * y)) mask64)
                   (lane st ((x + 2) mod 5 + 5 * y))))
      (seq 0 25).

Definition iota (rc : Z) (st : list Z) : list Z :=
  match st with
  | a :: rest => Z.lxor a rc :: rest
  | [] => []
  end.

Definition keccak_round (st : list Z) (rc : Z) : list Z :=
  iota rc (chi (rho_pi (theta st))).

Definition keccak_f (st : list Z) : list Z :=
  fold_left keccak_round round_constants st.

(** Eight bytes, little end first, as a lane; and back. *)
Fixpoint lane_of_bytes (l : list byte) : Z :=
  match l with
  | [] => 0
  | b :: rest => Bytes.Z_of_byte b + 256 * lane_of_bytes rest
  end.

Fixpoint bytes_of_lane (n : nat) (x : Z) : list byte :=
  match n with
  | O => []
  | S n' => Bytes.byte_of_Z x :: bytes_of_lane n' (x / 256)
  end.

Fixpoint lanes_of_block (n : nat) (block : list byte) : list Z :=
  match n with
  | O => []
  | S n' => lane_of_bytes (firstn 8 block) :: lanes_of_block n' (skipn 8 block)
  end.

Fixpoint xor_lanes (st block : list Z) : list Z :=
  match st, block with
  | a :: st', b :: block' => Z.lxor a b :: xor_lanes st' block'
  | _, [] => st
  | [], _ => []
  end.

Fixpoint absorb (fuel : nat) (st : list Z) (message : list byte) : list Z :=
  match fuel with
  | O => st
  | S fuel' =>
      match message with
      | [] => st
      | _ =>
          absorb fuel' (keccak_f (xor_lanes st (lanes_of_block 17 (firstn 136 message))))
            (skipn 136 message)
      end
  end.

Definition pad (message : list byte) : list byte :=
  let fill := (135 - List.length message mod 136)%nat in
  match fill with
  | O => (message ++ [x81])%list
  | S k => (message ++ [x01] ++ repeat x00 k ++ [x80])%list
  end.

Definition keccak256_bytes (message : list byte) : list byte :=
  let padded := pad message in
  let st := absorb (List.length padded) (repeat 0 25) padded in
  flat_map (bytes_of_lane 8) (firstn 4 st).

Definition keccak256_hex (message : list byte) : string :=
  "0x" ++ Bytes.hex_of_bytes (keccak256_bytes message).

(** Hexadecimal text to bytes: ethers' [getBytes] on a string. *)
Fixpoint bytes_of_hex (s : string) : option (list byte) :=
  match s with
  | EmptyString => Some []
  | String a (String b rest) =>
      match hex_val a, hex_val b, bytes_of_hex rest with
      | Some x, Some y, Some l => Some (Bytes.byte_of_Z (x * 16 + y) :: l)
      | _, _, _ => None
      end
  | String _ EmptyString => None
  end.

Definition get_bytes (s : string) : result (list byte) :=
  match s with
  | String "0" (String "x" digits) =>
      match bytes_of_hex digits with
      | Some l => Ok l
      | None => Throw (TypeError "invalid BytesLike value")
      end
  | _ => Throw (TypeError "invalid BytesLike value")
  end.

(** The EIP-55 checksum: a letter of the lower-case address goes to upper
    case when the matching nibble of the hash of the address is 8 or more. *)
Definition upper_hex (c : ascii) : ascii :=
  let n := JsString.code c in
  if (97 <=? n) && (n <=? 102) then JsString.chr (n - 32) else c.

Fixpoint nibbles (l : list byte) : list Z :=
  match l with
  | [] => []
  | b :: rest => (Bytes.Z_of_byte b / 16) :: (Bytes.Z_of_byte b mod 16) :: nibbles rest
  end.

Fixpoint apply_checksum (chars : string) (hashed : list Z) : string :=
  match chars, hashed with
  | String c rest, h :: hs =>
      String (if 8 <=? h then upper_hex c else c) (apply_checksum rest hs)
  | _, _ => chars
  end.

Definition getChecksumAddress (address : string) : string :=
  let chars := JsString.drop 2 (JsString.toLowerCase address) in
  "0x" ++ apply_checksum chars (nibbles (keccak256_bytes (Bytes.charCodes chars))).

Definition is_upper_hex (c : ascii) : bool :=
  let n := JsString.code c in (65 <=? n) && (n <=? 70).

Definition is_lower_hex (c : ascii) : bool :=
  let n := JsString.code c in (97 <=? n) && (n <=? 102).

Fixpoint has_char (p : ascii -> bool) (s : string) : bool :=
  match s with
  | EmptyString => false
  | String c s' => p c || has_char p s'
  end.

(** ethers' [getAddress] on hexadecimal addresses; ICAP addresses are not
    taken here. *)
Definition get_address (address : string) : result string :=
  let address :=
    if JsString.startsWith "0x" address then address else "0x" ++ address in
  if Did.is_0x_hex40 address then
    let result := getChecksumAddress address in
    if has_char is_upper_hex address && has_char is_lower_hex address
       && negb (String.eqb result address)
    then Throw (TypeError "bad address checksum")
    else Ok result
  else Throw (TypeError "invalid address").

Definition is_address (address : string) : bool :=
  match get_address address with
  | Ok _ => true
  | Throw _ => false
  end.

(** The stand-in signature: [r] is the digest, [s] carries the signer's
    address in its last twenty bytes. *)
Definition zeros24 : string := "000000000000000000000000".

Definition disclose_sign (address digest : string) : Signature :=
  {| sig_r := digest;
     sig_s := "0x" ++ zeros24 ++ JsString.drop 2 (JsString.toLowerCase address);
     sig_v := 27 |}.

Definition disclose_recover (digest : string) (sg : Signature) : result string :=
  if (sig_v sg =? 27) && String.eqb (sig_r sg) digest
     && JsString.startsWith ("0x" ++ zeros24) (sig_s sg)
  then get_address ("0x" ++ JsString.drop 26 (sig_s sg))
  else Throw (Error "invalid signature").

#[export] Instance ethers : Ethers := {|
  keccak256 := keccak256_hex;
  toUtf8Bytes := utf8_encode;
  getBytes := get_bytes;
  isAddress := is_address;
  getAddress := get_address;
  recoverAddress := disclose_recover
|}.

Definition wallet (address : string) : Wallet :=
  {| address := getChecksumAddress address;
     signingKey_sign := disclose_sign address |}.

End Reference.

(** ** The vocabulary of the properties *)

(** The trust list the package is configured with by default. *)
Definition configured_trust_list : list string :=
  ["did:web:rebasedemokey.pages.dev"; "did:web:issuer.tinycloud.xyz"].

(** A handle claim value that is no string, or a string that is empty or
    white space only. *)
Definition bad_handle (v : jsval) : Prop :=
  (forall s, v <> JStr s) \/ (exists s, v = JStr s /\ JsString.trim s = EmptyString).

(** The handle claim values a requirement supplies: the elements of a list,
    the single value otherwise, none when the claim is absent. *)
Definition supplied_handles (requirements : Utils.CredentialRequirements) : list jsval :=
  match Utils.claims_githubHandle requirements with
  | JUndefined => []
  | h => Utils.as_array h
  end.

(** [sub] occurs in [s]. *)
Definition substring_of (sub s : string) : Prop :=
  exists before after, s = before ++ sub ++ after.

(** What the matcher asks of a credential, in the words of the
    specification: the issuer is the required one; the subject identifier
    is there and contains the lower-cased address; a handle claim, when one
    is specified, names the credential's handle; a minimum issuance age,
    when one is specified, bounds the issuance time from below by
    [now - age] (a date that does not parse passes). *)
Definition Matches `{Platform} (Date_now : Z)
    (requirements : Utils.CredentialRequirements) (userAddress : string)
    (cred : Utils.ParsedCredential) : Prop :=
  Utils.cred_issuer cred = Utils.issuer requirements
  /\ (exists cs sid,
        Utils.credentialSubject cred = Some cs /\ Utils.id cs = Some sid
        /\ sid <> EmptyString
        /\ substring_of (JsString.toLowerCase userAddress) sid)
  /\ (JsVal.truthy (Utils.claims_githubHandle requirements) = true ->
      exists h,
        Utils.handle cred = Some h /\ h <> EmptyString
        /\ In (JStr h) (Utils.as_array (Utils.claims_githubHandle requirements)))
  /\ (forall age t,
        Utils.claims_minIssuanceAge requirements = Some age -> age <> 0 ->
        Date_getTime (Utils.issuanceDate cred) = Some t ->
        Date_now - age * 1000 <= t).

(** The three predicates the matcher is said to apply, without the issuance
    age. *)
Definition Matches_issuer_subject_handle
    (requirements : Utils.CredentialRequirements) (userAddress : string)
    (cred : Utils.ParsedCredential) : Prop :=
  Utils.cred_issuer cred = Utils.issuer requirements
  /\ (exists cs sid,
        Utils.credentialSubject cred = Some cs /\ Utils.id cs = Some sid
        /\ sid <> EmptyString
        /\ substring_of (JsString.toLowerCase userAddress) sid)
  /\ (JsVal.truthy (Utils.claims_githubHandle requirements) = true ->
      exists h,
        Utils.handle cred = Some h /\ h <> EmptyString
        /\ In (JStr h) (Utils.as_array (Utils.claims_githubHandle requirements))).

(** [c] is the first element of [pool] with the property [P]. *)
Definition first_with {A : Type} (P : A -> Prop) (pool : list A) (c : A) : Prop :=
  exists before after,
    pool = (before ++ c :: after)%list /\ P c /\ Forall (fun x => ~ P x) before.

(** The events of the steps that follow the address check of the
    wallet-based decryption: minting a token, matching the pool, and every
    call to the Lit network. *)
Definition later_step (e : Event) : Prop :=
  match e with
  | mint_token _ _ | match_credentials _ | new_LitNodeClient
  | litNodeClient_connect | litContracts_connect | mintCapacityCreditsNFT
  | createCapacityDelegationAuthSig | getSessionSigs | executeJs _ => True
  | _ => False
  end.

(** The sextets of a byte sequence, three bytes at a time, and their text
    in the base64 alphabet. *)
Fixpoint sextets_of (l : list byte) : list Z :=
  match l with
  | a :: b :: c :: rest =>
      let n := Bytes.Z_of_byte a * 65536 + Bytes.Z_of_byte b * 256 + Bytes.Z_of_byte c in
      n / 262144 :: (n / 4096) mod 64 :: (n / 64) mod 64 :: n mod 64 :: sextets_of rest
  | [a; b] =>
      let n := Bytes.Z_of_byte a * 65536 + Bytes.Z_of_byte b * 256 in
      [n / 262144; (n / 4096) mod 64; (n / 64) mod 64]
  | [a] =>
      let n := Bytes.Z_of_byte a * 65536 in
      [n / 262144; (n / 4096) mod 64]
  | [] => []
  end.

Fixpoint b64_text (xs : list Z) : string :=
  match xs with
  | [] => EmptyString
  | x :: rest => String (Bytes.b64_char x) (b64_text rest)
  end.

Fixpoint b64_padding (l : list byte) : string :=
  match l with
  | _ :: _ :: _ :: rest => b64_padding rest
  | [_; _] => "="
  | [_] => "=="
  | [] => EmptyString
  end.

(** What [replace_char] does to one character, and the two translations
    between the base64 and the base64url alphabets. *)
Definition swap (a b c : ascii) : ascii := if Ascii.eqb c a then b else c.
Definition to_url (c : ascii) : ascii := swap "/" "_" (swap "+" "-" c).
Definition of_url (c : ascii) : ascii := swap "_" "/" (swap "-" "+" c).

Fixpoint map_chars (f : ascii -> ascii) (s : string) : string :=
  match s with
  | EmptyString => EmptyString
  | String c s' => String (f c) (map_chars f s')
  end.

Definition in_alphabet (s : string) : Prop :=
  JsString.all_chars (fun c => match Bytes.b64_index c with
                               | Some _ => true
                               | None => false
                               end) s = true.

(** [s] has no character [sep]. *)
Definition free_of (sep : ascii) (s : string) : Prop :=
  JsString.all_chars (fun c => negb (Ascii.eqb c sep)) s = true.

(** What the signer and the verifier rely on from the platform and from
    ethers, for one token.

    The JSON text of a value is not empty, and the UTF-8 and JSON codecs
    give the value back. *)
Definition json_round_trips `{Platform} (v : jsval) : Prop :=
  TextEncoder_encode (JSON_stringify v) <> []
  /\ JSON_parse (TextDecoder_decode (TextEncoder_encode (JSON_stringify v))) = Ok v.

(** The wallet's address is a valid address in checksummed form. *)
Definition wallet_address_ok `{Ethers} (w : Wallet) : Prop :=
  isAddress (address w) = true
  /\ getAddress (address w) = Ok (address w)
  /\ Did.is_0x_hex40 (address w) = true.

(** The wallet's signature of a digest has a 32-byte [r] and a 32-byte [s],
    and for one of the two recovery parities the address recovered from
    them is the wallet's, case apart. *)
Definition signature_recovers `{Ethers} (w : Wallet) (digest : string) : Prop :=
  exists rBytes sBytes recovered parity,
    getBytes (sig_r (signingKey_sign w digest)) = Ok rBytes
    /\ List.length rBytes = 32%nat
    /\ getBytes (sig_s (signingKey_sign w digest)) = Ok sBytes
    /\ List.length sBytes = 32%nat
    /\ (parity = 0 \/ parity = 1)
    /\ recoverAddress digest
         {| sig_r := "0x" ++ Bytes.hex_of_bytes rBytes;
            sig_s := "0x" ++ Bytes.hex_of_bytes sBytes;
            sig_v := parity + 27 |} = Ok recovered
    /\ JsString.toLowerCase recovered = JsString.toLowerCase (address w).

(** The DID:PKH of a wallet on chain 1. *)
Definition user_did (w : Wallet) : string := "did:pkh:eip155:1:" ++ address w.

(** The text that is hashed and signed. *)
Definition signing_input `{Platform} (header payload : jsval) : string :=
  Jwt.base64urlEncode (JSON_stringify header) ++ "."
  ++ Jwt.base64urlEncode (JSON_stringify payload).

(** A chain id is a number the code can carry without loss: an integer from
    0 up to JavaScript's [Number.MAX_SAFE_INTEGER], the range in which a
    number is printed as its decimal digits. *)
Definition chain_id_in_range (c : Z) : Prop := 0 <= c <= 9007199254740991.

(** What the codec relies on from ethers: a valid address has a checksummed
    form, which is [0x] and forty hexadecimal digits, is a valid address
    itself, and is its own checksummed form. *)
Definition address_laws `{Ethers} : Prop :=
  forall a, isAddress a = true ->
    exists checksummed,
      getAddress a = Ok checksummed
      /\ Did.is_0x_hex40 checksummed = true
      /\ isAddress checksummed = true
      /\ getAddress checksummed = Ok checksummed.

Definition lower_hex_digit (c : ascii) : bool :=
  Did.is_digit c || Reference.is_lower_hex c.

(** ** A scenario

    Alice and Bob, a requirement on Alice's GitHub handle, credentials of
    the trusted issuer, and the services around them, on the reference
    platform. *)

Module Scenario.

Definition alice : string := "0x5aaeb6053f3e94c9b9a09f33669435e7ef1beaed".
Definition bob : string := "0xfb6916095ca1df60bb79ce92ce3ea74c37c5d359".

Definition alice_wallet : Wallet := Reference.wallet alice.
Definition bob_wallet : Wallet := Reference.wallet bob.

Definition trusted_issuer : string := "did:web:rebasedemokey.pages.dev".

(** The requirement of the end-to-end scenario, with or without an
    issuance age. *)
Definition requirement (age : option Z) : Utils.CredentialRequirements :=
  {| Utils.issuer := trusted_issuer;
     Utils.credentialType := "GitHubVerification";
     Utils.claims :=
       Some {| Utils.githubHandle := JStr "alice";
               Utils.minIssuanceAge := age;
               Utils.requiredEvidence := None |} |}.

(** A credential of the trusted issuer for Alice's address. *)
Definition credential (issuanceDate handle : string) : Utils.ParsedCredential :=
  {| Utils.jwt := "header.payload.signature";
     Utils.cred_issuer := trusted_issuer;
     Utils.subject := "did:pkh:eip155:1:" ++ alice;
     Utils.credentialSubject := Some {| Utils.id := Some ("did:pkh:eip155:1:" ++ alice) |};
     Utils.evidence := JObj [("handle", JStr handle)];
     Utils.issuanceDate := issuanceDate;
     Utils.handle := Some handle |}.

(** 2024-01-01T12:00:00Z, in milliseconds. *)
Definition noon : Z := 1704110400000.

Definition entropy : list byte :=
  [x00; x01; x02; x03; x04; x05; x06; x07; x08; x09; x0a; x0b; x0c; x0d; x0e; x0f].

Definition or_empty (r : result string) : string :=
  match r with
  | Ok s => s
  | Throw _ => EmptyString
  end.

(** The token Alice signs at noon for encryption. *)
Definition encrypt_token : string :=
  Eval vm_compute in
    or_empty (@Jwt.createEncryptionJWT Reference.platform Reference.ethers
                noon entropy alice_wallet (requirement None)).

Definition bundle (token owner : string) (meta : option Metadata) : EncryptedData :=
  {| ciphertext := "aGVsbG8gd29ybGQ=";
     dataToEncryptHash := "64ec88ca00b268e5ba1a35678a1b5316d212f4f366b2477232534a8aeca37f3c";
     accessControlConditions := JArr [];
     accsResourceString := "lit-accesscontrolcondition://resource";
     credentialRequirements := requirement None;
     userSignedJWT := token;
     userAddress := owner;
     metadata := meta |}.

Definition offline : WalletBased.LitNetwork :=
  {| WalletBased.net_connect := Throw (Error "network unreachable");
     WalletBased.net_contracts_connect := Throw (Error "network unreachable");
     WalletBased.net_mintCapacityCreditsNFT := Throw (Error "network unreachable");
     WalletBased.net_createCapacityDelegationAuthSig :=
       fun _ _ => Throw (Error "network unreachable");
     WalletBased.net_getSessionSigs := fun _ _ => Throw (Error "network unreachable");
     WalletBased.net_executeJs := fun _ _ => Throw (Error "network unreachable") |}.

(** The issuer's DID document and a credential token it signed; the node
    below takes the signature as valid. *)
Definition issuer_key : jsval :=
  JObj [("kty", JStr "OKP"); ("crv", JStr "Ed25519");
        ("x", JStr "11qYAYKxCrfVS_7TyWQHOg7hcvPapiMlrwIaaPcHURo")].

Definition did_document : jsval :=
  JObj [("id", JStr trusted_issuer);
        ("verificationMethod",
         JArr [JObj [("id", JStr (trusted_issuer ++ "#controller"));
                     ("type", JStr "Ed25519VerificationKey2018");
                     ("publicKeyJwk", issuer_key)]])].

Definition credential_header : jsval :=
  JObj [("alg", JStr "EdDSA"); ("typ", JStr "JWT");
        ("kid", JStr (trusted_issuer ++ "#controller"))].

Definition credential_payload (exp : Z) : jsval :=
  JObj [("iss", JStr trusted_issuer);
        ("sub", JStr ("did:pkh:eip155:1:" ++ alice));
        ("exp", JNum exp);
        ("vc", JObj [("type", JArr [JStr "VerifiableCredential"; JStr "GitHubVerification"]);
                     ("credentialSubject", JObj [("id", JStr ("did:pkh:eip155:1:" ++ alice))]);
                     ("evidence", JObj [("handle", JStr "alice")]);
                     ("issuanceDate", JStr "2024-01-01T00:00:00Z")])].

Definition credential_token (exp : Z) : string :=
  Jwt.base64urlEncode_bytes (Reference.utf8_encode (Reference.stringify credential_header))
  ++ "."
  ++ Jwt.base64urlEncode_bytes
       (Reference.utf8_encode (Reference.stringify (credential_payload exp)))
  ++ "." ++ Jwt.base64urlEncode_bytes (repeat x2a 64).

Definition lit_node : LitAction.Env :=
  {| LitAction.Date_now := noon + 60000;
     LitAction.env_fetch :=
       fun _ => Ok {| LitAction.ok := true; LitAction.status := 200;
                      LitAction.json := Ok did_document |};
     LitAction.crypto_subtle_importKey := fun jwk => Ok jwk;
     LitAction.crypto_subtle_verify := fun _ _ _ => Ok true;
     LitAction.Lit_Actions_decryptAndCombine := fun _ _ _ => Ok (JStr "hello world") |}.

(** Alice's encryption token presented to the Lit Action for decryption. *)
Definition encrypt_purpose_params : LitAction.Params :=
  {| LitAction.accessControlConditions := JArr [];
     LitAction.ciphertext := JStr "aGVsbG8gd29ybGQ=";
     LitAction.dataToEncryptHash :=
       JStr "64ec88ca00b268e5ba1a35678a1b5316d212f4f366b2477232534a8aeca37f3c";
     LitAction.credentialJWT := credential_token 1900000000;
     LitAction.credentialRequirements :=
       Utils.requirements_to_js (requirement None);
     LitAction.userAddress := address alice_wallet;
     LitAction.userSignedJWT := encrypt_token;
     LitAction.operationPurpose := JStr "decrypt" |}.

Definition verified_encrypt_token : LitAction.Verified :=
  Eval vm_compute in
    match @LitAction.verifyES256KJWT Reference.platform Reference.ethers lit_node encrypt_token
            (address alice_wallet) with
    | Ok v => v
    | Throw _ =>
        {| LitAction.header := JNull; LitAction.payload := JNull;
           LitAction.valid := false |}
    end.

End Scenario.

(** ** More vocabulary *)

(** A character of the base64url alphabet: a letter, a digit, [-] or [_]. *)
Definition url_safe (c : ascii) : bool :=
  let n := JsString.code c in
  ((65 <=? n) && (n <=? 90)) || ((97 <=? n) && (n <=? 122))
  || ((48 <=? n) && (n <=? 57)) || (n =? 45) || (n =? 95).

(** The claims the signer sets itself. *)
Definition signer_claims : list string := ["iss"; "sub"; "iat"; "exp"; "nonce"].

(** The error of a Node run without the variable [name]. *)
Definition node_env_error (name : string) : JsError :=
  Error ("Node: " ++ name ++ " ENV is not defined, please define it in the .env file").

(** The calls to the Lit network. *)
Definition network_call (e : Event) : Prop :=
  match e with
  | new_LitNodeClient | litNodeClient_connect | litContracts_connect
  | mintCapacityCreditsNFT | createCapacityDelegationAuthSig | getSessionSigs
  | executeJs _ | litNodeClient_disconnect => True
  | _ => False
  end.

(** The URL a [did:web] issuer is resolved at. *)
Definition well_known_url (domain : string) : string :=
  "https://" ++ domain ++ "/.well-known/did.json".

Definition is_setResponse (e : Event) : bool :=
  match e with
  | setResponse _ => true
  | _ => false
  end.

(** The [success] field of a response. *)
Definition response_success (response : jsval) : jsval :=
  match JsVal.get response "response" with
  | Ok r => match JsVal.get r "success" with
            | Ok b => b
            | Throw _ => JUndefined
            end
  | Throw _ => JUndefined
  end.

Definition is_fetch (e : Event) : Prop :=
  match e with
  | fetch _ => True
  | _ => False
  end.

(** ** index.ts: the encryption

    [encryptToCredentialWithJWT] is the same text in the two browser
    packages.  It validates the requirement, signs the user's encryption
    token, goes to the Lit network for a capacity delegation, encrypts the
    secret under an access control condition that anyone satisfies, and
    returns the bundle. *)

Module Encryption.

(** What the run asks of the Lit SDK besides the network calls:
    [encryptString] answers the ciphertext and the hash of the data, and
    [LitAccessControlConditionResource.generateResourceString] the
    resource string. *)
Record LitEncryption : Type := {
  encryptString : jsval -> string -> result (string * string);
  generateResourceString : jsval -> string -> result string
}.

(** The access control condition of every bundle: a time stamp test that
    always holds. *)
Definition universalAccessControlConditions : jsval :=
  JArr [JObj [("contractAddress", JStr EmptyString);
              ("standardContractType", JStr "timestamp");
              ("chain", JStr "ethereum");
              ("method", JStr EmptyString);
              ("parameters", JArr [JStr ":currentActionIpfsId"]);
              ("returnValueTest",
               JObj [("comparator", JStr ">="); ("value", JStr "0")])]].

(** [encryptToCredentialWithJWT(secret, credentialRequirements, userWallet)].
    The pictograph that opens a log line is left out, as it is in the
    decryption. *)
Definition encryptToCredentialWithJWT `{Platform} `{Ethers}
    (rt : Utils.Runtime) (net : WalletBased.LitNetwork) (lit : LitEncryption)
    (Date_now : Z) (random : list byte)
    (secret : string) (credentialRequirements : Utils.CredentialRequirements)
    (userWallet : Wallet) : M EncryptedData :=
  try_finally
    (try_catch
       (do _ <- emit (console_log "Validating credential requirements...");
        do _ <- lift (Utils.validateGithubCredentialRequirements rt credentialRequirements);
        do _ <- emit (console_log
                        ("Credential requirements validated for trusted issuer: "
                         ++ Utils.issuer credentialRequirements));
        do _ <- emit (console_log "Generating user ES256K JWT for encryption...");
        do _ <- emit (mint_token "encrypt" (address userWallet));
        do userSignedJWT <-
          lift (Jwt.createEncryptionJWT Date_now random userWallet credentialRequirements);
        do _ <- emit (console_log ("User JWT signed with DID: did:pkh:eip155:1:"
                                   ++ address userWallet));
        do _ <- emit (console_log "Connecting to the Lit network...");
        do _ <- emit new_LitNodeClient;
        do _ <- emit litNodeClient_connect;
        do _ <- lift (WalletBased.net_connect net);
        do _ <- emit (console_log "Connected to the Lit network");
        do _ <- emit (console_log "Connecting LitContracts client to network...");
        do _ <- emit litContracts_connect;
        do _ <- lift (WalletBased.net_contracts_connect net);
        do _ <- emit (console_log "Connected LitContracts client to network");
        do configured <- lift (Utils.getEnv rt "LIT_CAPACITY_CREDIT_TOKEN_ID");
        do capacityTokenId <-
          (if String.eqb configured EmptyString then
             do _ <- emit (console_log
                             "No Capacity Credit provided, minting a new one...");
             do _ <- emit mintCapacityCreditsNFT;
             do minted <- lift (WalletBased.net_mintCapacityCreditsNFT net);
             do _ <- emit (console_log
                             ("Minted new Capacity Credit with ID: " ++ minted));
             ret minted
           else
             do _ <- emit (console_log
                             ("Using provided Capacity Credit with ID: " ++ configured));
             ret configured);
        do _ <- emit (console_log "Creating capacityDelegationAuthSig...");
        do _ <- emit createCapacityDelegationAuthSig;
        do _ <- lift (WalletBased.net_createCapacityDelegationAuthSig net capacityTokenId
                        (address userWallet));
        do _ <- emit (console_log "Capacity Delegation Auth Sig created");
        let accessControlConditions := universalAccessControlConditions in
        do _ <- emit (console_log "Encrypting the secret...");
        do encrypted <- lift (encryptString lit accessControlConditions secret);
        let ciphertext := fst encrypted in
        let dataToEncryptHash := snd encrypted in
        do _ <- emit (console_log "Encrypted the secret");
        do _ <- emit (console_log ("The base64-encoded ciphertext: " ++ ciphertext));
        do _ <- emit (console_log ("The hash of the data that was encrypted: "
                                   ++ dataToEncryptHash));
        do _ <- emit (console_log "Generating the Resource String...");
        do accsResourceString <-
          lift (generateResourceString lit accessControlConditions dataToEncryptHash);
        do _ <- emit (console_log "Generated the Resource String");
        ret {| ciphertext := ciphertext;
               dataToEncryptHash := dataToEncryptHash;
               accessControlConditions := accessControlConditions;
               accsResourceString := accsResourceString;
               credentialRequirements := credentialRequirements;
               userSignedJWT := userSignedJWT;
               userAddress := address userWallet;
               metadata := None |})
       (fun error =>
          do _ <- emit (console_error (error_message error));
          throw error))
    (fun ran =>
       if existsb WalletBased.is_new_LitNodeClient ran
       then emit litNodeClient_disconnect
       else ret tt).

End Encryption.

(** ** create-mock-encrypted-content.ts: bundles for the mock path *)

Module MockContent.

(** The sixty-four digits of the mock hash:
    [Array(64).fill('0').map(() => Math.floor(Math.random() * 16).toString(16)).join('')],
    where [draw i] is the value of [Math.floor(Math.random() * 16)] at the
    [i]-th call. *)
Definition random_hash (draw : nat -> Z) : string :=
  JsString.join EmptyString
    (map (fun i => String (Bytes.hex_digit (draw i)) EmptyString) (seq 0 64)).

(** [createMockEncryptedData(content, requirements)].  [btoa] throws on a
    character above U+00FF, which no string of the model has. *)
Definition createMockEncryptedData (draw : nat -> Z) (content : string)
    (requirements : Utils.CredentialRequirements) : EncryptedData :=
  {| ciphertext := Bytes.btoa content;
     dataToEncryptHash := "0x" ++ random_hash draw;
     accessControlConditions := Encryption.universalAccessControlConditions;
     accsResourceString :=
       "lit-accesscontrolcondition://0x" ++ Bytes.repeat_char "a" 64;
     credentialRequirements := requirements;
     userSignedJWT := "mock.jwt.token";
     userAddress := "0x8fd379246834eac74B8419FfdA202CF8051F7A03";
     metadata := None |}.

(** The entry [createMockContent] stores for a flow: the mock bundle with
    [metadata.mock] set. *)
Definition stored_entry (draw : nat -> Z) (content : string)
    (requirements : Utils.CredentialRequirements) : EncryptedData :=
  let encrypted := createMockEncryptedData draw content requirements in
  {| ciphertext := ciphertext encrypted;
     dataToEncryptHash := dataToEncryptHash encrypted;
     accessControlConditions := accessControlConditions encrypted;
     accsResourceString := accsResourceString encrypted;
     credentialRequirements := credentialRequirements encrypted;
     userSignedJWT := userSignedJWT encrypted;
     userAddress := userAddress encrypted;
     metadata := Some {| mock := Some true |} |}.

End MockContent.
(** ** litAction.ts: the Lit Action with one factor

    The earlier action, which the package still exports: it checks the
    credential and does not ask for a token of the user.  Its helper
    functions are, word for word, those of the enhanced action, and are
    the same definitions here. *)

Module LitActionBasic.

(** The body of the [try] block of [_litActionCode]; the parameters are
    those of the enhanced action, of which it reads neither
    [userSignedJWT] nor [operationPurpose]. *)
Definition main `{Platform} (env : LitAction.Env) (p : LitAction.Params) : M unit :=
  do _ <- emit (console_log "Starting credential verification...");
  do issuer <- lift (JsVal.get (LitAction.credentialRequirements p) "issuer");
  do verificationResult <-
    LitAction.verifyJWTWithEdDSA env (LitAction.credentialJWT p) issuer;
  do _ <- emit (console_log "JWT signature verified successfully");
  do _ <- lift (LitAction.validateCredentialClaims env
                  (LitAction.ed_payload verificationResult)
                  (LitAction.credentialRequirements p) (LitAction.userAddress p));
  do _ <- emit (console_log "Credential claims validated successfully");
  do _ <- emit (decryptAndCombine (LitAction.ciphertext p) (LitAction.dataToEncryptHash p));
  do secret <- lift (LitAction.Lit_Actions_decryptAndCombine env
                       (LitAction.accessControlConditions p) (LitAction.ciphertext p)
                       (LitAction.dataToEncryptHash p));
  do _ <- emit (console_log "Secret decrypted successfully");
  do vc_iss <- lift (JsVal.get (LitAction.ed_payload verificationResult) "iss");
  do vc_sub <- lift (JsVal.get (LitAction.ed_payload verificationResult) "sub");
  do vc <- lift (JsVal.get (LitAction.ed_payload verificationResult) "vc");
  do evidence <- lift (JsVal.get vc "evidence");
  do githubHandle <-
    lift (match evidence with
          | JUndefined | JNull => Ok JUndefined
          | _ => JsVal.get evidence "handle"
          end);
  do issuanceDate <- lift (JsVal.get vc "issuanceDate");
  emit (setResponse
          (JObj [("response",
            JObj [("success", JBool true);
                  ("secret", secret);
                  ("verifiedCredential",
                   JObj [("issuer", vc_iss); ("subject", vc_sub);
                         ("githubHandle", githubHandle);
                         ("issuanceDate", issuanceDate)])])])).

(** [_litActionCode]: the body, and the [catch] that reports a failure. *)
Definition litActionCode `{Platform} (env : LitAction.Env) (p : LitAction.Params)
  : M unit :=
  try_catch (main env p)
    (fun e =>
       do _ <- emit (console_error
                       ("Credential verification failed: " ++ error_message e));
       emit (setResponse
               (JObj [("response",
                 JObj [("success", JBool false);
                       ("error", JStr (error_message e))])]))).

End LitActionBasic.

(** ** litActionEnhanced.ts: the edition of the action that is executed

    The file holds the dual-factor action a second time, as
    [_litActionCode], exported as [litActionCode]: this is the text that
    index.ts of the wallet-based package imports as [litActionCodeEnhanced]
    and hands to [executeJs].  It is written without [const], template
    literals, [for ... of], [includes], [endsWith], [padEnd] and optional
    chaining; the helpers return promises built by hand, which settle as
    the [async] functions of the first edition do. *)

Module LitActionES5.

(** What [for (var i = 0; i < v.length; i++)] reads as [v[i]]: the items of
    an array, the characters of a string, the properties [0], [1], ... of
    an object up to its [length]; a value without a [length] gives
    nothing. *)
Definition indexed `{Platform} (v : jsval) : list jsval :=
  match v with
  | JArr items => items
  | JStr s => map (fun c => JStr (String c EmptyString)) (list_ascii_of_string s)
  | JObj props =>
      match to_number (JsVal.lookup "length" props) with
      | Some n =>
          map (fun i => JsVal.lookup (JsVal.num_to_string (Z.of_nat i)) props)
              (seq 0 (Z.to_nat n))
      | None => []
      end
  | _ => []
  end.

(** [base64urlDecode(data)]: the padding is cut from ["===="]. *)
Definition base64urlDecode (data : string) : result (list byte) :=
  let base64 := Bytes.replace_char "_" "/" (Bytes.replace_char "-" "+" data) in
  let padded :=
    base64 ++ substring 0 (Z.to_nat ((4 - JsString.len base64 mod 4) mod 4)) "====" in
  let* binary := Bytes.atob padded in
  Ok (Bytes.charCodes binary).

(** The loops that build [rHex] and [sHex]:
    [hex += rawSignature[i].toString(16).padStart(2, "0")] for [i] from
    [from] up to [to]; the signature has 64 bytes where they run. *)
Definition hex_between (rawSignature : list byte) (from to : nat) : string :=
  fold_left (fun hex i => hex ++ Bytes.hex2 (nth i rawSignature x00))
            (seq from (to - from)) EmptyString.

(** [verifyES256KJWT(jwt, expectedAddress)]; the promise is rejected with
    whatever the body throws. *)
Definition verifyES256KJWT `{Platform} `{Ethers} (env : LitAction.Env)
    (jwt expectedAddress : string) : result LitAction.Verified :=
  let parts := JsString.split "." jwt in
  match Jwt.segment parts 0, Jwt.segment parts 1, Jwt.segment parts 2 with
  | Some encodedHeader, Some encodedPayload, Some encodedSignature =>
      let* headerBytes := base64urlDecode encodedHeader in
      let* payloadBytes := base64urlDecode encodedPayload in
      let* header := JSON_parse (TextDecoder_decode headerBytes) in
      let* payload := JSON_parse (TextDecoder_decode payloadBytes) in
      let* alg := JsVal.get header "alg" in
      if negb (JsVal.strict_eq alg (JStr "ES256K"))
      then Throw (Error ("Unsupported algorithm: " ++ JsVal.to_string alg))
      else
        let* iss := JsVal.get payload "iss" in
        let* is_pkh := Jwt.call_startsWith iss "did:pkh:eip155:" in
        let* sub := JsVal.get payload "sub" in
        if negb is_pkh || negb (JsVal.strict_eq iss sub)
        then Throw (Error "Invalid DID format in JWT")
        else
          match Jwt.last_segment iss with
          | None => Throw (TypeError "Cannot read properties of undefined (reading 'toLowerCase')")
          | Some signerAddress =>
              if negb (String.eqb (JsString.toLowerCase signerAddress)
                                  (JsString.toLowerCase expectedAddress))
              then Throw (Error "JWT signer does not match expected address")
              else
                let now := LitAction.Date_now env / 1000 in
                let* exp := JsVal.get payload "exp" in
                if js_lt exp now then Throw (Error "JWT expired")
                else
                  let signingInput := encodedHeader ++ "." ++ encodedPayload in
                  let messageHash := keccak256 (toUtf8Bytes signingInput) in
                  let* rawSignature := base64urlDecode encodedSignature in
                  if negb (List.length rawSignature =? 64)%nat
                  then Throw (Error "Invalid signature length")
                  else
                    let r := "0x" ++ hex_between rawSignature 0 32 in
                    let s := "0x" ++ hex_between rawSignature 32 64 in
                    if negb (LitAction.try_recover messageHash r s expectedAddress [27; 28])
                    then Throw (Error "Invalid JWT signature")
                    else Ok {| LitAction.header := header; LitAction.payload := payload;
                               LitAction.valid := true |}
          end
  | _, _, _ => Throw (Error "Invalid JWT format")
  end.

(** [base64UrlDecode(str)], the helper of the EdDSA path *)
Definition base64UrlDecode (str : string) : result (list byte) :=
  base64urlDecode str.

(** [resolveDIDWeb(did)] *)
Definition resolveDIDWeb (env : LitAction.Env) (did : jsval) : M jsval :=
  match did with
  | JStr did =>
      let domain := JsString.replace_first "did:web:" EmptyString did in
      let url := "https://" ++ domain ++ "/.well-known/did.json" in
      do _ <- emit (fetch url);
      do response <- lift (LitAction.env_fetch env url);
      if negb (LitAction.ok response)
      then throw (Error ("Failed to fetch DID document: "
                         ++ JsVal.num_to_string (LitAction.status response)))
      else lift (LitAction.json response)
  | JUndefined =>
      throw (TypeError "Cannot read properties of undefined (reading 'replace')")
  | JNull => throw (TypeError "Cannot read properties of null (reading 'replace')")
  | _ => throw (TypeError "did.replace is not a function")
  end.

(** [v.indexOf(x) !== -1] on a value that need not be a string: a string
    is searched for the text, an array for an item that is it. *)
Definition call_indexOf (v : jsval) (x : string) : result bool :=
  match v with
  | JStr s => Ok (JsString.includes x s)
  | JArr items => Ok (existsb (JsVal.strict_eq (JStr x)) items)
  | JUndefined =>
      Throw (TypeError "Cannot read properties of undefined (reading 'indexOf')")
  | JNull => Throw (TypeError "Cannot read properties of null (reading 'indexOf')")
  | _ => Throw (TypeError "method.id.indexOf is not a function")
  end.

Fixpoint find_key (methods : list jsval) (keyId : jsval) : result jsval :=
  match methods with
  | [] => Throw (Error ("Key " ++ JsVal.to_string keyId ++ " not found in DID document"))
  | method :: rest =>
      let* mid := JsVal.get method "id" in
      let* selected :=
        if JsVal.strict_eq mid keyId then Ok true
        else call_indexOf mid "#controller" in
      if selected then
        let* type := JsVal.get method "type" in
        let* publicKeyJwk := JsVal.get method "publicKeyJwk" in
        if JsVal.strict_eq type (JStr "Ed25519VerificationKey2018")
           && JsVal.truthy publicKeyJwk
        then Ok publicKeyJwk
        else find_key rest keyId
      else find_key rest keyId
  end.

(** [extractPublicKey(didDocument, keyId)]: a loop by index over
    [didDocument.verificationMethod || []]. *)
Definition extractPublicKey `{Platform} (didDocument keyId : jsval) : result jsval :=
  let* vm := JsVal.get didDocument "verificationMethod" in
  let verificationMethods := if JsVal.truthy vm then vm else JArr [] in
  find_key (indexed verificationMethods) keyId.

(** [verifyJWTWithEdDSA(jwt, issuerDID)] *)
Definition verifyJWTWithEdDSA `{Platform} (env : LitAction.Env) (jwt : string)
    (issuerDID : jsval) : M LitAction.EdDSAVerified :=
  let parts := JsString.split "." jwt in
  do headerB64 <- lift (LitAction.required_segment parts 0);
  do header <- lift (LitAction.decode_part headerB64);
  do payloadB64 <- lift (LitAction.required_segment parts 1);
  do payload <- lift (LitAction.decode_part payloadB64);
  do alg <- lift (JsVal.get header "alg");
  if negb (JsVal.strict_eq alg (JStr "EdDSA"))
  then throw (Error "Unsupported algorithm")
  else
    do didDocument <- resolveDIDWeb env issuerDID;
    do kid <- lift (JsVal.get header "kid");
    let keyId :=
      if JsVal.truthy kid then kid
      else JStr (JsVal.to_string issuerDID ++ "#controller") in
    do publicKeyJwk <- lift (extractPublicKey didDocument keyId);
    do publicKey <- lift (LitAction.crypto_subtle_importKey env publicKeyJwk);
    let dataToVerify := TextEncoder_encode (headerB64 ++ "." ++ payloadB64) in
    do signatureB64 <- lift (LitAction.required_segment parts 2);
    do signature <- lift (base64UrlDecode signatureB64);
    do isValid <- lift (LitAction.crypto_subtle_verify env publicKey signature dataToVerify);
    if negb isValid then throw (Error "Invalid JWT signature")
    else lift (LitAction.verify_claims env header payload).

(** [validateCredentialClaims(jwtPayload, requirements, userAddress)]: the
    type and the handle are looked for with loops by index and [===]. *)
Definition validateCredentialClaims `{Platform} (env : LitAction.Env)
    (jwtPayload requirements : jsval) (userAddress : string) : result bool :=
  let* vc := JsVal.get jwtPayload "vc" in
  if negb (JsVal.truthy vc)
  then Throw (Error "No verifiable credential found in JWT")
  else
    let* type := JsVal.get vc "type" in
    let credentialTypes := if JsVal.truthy type then type else JArr [] in
    let* credentialType := JsVal.get requirements "credentialType" in
    let hasRequiredType :=
      existsb (fun t => JsVal.strict_eq t credentialType) (indexed credentialTypes) in
    if negb hasRequiredType
    then Throw (Error ("Required credential type "
                       ++ JsVal.to_string credentialType ++ " not found"))
    else
      let* iss := JsVal.get jwtPayload "iss" in
      let* issuer := JsVal.get requirements "issuer" in
      if negb (JsVal.strict_eq iss issuer)
      then Throw (Error "Credential issuer does not match requirements")
      else
        let* credentialSubject := JsVal.get vc "credentialSubject" in
        let* subject_id :=
          if JsVal.truthy credentialSubject
          then JsVal.get credentialSubject "id" else Ok JUndefined in
        if negb (JsVal.truthy subject_id)
        then Throw (Error "No credential subject found")
        else
          match Jwt.last_segment subject_id with
          | None => Throw (TypeError "credentialSubject.id.split is not a function")
          | Some subjectAddress =>
              if negb (String.eqb (JsString.toLowerCase subjectAddress)
                                  (JsString.toLowerCase userAddress))
              then Throw (Error "Credential subject does not match user address")
              else
                let* githubHandle := LitAction.claims_field requirements "githubHandle" in
                let* _ :=
                  if JsVal.truthy githubHandle then
                    let requiredHandles := Utils.as_array githubHandle in
                    let* evidence := JsVal.get vc "evidence" in
                    let* handle := LitAction.evidence_handle evidence in
                    let handleMatches :=
                      JsVal.truthy handle
                      && existsb (fun required => JsVal.strict_eq required handle)
                                 requiredHandles in
                    if negb handleMatches
                    then Throw (Error ("GitHub handle requirement not met. Required: "
                                       ++ JsVal.to_string githubHandle ++ ", Found: "
                                       ++ JsVal.to_string handle))
                    else Ok tt
                  else Ok tt in
                let* minIssuanceAge := LitAction.claims_field requirements "minIssuanceAge" in
                if JsVal.truthy minIssuanceAge then
                  let* issuanceDate := JsVal.get vc "issuanceDate" in
                  let issuanceTime := date_getTime issuanceDate in
                  let minTime :=
                    option_map (fun age => LitAction.Date_now env - age * 1000)
                      (to_number minIssuanceAge) in
                  match issuanceTime, minTime with
                  | Some t, Some m =>
                      if t <? m then Throw (Error "Credential is too old") else Ok true
                  | _, _ => Ok true
                  end
                else Ok true
          end.

(** The chain of [e.message.indexOf(...) !== -1] that names the kind of
    failure *)
Definition errorType (message : string) : string :=
  if JsString.includes "ES256K" message then "user_jwt_verification"
  else if JsString.includes "GitHub" message then "github_credential_verification"
  else if JsString.includes "decrypt" message then "decryption_error"
  else "general_error".

(** The body of the [try] block of [_litActionCode]. *)
Definition main `{Platform} `{Ethers} (env : LitAction.Env) (p : LitAction.Params)
  : M unit :=
  do _ <- emit (console_log "Starting enhanced dual-factor credential verification...");
  do _ <- emit (console_log "Verifying ES256K JWT signature...");
  do es256kResult <-
    lift (verifyES256KJWT env (LitAction.userSignedJWT p) (LitAction.userAddress p));
  do purpose <- lift (JsVal.get (LitAction.payload es256kResult) "purpose");
  if negb (JsVal.strict_eq purpose (LitAction.operationPurpose p))
  then throw (Error ("JWT purpose mismatch. Expected: "
                     ++ JsVal.to_string (LitAction.operationPurpose p)
                     ++ ", Got: " ++ JsVal.to_string purpose))
  else
    do jwtCredReqs <-
      lift (JsVal.get (LitAction.payload es256kResult) "credential_requirements");
    if negb (JsVal.strict_eq (LitAction.js_stringify jwtCredReqs)
                             (LitAction.js_stringify (LitAction.credentialRequirements p)))
    then throw (Error "JWT credential requirements do not match operation requirements")
    else
      do aud <- lift (JsVal.get (LitAction.payload es256kResult) "aud");
      if negb (JsVal.strict_eq aud (JStr "lit-protocol-encryption"))
      then throw (Error ("Invalid JWT audience: " ++ JsVal.to_string aud))
      else
        do _ <- emit (console_log
                        "ES256K JWT verified successfully - User proved control of Ethereum address");
        do _ <- emit (console_log "Verifying GitHub credential JWT signature...");
        do issuer <- lift (JsVal.get (LitAction.credentialRequirements p) "issuer");
        do verificationResult <- verifyJWTWithEdDSA env (LitAction.credentialJWT p) issuer;
        do _ <- emit (console_log "GitHub credential JWT signature verified successfully");
        do _ <- lift (validateCredentialClaims env
                        (LitAction.ed_payload verificationResult)
                        (LitAction.credentialRequirements p) (LitAction.userAddress p));
        do _ <- emit (console_log "Credential claims validated successfully");
        do _ <- emit (console_log "All verifications passed - proceeding with decryption...");
        do _ <- emit (decryptAndCombine (LitAction.ciphertext p)
                        (LitAction.dataToEncryptHash p));
        do secret <- lift (LitAction.Lit_Actions_decryptAndCombine env
                             (LitAction.accessControlConditions p) (LitAction.ciphertext p)
                             (LitAction.dataToEncryptHash p));
        do _ <- emit (console_log
                        "Secret decrypted successfully with dual-factor authentication");
        do vc_iss <- lift (JsVal.get (LitAction.ed_payload verificationResult) "iss");
        do vc_sub <- lift (JsVal.get (LitAction.ed_payload verificationResult) "sub");
        do vc <- lift (JsVal.get (LitAction.ed_payload verificationResult) "vc");
        do evidence <- lift (JsVal.get vc "evidence");
        do githubHandle <- lift (LitAction.evidence_handle evidence);
        do issuanceDate <- lift (JsVal.get vc "issuanceDate");
        do userDID <- lift (JsVal.get (LitAction.payload es256kResult) "iss");
        do iat <- lift (JsVal.get (LitAction.payload es256kResult) "iat");
        do issuedAt <- lift (LitAction.iso_of_seconds iat);
        do exp <- lift (JsVal.get (LitAction.payload es256kResult) "exp");
        do expiresAt <- lift (LitAction.iso_of_seconds exp);
        do nonce <- lift (JsVal.get (LitAction.payload es256kResult) "nonce");
        emit (setResponse
                (JObj [("response",
                  JObj [("success", JBool true);
                        ("secret", secret);
                        ("verifiedCredential",
                         JObj [("issuer", vc_iss); ("subject", vc_sub);
                               ("githubHandle", githubHandle);
                               ("issuanceDate", issuanceDate)]);
                        ("verifiedUserJWT",
                         JObj [("userDID", userDID); ("purpose", purpose);
                               ("issuedAt", JStr issuedAt);
                               ("expiresAt", JStr expiresAt);
                               ("nonce", nonce)]);
                        ("authenticationFactors",
                         JArr [JStr "GitHub credential from trusted issuer";
                               JStr "Ethereum key ownership proof"])])])).

(** [_litActionCode]: the body, and the [catch] that reports a failure
    through [Lit.Actions.setResponse]. *)
Definition litActionCode `{Platform} `{Ethers} (env : LitAction.Env)
    (p : LitAction.Params) : M unit :=
  try_catch (main env p)
    (fun e =>
       do _ <- emit (console_error
                       ("Enhanced dual-factor credential verification failed: "
                        ++ error_message e));
       emit (setResponse
               (JObj [("response",
                 JObj [("success", JBool false);
                       ("error", JStr (error_message e));
                       ("errorType", JStr (errorType (error_message e)))])]))).

End LitActionES5.

(** ** From the caller to the Lit Action

    [executeJs] runs the action with the entries of [jsParams] as its
    globals.  The three the action uses as strings are strings here. *)
Definition globals_of_jsParams (jsParams : jsval) : option LitAction.Params :=
  match jsParams with
  | JObj props =>
      match JsVal.lookup "credentialJWT" props, JsVal.lookup "userAddress" props,
            JsVal.lookup "userSignedJWT" props with
      | JStr credentialJWT, JStr userAddress, JStr userSignedJWT =>
          Some {| LitAction.accessControlConditions :=
                    JsVal.lookup "accessControlConditions" props;
                  LitAction.ciphertext := JsVal.lookup "ciphertext" props;
                  LitAction.dataToEncryptHash := JsVal.lookup "dataToEncryptHash" props;
                  LitAction.credentialJWT := credentialJWT;
                  LitAction.credentialRequirements :=
                    JsVal.lookup "credentialRequirements" props;
                  LitAction.userAddress := userAddress;
                  LitAction.userSignedJWT := userSignedJWT;
                  LitAction.operationPurpose := JsVal.lookup "operationPurpose" props |}
      | _, _, _ => None
      end
  | _ => None
  end.

(** The log line that closes the checks of the user's token. *)
Definition user_token_accepted : Event :=
  console_log "ES256K JWT verified successfully - User proved control of Ethereum address".

(** A verification method whose [id] is a string that holds [#controller]
    at its end or not at all. *)
Definition controller_at_the_end (method : jsval) : Prop :=
  exists id,
    JsVal.get method "id" = Ok (JStr id)
    /\ JsString.includes "#controller" id = JsString.endsWith "#controller" id.

(** A run of the action on the parameters [p] answers exactly once: it
    returns normally, calls [Lit.Actions.setResponse] once and as its last
    step, and reports [success: true] only if it has called
    [Lit.Actions.decryptAndCombine] on the ciphertext of [p]. *)
Definition answers_exactly_once (run : M unit) (p : LitAction.Params) : Prop :=
  outcome run = Ok tt
  /\ exists response,
       filter is_setResponse (trace run) = [setResponse response]
       /\ last (trace run) (console_log EmptyString) = setResponse response
       /\ (response_success response = JBool true ->
           In (decryptAndCombine (LitAction.ciphertext p) (LitAction.dataToEncryptHash p))
              (trace run)).

(** ** The scenario, continued

    Services that answer, for runs that go through: a Lit network, the
    encryption of the SDK, and what the scenario's wallet and node make of
    them. *)

Module Services.

(** Alice's address as [getAddress] writes it. *)
Definition alice_checksummed : string := "0x5aAeb6053F3E94C9b9A09f33669435E7Ef1BeAed".

(** A credential whose subject is the DID:PKH [createDIDPKH] makes for
    Alice. *)
Definition checksummed_credential : Utils.ParsedCredential :=
  {| Utils.jwt := "header.payload.signature";
     Utils.cred_issuer := Scenario.trusted_issuer;
     Utils.subject := "did:pkh:eip155:1:" ++ alice_checksummed;
     Utils.credentialSubject :=
       Some {| Utils.id := Some ("did:pkh:eip155:1:" ++ alice_checksummed) |};
     Utils.evidence := JObj [("handle", JStr "alice")];
     Utils.issuanceDate := "2024-01-01T00:00:00Z";
     Utils.handle := Some "alice" |}.

Definition action_answer : jsval :=
  JObj [("response", JObj [("success", JBool true); ("secret", JStr "hello world")])].

Definition online : WalletBased.LitNetwork :=
  {| WalletBased.net_connect := Ok tt;
     WalletBased.net_contracts_connect := Ok tt;
     WalletBased.net_mintCapacityCreditsNFT := Ok "4711";
     WalletBased.net_createCapacityDelegationAuthSig :=
       fun capacityTokenId delegatee =>
         Ok (JObj [("sig", JStr capacityTokenId); ("address", JStr delegatee)]);
     WalletBased.net_getSessionSigs :=
       fun resource authSig => Ok (JObj [("resource", JStr resource); ("auth", authSig)]);
     WalletBased.net_executeJs := fun _ _ => Ok action_answer |}.

Definition lit_sdk : Encryption.LitEncryption :=
  {| Encryption.encryptString :=
       fun _ secret =>
         Ok (Bytes.btoa secret,
             "64ec88ca00b268e5ba1a35678a1b5316d212f4f366b2477232534a8aeca37f3c");
     Encryption.generateResourceString :=
       fun _ hash => Ok ("lit-accesscontrolcondition://" ++ hash) |}.

Definition pool : option (list Utils.ParsedCredential) :=
  Some [Scenario.credential "2024-01-01T00:00:00Z" "alice"].

(** The scenario's bundle with Alice's encryption token, owned by Alice. *)
Definition alice_bundle : EncryptedData :=
  Scenario.bundle Scenario.encrypt_token (address Scenario.alice_wallet) None.

(** What Alice's encryption at noon returns. *)
Definition encrypted_bundle : EncryptedData :=
  Eval vm_compute in
    match outcome (@Encryption.encryptToCredentialWithJWT Reference.platform
                     Reference.ethers (Utils.Browser None None) online lit_sdk
                     Scenario.noon Scenario.entropy "hello world"
                     (Scenario.requirement None) Scenario.alice_wallet) with
    | Ok bundle => bundle
    | Throw _ => alice_bundle
    end.

(** What the node makes of the scenario's credential token. *)
Definition verified_credential : LitAction.EdDSAVerified :=
  {| LitAction.ed_valid := true;
     LitAction.ed_payload := Scenario.credential_payload 1900000000;
     LitAction.ed_header := Scenario.credential_header;
     LitAction.ed_issuer := JStr Scenario.trusted_issuer |}.

(** The token Alice signs at noon for decryption, and the bytes of a token's
    signature segment. *)
Definition decrypt_token : string :=
  Eval vm_compute in
    Scenario.or_empty
      (@Jwt.createDecryptionJWT Reference.platform Reference.ethers
         Scenario.noon Scenario.entropy Scenario.alice_wallet (Scenario.requirement None)).

Definition signature_of (token : string) : list byte :=
  match JsString.split "." token with
  | [_; _; signature] =>
      match Jwt.base64urlDecode signature with
      | Ok bytes => bytes
      | Throw _ => []
      end
  | _ => []
  end.

Definition untrusted_requirement : Utils.CredentialRequirements :=
  {| Utils.issuer := "did:web:untrusted-issuer.com";
     Utils.credentialType := "GitHubVerification";
     Utils.claims := None |}.

End Services.

Module Rotation.

(** A DID document after a key rotation: the old key is kept under an id
    that holds [#controller] before its end. *)
Definition retired_key : jsval :=
  JObj [("kty", JStr "OKP"); ("crv", JStr "Ed25519");
        ("x", JStr "G80iskrv_nE69qbGLSpeOHJgmV4MKIzsy5l5iT6pCww")].

Definition retired_method : jsval :=
  JObj [("id", JStr (Scenario.trusted_issuer ++ "#controller-2023"));
        ("type", JStr "Ed25519VerificationKey2018");
        ("publicKeyJwk", retired_key)].

Definition rotated_document : jsval :=
  JObj [("id", JStr Scenario.trusted_issuer);
        ("verificationMethod", JArr [retired_method])].

(** The scenario's credential with its type written as one string. *)
Definition single_type_credential : jsval :=
  JObj [("type", JStr "GitHubVerification");
        ("credentialSubject", JObj [("id", JStr ("did:pkh:eip155:1:" ++ Scenario.alice))]);
        ("evidence", JObj [("handle", JStr "alice")]);
        ("issuanceDate", JStr "2024-01-01T00:00:00Z")].

Definition single_type_payload : jsval :=
  JObj [("iss", JStr Scenario.trusted_issuer);
        ("sub", JStr ("did:pkh:eip155:1:" ++ Scenario.alice));
        ("exp", JNum 1900000000);
        ("vc", single_type_credential)].

End Rotation.

(** * Properties *)

(** ** Strings *)

Lemma len_zero (s : string) : (JsString.len s =? 0) = true <-> s = EmptyString.
Proof.
  unfold JsString.len. destruct s; simpl; split; intro E; try reflexivity;
    discriminate.
Qed.

Lemma includes_string_In (l : list string) (x : string) :
  Utils.includes_string l x = true <-> In x l.
Proof.
  unfold Utils.includes_string. rewrite existsb_exists. split.
  - intros [y [Hin E]]. apply String.eqb_eq in E. now subst.
  - intro Hin. exists x. split; [assumption | apply String.eqb_refl].
Qed.

Lemma includes_string_not_In (l : list string) (x : string) :
  ~ In x l -> Utils.includes_string l x = false.
Proof.
  intro Hn. destruct (Utils.includes_string l x) eqn:E; [|reflexivity].
  apply includes_string_In in E. contradiction.
Qed.

(** ** The trust gate *)

Lemma invalid_handle_spec (v : jsval) :
  Utils.invalid_handle v = true <-> bad_handle v.
Proof.
  unfold Utils.invalid_handle, bad_handle. split.
  - intro H. destruct v; try (left; intros s E; discriminate).
    right. exists s. split; [reflexivity|].
    apply orb_true_iff in H. destruct H as [H|H].
    + simpl in H. apply negb_true_iff, negb_false_iff in H.
      apply String.eqb_eq in H. subst. reflexivity.
    + now apply len_zero.
  - intros [H | [s [E H]]].
    + destruct v; try (apply orb_true_r). exfalso. now apply (H s).
    + subst. apply orb_true_iff. right. now apply len_zero.
Qed.

Lemma check_handles_ok (handles : list jsval) :
  Forall (fun h => ~ bad_handle h) handles -> Utils.check_handles handles = Ok tt.
Proof.
  induction 1 as [|h l Hh _ IH]; simpl; [reflexivity|].
  destruct (Utils.invalid_handle h) eqn:E; [|assumption].
  apply invalid_handle_spec in E. contradiction.
Qed.

Lemma check_handles_throws (handles : list jsval) :
  Exists bad_handle handles ->
  exists h, In h handles /\ bad_handle h
    /\ Utils.check_handles handles
       = Throw (Error ("Invalid GitHub handle: " ++ JsVal.to_string h
                       ++ ". GitHub handles must be non-empty strings.")).
Proof.
  induction handles as [|h l IH]; intro Hex.
  - inversion Hex.
  - simpl. destruct (Utils.invalid_handle h) eqn:E.
    + exists h. apply invalid_handle_spec in E. repeat split; auto using in_eq.
    + assert (Hl : Exists bad_handle l).
      { inversion Hex; subst; [|assumption].
        apply invalid_handle_spec in H0. congruence. }
      destruct (IH Hl) as [h' [Hin [Hbad Heq]]].
      exists h'. repeat split; auto using in_cons.
Qed.

Lemma validate_tail (requirements : Utils.CredentialRequirements) :
  match Utils.claims_githubHandle requirements with
  | JUndefined => Ok tt
  | h => Utils.check_handles (Utils.as_array h)
  end = Utils.check_handles (supplied_handles requirements).
Proof.
  unfold supplied_handles.
  destruct (Utils.claims_githubHandle requirements); reflexivity.
Qed.

(** C6.  With the trust list configured as the two default issuers:
    a requirement whose issuer is outside it is refused with the message
    "Untrusted issuer: <issuer>. Trusted issuers: <the two issuers>"; for a
    trusted issuer a credential type other than "GitHubVerification" is
    refused; with the right type, a supplied handle value that is no
    string, empty or white space only is refused; and a requirement whose
    supplied handle values are all proper strings is accepted. *)
Theorem validateGithubCredentialRequirements_trust_gate
    (rt : Utils.Runtime) (requirements : Utils.CredentialRequirements) :
  Utils.getTrustedIssuers rt = Ok configured_trust_list ->
  (~ In (Utils.issuer requirements) configured_trust_list ->
   Utils.validateGithubCredentialRequirements rt requirements
   = Throw (Error ("Untrusted issuer: " ++ Utils.issuer requirements
                   ++ ". Trusted issuers: did:web:rebasedemokey.pages.dev, did:web:issuer.tinycloud.xyz")))
  /\ (In (Utils.issuer requirements) configured_trust_list ->
      Utils.credentialType requirements <> "GitHubVerification" ->
      Utils.validateGithubCredentialRequirements rt requirements
      = Throw (Error ("Invalid credential type: " ++ Utils.credentialType requirements
                      ++ ". Only GitHubVerification is supported.")))
  /\ (In (Utils.issuer requirements) configured_trust_list ->
      Utils.credentialType requirements = "GitHubVerification" ->
      Exists bad_handle (supplied_handles requirements) ->
      exists h, In h (supplied_handles requirements) /\ bad_handle h
        /\ Utils.validateGithubCredentialRequirements rt requirements
           = Throw (Error ("Invalid GitHub handle: " ++ JsVal.to_string h
                           ++ ". GitHub handles must be non-empty strings.")))
  /\ (In (Utils.issuer requirements) configured_trust_list ->
      Utils.credentialType requirements = "GitHubVerification" ->
      Forall (fun h => ~ bad_handle h) (supplied_handles requirements) ->
      Utils.validateGithubCredentialRequirements rt requirements = Ok tt).
Proof.
  intro Hcfg.
  unfold Utils.validateGithubCredentialRequirements, Utils.validateTrustedIssuer.
  rewrite Hcfg. cbn [bind]. rewrite validate_tail.
  repeat split.
  - intro Hn. rewrite (includes_string_not_In _ _ Hn). reflexivity.
  - intros Hin Hty. rewrite (proj2 (includes_string_In _ _) Hin). cbn [negb bind].
    destruct (String.eqb_spec (Utils.credentialType requirements) "GitHubVerification");
      [contradiction | reflexivity].
  - intros Hin Hty Hex. rewrite (proj2 (includes_string_In _ _) Hin). cbn [negb bind].
    rewrite Hty, String.eqb_refl. cbn [negb].
    destruct (check_handles_throws _ Hex) as [h [Hin' [Hbad Heq]]].
    exists h. auto.
  - intros Hin Hty Hall. rewrite (proj2 (includes_string_In _ _) Hin). cbn [negb bind].
    rewrite Hty, String.eqb_refl. cbn [negb].
    now apply check_handles_ok.
Qed.

(** ** The credential matcher *)

Lemma startsWith_spec (p s : string) :
  JsString.startsWith p s = true <-> exists rest, s = p ++ rest.
Proof.
  revert s. induction p as [|a p IH]; intro s; simpl.
  - split; [intros _; now exists s | reflexivity].
  - destruct s as [|b s].
    + split; [discriminate | intros [rest E]; discriminate].
    + rewrite andb_true_iff, IH. split.
      * intros [Hab [rest E]]. apply Ascii.eqb_eq in Hab. subst. now exists rest.
      * intros [rest E]. injection E as -> ->. split; [apply Ascii.eqb_refl | now exists rest].
Qed.

Lemma includes_spec (sub s : string) :
  JsString.includes sub s = true <-> substring_of sub s.
Proof.
  unfold substring_of. induction s as [|c s IH]; simpl.
  - rewrite orb_false_r, startsWith_spec. split.
    + intros [rest E]. exists EmptyString, rest. assumption.
    + intros [before [after E]]. destruct before; [now exists after | discriminate].
  - rewrite orb_true_iff, startsWith_spec, IH. split.
    + intros [[rest E] | [before [after E]]].
      * exists EmptyString, rest. assumption.
      * exists (String c before), after. simpl. now rewrite E.
    + intros [before [after E]]. destruct before as [|b before].
      * left. now exists after.
      * right. simpl in E. injection E as _ E. now exists before, after.
Qed.

Lemma strict_eq_JStr (h : string) (x : jsval) :
  JsVal.strict_eq (JStr h) x = true <-> x = JStr h.
Proof.
  destruct x; simpl; split; intro E; try discriminate.
  - apply String.eqb_eq in E. now subst.
  - injection E as ->. apply String.eqb_refl.
Qed.

Lemma includes_handle_In (l : list jsval) (h : string) :
  Utils.includes_handle l h = true <-> In (JStr h) l.
Proof.
  unfold Utils.includes_handle. rewrite existsb_exists. split.
  - intros [x [Hin E]]. apply strict_eq_JStr in E. now subst.
  - intro Hin. exists (JStr h). split; [assumption | now apply strict_eq_JStr].
Qed.

Lemma subject_matches_spec (cred : Utils.ParsedCredential) (userAddress : string) :
  Utils.subject_matches cred userAddress = true <->
  exists cs sid,
    Utils.credentialSubject cred = Some cs /\ Utils.id cs = Some sid
    /\ sid <> EmptyString
    /\ substring_of (JsString.toLowerCase userAddress) sid.
Proof.
  unfold Utils.subject_matches.
  destruct (Utils.credentialSubject cred) as [cs|].
  - destruct (Utils.id cs) as [[|c s]|] eqn:Hid.
    + split; [discriminate|]. intros [cs' [sid [E1 [E2 [Hne _]]]]].
      injection E1 as <-. congruence.
    + rewrite includes_spec. split.
      * intro Hs. exists cs, (String c s). repeat split; auto. discriminate.
      * intros [cs' [sid [E1 [E2 [_ Hs]]]]]. injection E1 as <-.
        rewrite Hid in E2. now injection E2 as <-.
    + split; [discriminate|]. intros [cs' [sid [E1 [E2 _]]]].
      injection E1 as <-. congruence.
  - split; [discriminate|]. intros [cs [sid [E _]]]. discriminate.
Qed.

Lemma handle_matches_spec (cred : Utils.ParsedCredential)
    (requirements : Utils.CredentialRequirements) :
  Utils.handle_matches cred requirements = true <->
  (JsVal.truthy (Utils.claims_githubHandle requirements) = true ->
   exists h,
     Utils.handle cred = Some h /\ h <> EmptyString
     /\ In (JStr h) (Utils.as_array (Utils.claims_githubHandle requirements))).
Proof.
  unfold Utils.handle_matches.
  destruct (JsVal.truthy (Utils.claims_githubHandle requirements)).
  - destruct (Utils.handle cred) as [[|c s]|].
    + split; [discriminate|]. intro H. destruct (H eq_refl) as [h [E [Hne _]]].
      injection E as <-. congruence.
    + rewrite includes_handle_In. split.
      * intros Hin _. exists (String c s). repeat split; auto. discriminate.
      * intro H. destruct (H eq_refl) as [h [E [_ Hin]]]. now injection E as <-.
    + split; [discriminate|]. intro H. destruct (H eq_refl) as [h [E _]].
      discriminate.
  - split; [discriminate | reflexivity].
Qed.

Section Matcher.

Context `{Platform}.

Lemma issuance_matches_spec (Date_now : Z) (cred : Utils.ParsedCredential)
    (requirements : Utils.CredentialRequirements) :
  Utils.issuance_matches Date_now cred requirements = true <->
  (forall age t,
     Utils.claims_minIssuanceAge requirements = Some age -> age <> 0 ->
     Date_getTime (Utils.issuanceDate cred) = Some t ->
     Date_now - age * 1000 <= t).
Proof.
  unfold Utils.issuance_matches.
  destruct (Utils.claims_minIssuanceAge requirements) as [age|].
  - destruct (Z.eqb_spec age 0) as [-> | Hne].
    + split; [|reflexivity]. intros _ age t E Hne. injection E as <-. congruence.
    + destruct (Date_getTime (Utils.issuanceDate cred)) as [t|].
      * rewrite negb_true_iff, Z.ltb_ge. split.
        -- intros Hle age' t' E _ E'. injection E as <-. now injection E' as <-.
        -- intro Hall. now apply (Hall age t).
      * split; [|reflexivity]. intros _ age' t' _ _ E. discriminate.
  - split; [|reflexivity]. intros _ age t E. discriminate.
Qed.

Lemma credential_matches_spec (Date_now : Z)
    (requirements : Utils.CredentialRequirements) (userAddress : string)
    (cred : Utils.ParsedCredential) :
  Utils.credential_matches Date_now requirements userAddress cred = true <->
  Matches Date_now requirements userAddress cred.
Proof.
  unfold Utils.credential_matches, Matches.
  rewrite <- subject_matches_spec, <- handle_matches_spec, <- issuance_matches_spec.
  destruct (String.eqb_spec (Utils.cred_issuer cred) (Utils.issuer requirements));
    cbn [negb]; [|intuition discriminate].
  destruct (Utils.subject_matches cred userAddress); cbn [negb];
    [|intuition discriminate].
  destruct (Utils.handle_matches cred requirements); cbn [negb];
    [|intuition discriminate].
  destruct (Utils.issuance_matches Date_now cred requirements); cbn [negb];
    intuition discriminate.
Qed.

Lemma find_first {A : Type} (f : A -> bool) (P : A -> Prop)
    (Hf : forall x, f x = true <-> P x) (pool : list A) (c : A) :
  find f pool = Some c <-> first_with P pool c.
Proof.
  unfold first_with. induction pool as [|x l IH]; simpl.
  - split; [discriminate|]. intros [before [after [E _]]].
    destruct before; discriminate.
  - destruct (f x) eqn:Efx.
    + split.
      * intro E. injection E as <-. exists [], l. repeat split; auto.
        now apply Hf.
      * intros [before [after [E [Hc Hb]]]]. destruct before as [|b before].
        -- simpl in E. now injection E as -> _.
        -- simpl in E. injection E as -> _. inversion Hb; subst.
           apply Hf in Efx. contradiction.
    + rewrite IH. split.
      * intros [before [after [E [Hc Hb]]]]. exists (x :: before), after.
        repeat split; [simpl; now rewrite E | assumption |].
        constructor; [|assumption]. intro Hx. apply Hf in Hx. congruence.
      * intros [before [after [E [Hc Hb]]]]. destruct before as [|b before].
        -- simpl in E. injection E as -> _. apply Hf in Hc. congruence.
        -- simpl in E. injection E as _ ->. inversion Hb; subst.
           now exists before, after.
Qed.

Lemma find_none_iff {A : Type} (f : A -> bool) (P : A -> Prop)
    (Hf : forall x, f x = true <-> P x) (pool : list A) :
  find f pool = None <-> Forall (fun x => ~ P x) pool.
Proof.
  induction pool as [|x l IH]; simpl.
  - split; [constructor | reflexivity].
  - destruct (f x) eqn:E.
    + split; [discriminate|]. intro Hall. inversion Hall; subst.
      apply Hf in E. contradiction.
    + rewrite IH. split.
      * intro Hl. constructor; [|assumption]. intro Hx. apply Hf in Hx. congruence.
      * intro Hall. now inversion Hall.
Qed.

(** The matcher returns the first credential, in input order, that
    satisfies the four predicates of [Matches], and none when there is no
    such credential. *)
Lemma findMatchingCredential_first (Date_now : Z) (pool : list Utils.ParsedCredential)
    (requirements : Utils.CredentialRequirements) (userAddress : string) :
  (forall cred,
     Utils.findMatchingCredential Date_now pool requirements userAddress = Some cred
     <-> first_with (Matches Date_now requirements userAddress) pool cred)
  /\ (Utils.findMatchingCredential Date_now pool requirements userAddress = None
      <-> Forall (fun cred => ~ Matches Date_now requirements userAddress cred) pool).
Proof.
  unfold Utils.findMatchingCredential. split.
  - intro cred. apply find_first. intro x. apply credential_matches_spec.
  - apply find_none_iff. intro x. apply credential_matches_spec.
Qed.

(** C7, as amended.  For every pool, requirement and address the matcher
    returns the first credential in input order that satisfies all of: its
    issuer is the required one; its subject identifier is a non-empty
    string containing the lower-cased address; when a handle claim is
    specified, its handle is a non-empty string among the accepted values;
    and, when a non-zero minimum issuance age is specified, its issuance
    time, if the date parses, is not earlier than [now - age].  It returns
    none when no credential passes the address test, whatever issuer and
    handle are; and in a pool of three where exactly one credential
    satisfies the predicates, that credential is returned. *)
Theorem findMatchingCredential_first_match (Date_now : Z)
    (pool : list Utils.ParsedCredential)
    (requirements : Utils.CredentialRequirements) (userAddress : string) :
  (forall cred,
     Utils.findMatchingCredential Date_now pool requirements userAddress = Some cred
     <-> first_with (Matches Date_now requirements userAddress) pool cred)
  /\ ((forall cred cs sid,
         In cred pool -> Utils.credentialSubject cred = Some cs ->
         Utils.id cs = Some sid ->
         ~ substring_of (JsString.toLowerCase userAddress) sid) ->
      Utils.findMatchingCredential Date_now pool requirements userAddress = None)
  /\ (forall c1 c2 c3 cred,
        pool = [c1; c2; c3] -> In cred pool ->
        Matches Date_now requirements userAddress cred ->
        (forall other, In other pool ->
                       Matches Date_now requirements userAddress other ->
                       other = cred) ->
        Utils.findMatchingCredential Date_now pool requirements userAddress = Some cred).
Proof.
  destruct (findMatchingCredential_first Date_now pool requirements userAddress)
    as [Hsome Hnone].
  split; [exact Hsome | split].
  - intro Hsub. apply Hnone. apply Forall_forall. intros cred Hin HM.
    destruct HM as [_ [[cs [sid [E1 [E2 [_ Hs]]]]] _]].
    exact (Hsub cred cs sid Hin E1 E2 Hs).
  - intros c1 c2 c3 cred Hpool Hin HM Huniq.
    destruct (Utils.findMatchingCredential Date_now pool requirements userAddress)
      as [found|] eqn:E.
    + destruct (proj1 (Hsome found) eq_refl) as [before [after [Epool [HMf _]]]].
      f_equal. apply Huniq; [|assumption].
      rewrite Epool. apply in_or_app. right. now left.
    + pose proof (proj1 Hnone eq_refl) as Hall. rewrite Forall_forall in Hall.
      exfalso. exact (Hall cred Hin HM).
Qed.

(** C5, as amended.  When the requirement specifies a non-zero minimum
    issuance age and the credential's issuance date parses, the matcher
    returns the credential only if [issuanceTime >= now - age * 1000], that
    is only if it is at most [age] seconds old; a credential older than
    that is never returned. *)
Theorem findMatchingCredential_issuance_window (Date_now : Z)
    (pool : list Utils.ParsedCredential)
    (requirements : Utils.CredentialRequirements) (userAddress : string)
    (cred : Utils.ParsedCredential) (age issuanceTime : Z) :
  Utils.claims_minIssuanceAge requirements = Some age -> age <> 0 ->
  Date_getTime (Utils.issuanceDate cred) = Some issuanceTime ->
  (Utils.findMatchingCredential Date_now pool requirements userAddress = Some cred ->
   Date_now - issuanceTime <= age * 1000)
  /\ (age * 1000 < Date_now - issuanceTime ->
      Utils.findMatchingCredential Date_now pool requirements userAddress <> Some cred).
Proof.
  intros Hage Hne Ht.
  assert (Hwin :
    Utils.findMatchingCredential Date_now pool requirements userAddress = Some cred ->
    Date_now - issuanceTime <= age * 1000).
  { intro E.
    apply (proj1 (findMatchingCredential_first Date_now pool requirements userAddress))
      in E.
    destruct E as [before [after [_ [HM _]]]].
    destruct HM as [_ [_ [_ Hiss]]].
    specialize (Hiss age issuanceTime Hage Hne Ht). lia. }
  split; [exact Hwin|]. intros Hold E. apply Hwin in E. lia.
Qed.

End Matcher.

(** ** The credentials-only decryption *)

Section CredentialsOnlyDecryption.

Context `{Platform}.

Lemma is_mock_spec (encryptedData : EncryptedData) :
  CredentialsOnly.is_mock encryptedData = true <->
  userSignedJWT encryptedData = "mock.jwt.token"
  \/ CredentialsOnly.metadata_mock encryptedData = true.
Proof.
  unfold CredentialsOnly.is_mock. rewrite orb_true_iff, String.eqb_eq. tauto.
Qed.

(** C3.  When the bundle's token is the literal "mock.jwt.token" or its
    [metadata.mock] is set, the credentials-only decryption answers from
    the ciphertext alone: [success: true] with the base64-decoded
    ciphertext as the secret, or, when the ciphertext does not decode,
    [success: false].  The run logs one line (and the decoding error); it
    checks no address, matches no credential, and does not depend on the
    credential pool, the address argument or the clock. *)
Theorem mock_decryption_decodes_ciphertext (Date_now : Z)
    (encryptedData : EncryptedData)
    (userCredentials : option (list Utils.ParsedCredential))
    (userAddress' : option string) :
  userSignedJWT encryptedData = "mock.jwt.token"
  \/ CredentialsOnly.metadata_mock encryptedData = true ->
  (forall secret,
     Bytes.atob (ciphertext encryptedData) = Ok secret ->
     CredentialsOnly.decryptFromCredentialsWithJWT Date_now encryptedData
       userCredentials userAddress'
     = (Ok (JObj [("response",
                   JObj [("success", JBool true); ("secret", JStr secret)])]),
        [console_log "Detected mock encrypted data, using mock decryption..."]))
  /\ (forall error,
        Bytes.atob (ciphertext encryptedData) = Throw error ->
        CredentialsOnly.decryptFromCredentialsWithJWT Date_now encryptedData
          userCredentials userAddress'
        = (Ok (JObj [("response",
                      JObj [("success", JBool false);
                            ("error", JStr "Failed to decode mock encrypted content")])]),
           [console_log "Detected mock encrypted data, using mock decryption...";
            console_error ("Failed to decode mock content: " ++ error_message error)]))
  /\ (forall response,
        outcome (CredentialsOnly.decryptFromCredentialsWithJWT Date_now encryptedData
                   userCredentials userAddress')
        = Ok (JObj [("response", response)]) ->
        JsVal.lookup "success" (match response with JObj props => props | _ => [] end)
        = JBool false ->
        exists error, Bytes.atob (ciphertext encryptedData) = Throw error).
Proof.
  intro Hmock. apply is_mock_spec in Hmock.
  unfold CredentialsOnly.decryptFromCredentialsWithJWT. rewrite Hmock.
  repeat split.
  - intros secret E. rewrite E. reflexivity.
  - intros error E. rewrite E. reflexivity.
  - intros response. destruct (Bytes.atob (ciphertext encryptedData)) as [s|e].
    + cbn. intro E. injection E as <-. cbn. discriminate.
    + intros _ _. now exists e.
Qed.

Lemma not_mock_spec (encryptedData : EncryptedData) :
  userSignedJWT encryptedData <> "mock.jwt.token" ->
  CredentialsOnly.metadata_mock encryptedData = false ->
  CredentialsOnly.is_mock encryptedData = false.
Proof.
  intros Hjwt Hmeta. unfold CredentialsOnly.is_mock. rewrite Hmeta.
  now apply String.eqb_neq.
Qed.

(** C10.  On an input that is not mock data the credentials-only decryption
    always throws: "No matching credential found ..." when no credential of
    the pool matches the requirement, and "Real Lit Protocol decryption
    requires wallet operations ..." when one does; so it never returns.  An
    address argument that differs from the bundle's address only adds a
    warning to the log: the run still goes on to match the pool. *)
Theorem real_decryption_always_throws (Date_now : Z)
    (encryptedData : EncryptedData)
    (userCredentials : option (list Utils.ParsedCredential))
    (userAddress' : option string) :
  userSignedJWT encryptedData <> "mock.jwt.token" ->
  CredentialsOnly.metadata_mock encryptedData = false ->
  let run :=
    CredentialsOnly.decryptFromCredentialsWithJWT Date_now encryptedData
      userCredentials userAddress' in
  let address := CredentialsOnly.or_else userAddress' (userAddress encryptedData) in
  let matching :=
    Utils.findMatchingCredential Date_now (Utils.loadCredentials userCredentials)
      (credentialRequirements encryptedData) address in
  (matching = None ->
   outcome run
   = Throw (Error "No matching credential found for the specified requirements"))
  /\ (forall cred, matching = Some cred ->
      outcome run
      = Throw (Error ("Real Lit Protocol decryption requires wallet operations. "
                      ++ "This browser package is designed for credentials-only decryption. "
                      ++ "Please use mock encrypted content for testing.")))
  /\ (forall value, outcome run <> Ok value)
  /\ (CredentialsOnly.address_differs userAddress' encryptedData = true ->
      exists rest,
        trace run
        = console_warn "User address mismatch - proceeding with credential verification"
          :: console_log "Verifying credentials for access..."
          :: console_log "Loading credentials..."
          :: match_credentials address :: rest).
Proof.
  intros Hjwt Hmeta run address matching. subst run.
  unfold CredentialsOnly.decryptFromCredentialsWithJWT.
  rewrite (not_mock_spec _ Hjwt Hmeta).
  fold address. fold matching.
  destruct (CredentialsOnly.address_differs userAddress' encryptedData);
    destruct matching as [cred|]; cbn; repeat split; intros;
    try discriminate; try reflexivity; eauto.
Qed.

End CredentialsOnlyDecryption.

(** ** The wallet-based decryption *)

Section WalletBasedDecryption.

Context `{Platform} `{Ethers}.

(** C2.  When the acting wallet's address differs, case apart, from the
    bundle's [userAddress], the wallet-based decryption throws "User wallet
    does not match the encrypted data owner" and does nothing else than log
    that error: no decryption token is minted, the pool is not matched, the
    Lit network is not contacted and the Lit Action is not executed. *)
Theorem decrypt_refuses_other_wallet (rt : Utils.Runtime)
    (net : WalletBased.LitNetwork) (Date_now : Z) (random : list byte)
    (encryptedData : EncryptedData) (userWallet : Wallet)
    (userCredentials : option (list Utils.ParsedCredential)) :
  JsString.toLowerCase (address userWallet)
  <> JsString.toLowerCase (userAddress encryptedData) ->
  let run :=
    WalletBased.decryptFromCredentialsWithJWT rt net Date_now random encryptedData
      userWallet userCredentials in
  run = (Throw (Error "User wallet does not match the encrypted data owner"),
         [console_error "User wallet does not match the encrypted data owner"])
  /\ Forall (fun e => ~ later_step e) (trace run).
Proof.
  intros Hneq run. subst run.
  unfold WalletBased.decryptFromCredentialsWithJWT.
  apply String.eqb_neq in Hneq. rewrite Hneq. cbn.
  split; [reflexivity|]. constructor; [|constructor]. intro F. exact F.
Qed.

End WalletBasedDecryption.

(** ** The Lit Action *)

Section LitActionProperties.

Context `{Platform} `{Ethers}.

(** C8.  In a run of the enhanced Lit Action where the user token verifies
    and its [purpose] is not the [operationPurpose] parameter, the body
    throws "JWT purpose mismatch. Expected: ..., Got: ...", the action
    reports that failure through [setResponse], and
    [Lit.Actions.decryptAndCombine] is not invoked: the run consists of the
    two opening log lines, the error line and the response. *)
Theorem purpose_mismatch_blocks_decryption (env : LitAction.Env)
    (p : LitAction.Params) (verified : LitAction.Verified) (purpose : jsval) :
  LitAction.verifyES256KJWT env (LitAction.userSignedJWT p) (LitAction.userAddress p)
  = Ok verified ->
  JsVal.get (LitAction.payload verified) "purpose" = Ok purpose ->
  JsVal.strict_eq purpose (LitAction.operationPurpose p) = false ->
  let message :=
    "JWT purpose mismatch. Expected: " ++ JsVal.to_string (LitAction.operationPurpose p)
    ++ ", Got: " ++ JsVal.to_string purpose in
  outcome (LitAction.main env p) = Throw (Error message)
  /\ LitAction.litActionCodeWithES256K env p
     = (Ok tt,
        [console_log "Starting enhanced dual-factor credential verification...";
         console_log "Verifying ES256K JWT signature...";
         console_error ("Enhanced dual-factor credential verification failed: "
                        ++ message);
         setResponse
           (JObj [("response",
                   JObj [("success", JBool false);
                         ("error", JStr message);
                         ("errorType", JStr (LitAction.errorType message))])])])
  /\ (forall c h,
        ~ In (decryptAndCombine c h) (trace (LitAction.litActionCodeWithES256K env p))).
Proof.
  intros Hver Hpurpose Hneq message.
  assert (Hmain : LitAction.main env p
                  = (Throw (Error message),
                     [console_log "Starting enhanced dual-factor credential verification...";
                      console_log "Verifying ES256K JWT signature..."])).
  { unfold LitAction.main. rewrite Hver. cbn. rewrite Hpurpose. cbn.
    rewrite Hneq. reflexivity. }
  assert (Hrun : LitAction.litActionCodeWithES256K env p
                 = (Ok tt,
                    [console_log "Starting enhanced dual-factor credential verification...";
                     console_log "Verifying ES256K JWT signature...";
                     console_error ("Enhanced dual-factor credential verification failed: "
                                    ++ message);
                     setResponse
                       (JObj [("response",
                               JObj [("success", JBool false);
                                     ("error", JStr message);
                                     ("errorType", JStr (LitAction.errorType message))])])])).
  { unfold LitAction.litActionCodeWithES256K. rewrite Hmain. reflexivity. }
  split; [now rewrite Hmain | split; [exact Hrun|]].
  intros c h. rewrite Hrun. cbn.
  intros [F | [F | [F | [F | []]]]]; discriminate.
Qed.

(** In the browser verifier an expired token is a result, not an exception:
    a token of at least three non-empty segments whose header names ES256K
    and whose payload carries a DID:PKH issuer equal to its subject, with a
    valid address, verifies to [valid: false] when [exp] is before the
    current second. *)
Lemma verifyES256KJWT_expiry_is_soft (Date_now : Z) (jwt : string)
    (encodedHeader encodedPayload encodedSignature : string) (more : list string)
    (header payload : jsval) (iss signerAddress : string) (exp : Z) :
  JsString.split "." jwt
  = encodedHeader :: encodedPayload :: encodedSignature :: more ->
  encodedHeader <> EmptyString -> encodedPayload <> EmptyString ->
  encodedSignature <> EmptyString ->
  Jwt.decode_segment encodedHeader = Ok header ->
  Jwt.decode_segment encodedPayload = Ok payload ->
  JsVal.get header "alg" = Ok (JStr "ES256K") ->
  JsVal.get payload "iss" = Ok (JStr iss) ->
  JsVal.get payload "sub" = Ok (JStr iss) ->
  JsString.startsWith "did:pkh:eip155:" iss = true ->
  JsString.pop (JsString.split ":" iss) = Some signerAddress ->
  signerAddress <> EmptyString -> isAddress signerAddress = true ->
  JsVal.get payload "exp" = Ok (JNum exp) -> exp < Date_now / 1000 ->
  Jwt.verifyES256KJWT Date_now jwt
  = Ok {| Jwt.header := header; Jwt.payload := payload; Jwt.valid := false |}.
Proof.
  intros Hsplit Hh Hp Hs Hdh Hdp Halg Hiss Hsub Hpre Hpop Hne Haddr Hexp Hlt.
  unfold Jwt.verifyES256KJWT. rewrite Hsplit. unfold Jwt.segment. cbn [nth_error].
  destruct encodedHeader; [congruence|]. destruct encodedPayload; [congruence|].
  destruct encodedSignature; [congruence|].
  rewrite Hdh, Hdp. cbn [bind]. rewrite Halg. cbn [bind JsVal.strict_eq].
  rewrite String.eqb_refl. cbn [negb].
  rewrite Hiss. cbn [bind Jwt.call_startsWith]. rewrite Hpre, Hsub.
  cbn [bind JsVal.strict_eq negb orb]. rewrite String.eqb_refl. cbn [negb].
  unfold Jwt.last_segment. rewrite Hpop.
  destruct signerAddress; [congruence|].
  rewrite Haddr. cbn [negb]. rewrite Hexp. cbn [bind].
  unfold js_lt, to_number. rewrite (proj2 (Z.ltb_lt _ _) Hlt). reflexivity.
Qed.

(** In the EdDSA verifier the same conditions are exceptions: once the
    signature has been accepted, a truthy [exp] before the current second
    throws "JWT expired", and otherwise a truthy [nbf] after it throws "JWT
    not yet valid". *)
Lemma verify_claims_expiry_is_hard (env : LitAction.Env) (header payload : jsval) :
  (forall exp,
     JsVal.get payload "exp" = Ok exp -> JsVal.truthy exp = true ->
     js_lt exp (LitAction.Date_now env / 1000) = true ->
     LitAction.verify_claims env header payload = Throw (Error "JWT expired"))
  /\ (forall exp nbf,
        JsVal.get payload "exp" = Ok exp ->
        LitAction.elapsed exp (LitAction.Date_now env / 1000) = false ->
        JsVal.get payload "nbf" = Ok nbf -> JsVal.truthy nbf = true ->
        js_gt nbf (LitAction.Date_now env / 1000) = true ->
        LitAction.verify_claims env header payload
        = Throw (Error "JWT not yet valid")).
Proof.
  split.
  - intros exp Hexp Ht Hlt. unfold LitAction.verify_claims, LitAction.elapsed.
    rewrite Hexp. cbn [bind]. now rewrite Ht, Hlt.
  - intros exp nbf Hexp Hel Hnbf Ht Hgt. unfold LitAction.verify_claims.
    rewrite Hexp. cbn [bind]. rewrite Hel, Hnbf. cbn [bind].
    unfold LitAction.still_future. now rewrite Ht, Hgt.
Qed.

(** The [exp] check is guarded by the truthiness of [exp]: an expiry of 0,
    the first second of 1970, is never found elapsed. *)
Lemma verify_claims_skips_zero_expiry (env : LitAction.Env) (header payload : jsval) :
  JsVal.get payload "exp" = Ok (JNum 0) ->
  JsVal.get payload "nbf" = Ok JUndefined ->
  exists issuer,
    LitAction.verify_claims env header payload
    = Ok {| LitAction.ed_valid := true; LitAction.ed_payload := payload;
            LitAction.ed_header := header; LitAction.ed_issuer := issuer |}.
Proof.
  intros Hexp Hnbf. unfold LitAction.verify_claims. rewrite Hexp. cbn.
  rewrite Hnbf. cbn. destruct payload; try discriminate; cbn; eauto.
Qed.

(** The Lit Action applies the same window to the credential it verifies:
    with a non-zero minimum issuance age and an issuance date that parses,
    the claims are accepted only if the credential is at most [age] seconds
    old, and an older credential makes the validation throw (the error of
    an earlier check, or "Credential is too old"). *)
Lemma validateCredentialClaims_issuance_window (env : LitAction.Env)
    (jwtPayload requirements vc issuanceDate : jsval) (userAddress : string)
    (age issuanceTime : Z) :
  JsVal.get jwtPayload "vc" = Ok vc ->
  LitAction.claims_field requirements "minIssuanceAge" = Ok (JNum age) ->
  age <> 0 ->
  JsVal.get vc "issuanceDate" = Ok issuanceDate ->
  date_getTime issuanceDate = Some issuanceTime ->
  (LitAction.validateCredentialClaims env jwtPayload requirements userAddress = Ok true ->
   LitAction.Date_now env - issuanceTime <= age * 1000)
  /\ (age * 1000 < LitAction.Date_now env - issuanceTime ->
      exists error,
        LitAction.validateCredentialClaims env jwtPayload requirements userAddress
        = Throw error).
Proof.
  intros Hvc Hage Hne Hdate Htime.
  assert (Htruthy : JsVal.truthy (JNum age) = true).
  { cbn. now apply negb_true_iff, Z.eqb_neq. }
  unfold LitAction.validateCredentialClaims, bind.
  rewrite Hvc.
  repeat match goal with
  | |- context [match ?x with Ok _ => _ | Throw _ => _ end] =>
      match x with
      | LitAction.claims_field requirements "minIssuanceAge" => rewrite Hage
      | JsVal.get vc "issuanceDate" => rewrite Hdate
      | _ => destruct x; [|(split; [discriminate | eauto])]
      end
  | |- context [if ?b then _ else _] =>
      match b with
      | JsVal.truthy (JNum age) => rewrite Htruthy
      | _ => destruct b; try (split; [discriminate | eauto]; fail)
      end
  | |- context [match ?x with Some _ => _ | None => _ end] =>
      match x with
      | date_getTime issuanceDate => rewrite Htime
      | _ => destruct x; [|(split; [discriminate | eauto])]
      end
  end.
  cbn [to_number option_map].
  destruct (issuanceTime <? LitAction.Date_now env - age * 1000) eqn:E.
  - split; [discriminate | eauto].
  - apply Z.ltb_ge in E. split; [intros _; lia | intro Hold; lia].
Qed.

End LitActionProperties.

(** ** Base64 and base64url *)

Lemma list_ind3 {A : Type} (P : list A -> Prop) :
  P [] -> (forall a, P [a]) -> (forall a b, P [a; b]) ->
  (forall a b c l, P l -> P (a :: b :: c :: l)) ->
  forall l, P l.
Proof.
  intros H0 H1 H2 H3 l.
  assert (H : P l /\ (forall a, P (a :: l)) /\ (forall a b, P (a :: b :: l))).
  { induction l as [|x l [IH0 [IH1 IH2]]]; [now auto|].
    repeat split; auto. }
  apply H.
Qed.

Lemma Z_of_byte_range (b : byte) : 0 <= Bytes.Z_of_byte b < 256.
Proof.
  unfold Bytes.Z_of_byte. pose proof (Byte.to_N_bounded b). lia.
Qed.

Lemma byte_of_Z_of_byte (k : Z) (b : byte) :
  Bytes.byte_of_Z (k * 256 + Bytes.Z_of_byte b) = b.
Proof.
  unfold Bytes.byte_of_Z.
  pose proof (Z_of_byte_range b) as Hr.
  replace ((k * 256 + Bytes.Z_of_byte b) mod 256) with (Bytes.Z_of_byte b).
  - unfold Bytes.Z_of_byte. rewrite N2Z.id, Byte.of_to_N. reflexivity.
  - rewrite Z.add_comm, Z.mod_add by lia. symmetry. apply Z.mod_small. lia.
Qed.

Lemma b64_encode_text (l : list byte) :
  Bytes.b64_encode l = b64_text (sextets_of l) ++ b64_padding l.
Proof.
  induction l as [| a | a b | a b c l IH] using list_ind3; try reflexivity.
  cbn [Bytes.b64_encode sextets_of b64_text b64_padding append]. now rewrite IH.
Qed.

Ltac byte_eq k b :=
  transitivity (Bytes.byte_of_Z (k * 256 + Bytes.Z_of_byte b));
  [ f_equal; Z.div_mod_to_equations; lia | apply byte_of_Z_of_byte ].

Lemma b64_decode_sextets (l : list byte) : Bytes.b64_decode (sextets_of l) = l.
Proof.
  induction l as [| a | a b | a b c l IH] using list_ind3.
  - reflexivity.
  - cbn [sextets_of Bytes.b64_decode].
    pose proof (Z_of_byte_range a).
    f_equal. byte_eq 0 a.
  - cbn [sextets_of Bytes.b64_decode].
    pose proof (Z_of_byte_range a). pose proof (Z_of_byte_range b).
    f_equal; [byte_eq 0 a | f_equal; byte_eq (Bytes.Z_of_byte a) b].
  - cbn [sextets_of Bytes.b64_decode]. rewrite IH.
    pose proof (Z_of_byte_range a). pose proof (Z_of_byte_range b).
    pose proof (Z_of_byte_range c).
    f_equal; [byte_eq 0 a | f_equal; [byte_eq (Bytes.Z_of_byte a) b | f_equal]].
    byte_eq (Bytes.Z_of_byte a * 256 + Bytes.Z_of_byte b) c.
Qed.

Lemma replace_char_map (a b : ascii) (s : string) :
  Bytes.replace_char a b s = map_chars (swap a b) s.
Proof. induction s as [|c s IH]; simpl; [reflexivity | now rewrite IH]. Qed.

Lemma map_chars_compose (f g : ascii -> ascii) (s : string) :
  map_chars f (map_chars g s) = map_chars (fun c => f (g c)) s.
Proof. induction s as [|c s IH]; simpl; [reflexivity | now rewrite IH]. Qed.

Lemma map_chars_append (f : ascii -> ascii) (s t : string) :
  map_chars f (s ++ t) = map_chars f s ++ map_chars f t.
Proof. induction s as [|c s IH]; simpl; [reflexivity | now rewrite IH]. Qed.

Lemma alphabet_char (c : ascii) :
  Bytes.b64_index c <> None ->
  Bytes.is_ascii_whitespace c = false
  /\ Bytes.is_eq_sign (to_url c) = false
  /\ Bytes.is_eq_sign c = false
  /\ of_url (to_url c) = c.
Proof.
  destruct c as [[] [] [] [] [] [] [] []]; vm_compute; intro Hc;
    try (exfalso; apply Hc; reflexivity); repeat split; reflexivity.
Qed.

Lemma b64_index_char (x : Z) :
  0 <= x < 64 -> Bytes.b64_index (Bytes.b64_char x) = Some x.
Proof.
  intro Hx.
  assert (Hall : forallb (fun n =>
                   match Bytes.b64_index (Bytes.b64_char (Z.of_nat n)) with
                   | Some j => j =? Z.of_nat n
                   | None => false
                   end) (seq 0 64) = true) by (vm_compute; reflexivity).
  rewrite forallb_forall in Hall.
  specialize (Hall (Z.to_nat x)).
  rewrite Z2Nat.id in Hall by lia.
  assert (Hin : In (Z.to_nat x) (seq 0 64)) by (apply in_seq; lia).
  specialize (Hall Hin).
  destruct (Bytes.b64_index (Bytes.b64_char x)) as [j|]; [|discriminate].
  apply Z.eqb_eq in Hall. now subst.
Qed.

Lemma sextets_of_range (l : list byte) :
  Forall (fun x => 0 <= x < 64) (sextets_of l).
Proof.
  induction l as [| a | a b | a b c l IH] using list_ind3; cbn [sextets_of].
  - constructor.
  - pose proof (Z_of_byte_range a).
    repeat constructor; Z.div_mod_to_equations; lia.
  - pose proof (Z_of_byte_range a). pose proof (Z_of_byte_range b).
    repeat constructor; Z.div_mod_to_equations; lia.
  - pose proof (Z_of_byte_range a). pose proof (Z_of_byte_range b).
    pose proof (Z_of_byte_range c).
    repeat (constructor; [Z.div_mod_to_equations; lia|]). exact IH.
Qed.

Lemma sextets_text (xs : list Z) :
  Forall (fun x => 0 <= x < 64) xs -> Bytes.sextets (b64_text xs) = Some xs.
Proof.
  induction 1 as [|x xs Hx _ IH]; simpl; [reflexivity|].
  now rewrite (b64_index_char x Hx), IH.
Qed.

Lemma text_in_alphabet (xs : list Z) :
  Forall (fun x => 0 <= x < 64) xs -> in_alphabet (b64_text xs).
Proof.
  unfold in_alphabet. induction 1 as [|x xs Hx _ IH]; simpl; [reflexivity|].
  now rewrite (b64_index_char x Hx), IH.
Qed.

Lemma in_alphabet_cons (c : ascii) (s : string) :
  in_alphabet (String c s) -> Bytes.b64_index c <> None /\ in_alphabet s.
Proof.
  unfold in_alphabet. simpl. intro Ha. apply andb_true_iff in Ha.
  destruct Ha as [Hc Hs]. split; [|assumption].
  destruct (Bytes.b64_index c); [discriminate | discriminate].
Qed.

Lemma url_round_trip (s : string) :
  in_alphabet s -> map_chars of_url (map_chars to_url s) = s.
Proof.
  induction s as [|c s IH]; intro Ha; [reflexivity|].
  apply in_alphabet_cons in Ha. destruct Ha as [Hc Hs]. simpl.
  rewrite (IH Hs). f_equal. now apply alphabet_char.
Qed.

Lemma remove_eq_url (s : string) :
  in_alphabet s -> Bytes.remove_chars Bytes.is_eq_sign (map_chars to_url s)
                   = map_chars to_url s.
Proof.
  induction s as [|c s IH]; intro Ha; [reflexivity|].
  apply in_alphabet_cons in Ha. destruct Ha as [Hc Hs]. simpl.
  destruct (alphabet_char c Hc) as [_ [Hu _]]. rewrite Hu. now rewrite (IH Hs).
Qed.

Lemma remove_chars_append (p : ascii -> bool) (s t : string) :
  Bytes.remove_chars p (s ++ t) = Bytes.remove_chars p s ++ Bytes.remove_chars p t.
Proof.
  induction s as [|c s IH]; simpl; [reflexivity|].
  destruct (p c); now rewrite IH.
Qed.

Lemma append_empty (s : string) : s ++ EmptyString = s.
Proof. induction s as [|c s IH]; simpl; [reflexivity | now rewrite IH]. Qed.

Lemma padding_removed (l : list byte) :
  Bytes.remove_chars Bytes.is_eq_sign (map_chars to_url (b64_padding l)) = EmptyString.
Proof.
  induction l as [| a | a b | a b c l IH] using list_ind3; try reflexivity.
  exact IH.
Qed.

(** The base64url text of a byte sequence is the text of its sextets in
    the URL alphabet. *)
Lemma base64urlEncode_bytes_text (l : list byte) :
  Jwt.base64urlEncode_bytes l = map_chars to_url (b64_text (sextets_of l)).
Proof.
  unfold Jwt.base64urlEncode_bytes, Bytes.btoa, Bytes.fromCharCodes, Bytes.charCodes.
  rewrite list_byte_of_string_of_list_byte, b64_encode_text.
  rewrite !replace_char_map, map_chars_compose. fold to_url.
  change (fun c => swap "/" "_" (swap "+" "-" c)) with to_url.
  rewrite map_chars_append, remove_chars_append, padding_removed, append_empty.
  apply remove_eq_url, text_in_alphabet, sextets_of_range.
Qed.

Lemma len_append (s t : string) : JsString.len (s ++ t) = JsString.len s + JsString.len t.
Proof.
  unfold JsString.len. induction s as [|c s IH]; simpl String.length.
  - simpl. lia.
  - rewrite !Nat2Z.inj_succ. simpl append in *. lia.
Qed.

Lemma len_b64_text (xs : list Z) : JsString.len (b64_text xs) = Z.of_nat (List.length xs).
Proof.
  unfold JsString.len. f_equal. induction xs as [|x xs IH]; simpl; [reflexivity | now rewrite IH].
Qed.

Lemma sextets_of_length (l : list byte) :
  exists q r, Z.of_nat (List.length (sextets_of l)) = 4 * q + r
              /\ 0 <= q /\ (r = 0 \/ r = 2 \/ r = 3).
Proof.
  induction l as [| a | a b | a b c l IH] using list_ind3.
  - exists 0, 0. simpl. lia.
  - exists 0, 2. simpl. lia.
  - exists 0, 3. simpl. lia.
  - destruct IH as [q [r [E [Hq Hr]]]]. exists (q + 1), r.
    cbn [sextets_of List.length]. rewrite !Nat2Z.inj_succ. lia.
Qed.

Lemma remove_whitespace_alphabet (s : string) :
  in_alphabet s -> Bytes.remove_chars Bytes.is_ascii_whitespace s = s.
Proof.
  induction s as [|c s IH]; intro Ha; [reflexivity|].
  apply in_alphabet_cons in Ha. destruct Ha as [Hc Hs]. simpl.
  destruct (alphabet_char c Hc) as [Hw _]. rewrite Hw. now rewrite (IH Hs).
Qed.

Lemma remove_whitespace_eq_signs (n : nat) :
  Bytes.remove_chars Bytes.is_ascii_whitespace (Bytes.repeat_char "=" n)
  = Bytes.repeat_char "=" n.
Proof. induction n as [|n IH]; simpl; [reflexivity | now rewrite IH]. Qed.

Lemma drop_last_eq_alphabet (s : string) :
  in_alphabet s -> Bytes.drop_last_eq s = s.
Proof.
  induction s as [|c s IH]; intro Ha; [reflexivity|].
  apply in_alphabet_cons in Ha. destruct Ha as [Hc Hs].
  destruct (alphabet_char c Hc) as [_ [_ [He _]]].
  simpl. destruct s as [|c' s'].
  - now rewrite He.
  - now rewrite (IH Hs).
Qed.

Lemma drop_last_eq_sign (s : string) : Bytes.drop_last_eq (s ++ "=") = s.
Proof.
  induction s as [|c s IH]; [reflexivity|].
  cbn [append Bytes.drop_last_eq]. destruct s as [|c' s']; [reflexivity|].
  cbn [append] in *. now rewrite IH.
Qed.

Lemma append_assoc (s t u : string) : (s ++ t) ++ u = s ++ (t ++ u).
Proof. induction s as [|c s IH]; simpl; [reflexivity | now rewrite IH]. Qed.

Lemma atob_padded (l : list byte) :
  let text := b64_text (sextets_of l) in
  Bytes.atob (Bytes.padEnd text
                (JsString.len text + (4 - JsString.len text mod 4) mod 4) "=")
  = Ok (Bytes.fromCharCodes l).
Proof.
  intro text.
  assert (Ha : in_alphabet text) by apply text_in_alphabet, sextets_of_range.
  destruct (sextets_of_length l) as [q [r [Elen [Hq Hr]]]].
  assert (Hlen : JsString.len text = 4 * q + r)
    by (unfold text; now rewrite len_b64_text).
  unfold Bytes.padEnd.
  replace (JsString.len text + (4 - JsString.len text mod 4) mod 4 - JsString.len text)
    with ((4 - JsString.len text mod 4) mod 4) by lia.
  assert (Hmod : JsString.len text mod 4 = r).
  { rewrite Hlen, Z.add_comm, Z.mul_comm, Z.mod_add by lia.
    apply Z.mod_small. lia. }
  rewrite Hmod.
  assert (Hcore : forall k : nat,
            (Z.of_nat k = (4 - r) mod 4) ->
            Bytes.atob (text ++ Bytes.repeat_char "=" k) = Ok (Bytes.fromCharCodes l)).
  { intros k Hk. unfold Bytes.atob.
    rewrite remove_chars_append, (remove_whitespace_alphabet _ Ha),
      remove_whitespace_eq_signs.
    assert (Hzero : JsString.len (text ++ Bytes.repeat_char "=" k) mod 4 = 0).
    { rewrite len_append, Hlen.
      replace (JsString.len (Bytes.repeat_char "=" k)) with (Z.of_nat k).
      - rewrite Hk. destruct Hr as [-> | [-> | ->]]; Z.div_mod_to_equations; lia.
      - unfold JsString.len. f_equal. clear. induction k; simpl; congruence. }
    rewrite Hzero. cbn [Z.eqb].
    assert (Hdrop : Bytes.drop_last_eq
                      (Bytes.drop_last_eq (text ++ Bytes.repeat_char "=" k)) = text).
    { assert (Hk' : (k = 0 \/ k = 1 \/ k = 2)%nat).
      { destruct Hr as [-> | [-> | ->]]; cbn in Hk; lia. }
      destruct Hk' as [-> | [-> | ->]]; cbn [Bytes.repeat_char].
      - rewrite append_empty. now rewrite !(drop_last_eq_alphabet text Ha).
      - now rewrite drop_last_eq_sign, (drop_last_eq_alphabet text Ha).
      - change "==" with ("=" ++ "="). rewrite <- append_assoc.
        now rewrite !drop_last_eq_sign. }
    rewrite Hdrop, Hmod.
    assert (Hne : (r =? 1) = false) by (destruct Hr as [-> | [-> | ->]]; reflexivity).
    rewrite Hne. unfold text.
    rewrite (sextets_text _ (sextets_of_range l)), b64_decode_sextets. reflexivity. }
  apply Hcore. rewrite Z2Nat.id; [reflexivity|].
  destruct Hr as [-> | [-> | ->]]; Z.div_mod_to_equations; lia.
Qed.

Lemma replace_of_url (s : string) :
  Bytes.replace_char "_" "/" (Bytes.replace_char "-" "+" s) = map_chars of_url s.
Proof. now rewrite !replace_char_map, map_chars_compose. Qed.

(** Decoding what the encoder wrote gives the bytes back. *)
Lemma base64url_round_trip (l : list byte) :
  Jwt.base64urlDecode (Jwt.base64urlEncode_bytes l) = Ok l.
Proof.
  rewrite base64urlEncode_bytes_text. unfold Jwt.base64urlDecode.
  rewrite replace_of_url.
  rewrite url_round_trip by apply text_in_alphabet, sextets_of_range.
  rewrite atob_padded. cbn [bind]. unfold Bytes.charCodes, Bytes.fromCharCodes.
  now rewrite list_byte_of_string_of_list_byte.
Qed.

(** ** Splitting *)

Lemma free_of_cons (sep c : ascii) (s : string) :
  free_of sep (String c s) -> Ascii.eqb c sep = false /\ free_of sep s.
Proof.
  unfold free_of. simpl. intro Hf. apply andb_true_iff in Hf.
  destruct Hf as [Hc Hs]. split; [now apply negb_true_iff | assumption].
Qed.

Lemma split_free (sep : ascii) (s : string) :
  free_of sep s -> JsString.split sep s = [s].
Proof.
  induction s as [|c s IH]; intro Hf; [reflexivity|].
  apply free_of_cons in Hf. destruct Hf as [Hc Hs].
  simpl. rewrite Hc, (IH Hs). reflexivity.
Qed.

Lemma split_append (sep : ascii) (s rest : string) :
  free_of sep s ->
  JsString.split sep (s ++ String sep rest) = s :: JsString.split sep rest.
Proof.
  induction s as [|c s IH]; intro Hf.
  - simpl. now rewrite Ascii.eqb_refl.
  - apply free_of_cons in Hf. destruct Hf as [Hc Hs].
    cbn [append JsString.split]. rewrite Hc, (IH Hs). reflexivity.
Qed.

Lemma pop_cons (x : string) (l : list string) (y : string) :
  JsString.pop l = Some y -> JsString.pop (x :: l) = Some y.
Proof. destruct l; [discriminate | trivial]. Qed.

Lemma pop_split_append (sep : ascii) (pre last : string) :
  free_of sep last ->
  JsString.pop (JsString.split sep (pre ++ String sep last)) = Some last.
Proof.
  intro Hf.
  assert (H : exists h t, JsString.split sep (pre ++ String sep last) = h :: t
                          /\ JsString.pop t = Some last).
  { induction pre as [|c pre [h [t [E Hp]]]].
    - exists EmptyString, [last]. simpl. rewrite Ascii.eqb_refl, (split_free _ _ Hf).
      now split.
    - cbn [append JsString.split]. rewrite E. destruct (Ascii.eqb c sep).
      + exists EmptyString, (h :: t). split; [reflexivity | now apply pop_cons].
      + exists (String c h), t. now split. }
  destruct H as [h [t [E Hp]]]. rewrite E. now apply pop_cons.
Qed.

(** ** Objects *)

Lemma lookup_obj_set_same (k : string) (v : jsval) (props : list (string * jsval)) :
  JsVal.lookup k (Jwt.obj_set k v props) = v.
Proof.
  induction props as [|[k' v'] props IH]; simpl.
  - now rewrite String.eqb_refl.
  - destruct (String.eqb k k') eqn:E; simpl; rewrite ?String.eqb_refl, ?E; auto.
Qed.

Lemma lookup_obj_set_other (k k' : string) (v : jsval) (props : list (string * jsval)) :
  k <> k' -> JsVal.lookup k (Jwt.obj_set k' v props) = JsVal.lookup k props.
Proof.
  intro Hne. apply String.eqb_neq in Hne.
  induction props as [|[k0 v0] props IH]; simpl.
  - now rewrite Hne.
  - destruct (String.eqb k' k0) eqn:E; simpl.
    + apply String.eqb_eq in E. subst. now rewrite Hne.
    + now rewrite IH.
Qed.

(** ** The packed signature *)

Ltac explode l H :=
  repeat (destruct l as [|? l]; simpl in H; try discriminate H).

Lemma packed_signature (rBytes sBytes : list byte) :
  List.length rBytes = 32%nat -> List.length sBytes = 32%nat ->
  (let* raw := Bytes.set (Bytes.new_Uint8Array 64) rBytes 0 in
   Bytes.set raw sBytes 32) = Ok (rBytes ++ sBytes)%list.
Proof.
  intros Hr Hs. explode rBytes Hr. explode sBytes Hs. reflexivity.
Qed.

Lemma slice_packed (rBytes sBytes : list byte) :
  List.length rBytes = 32%nat -> List.length sBytes = 32%nat ->
  Bytes.slice (rBytes ++ sBytes) 0 32 = rBytes
  /\ Bytes.slice (rBytes ++ sBytes) 32 64 = sBytes.
Proof.
  intros Hr Hs. explode rBytes Hr. explode sBytes Hs. split; reflexivity.
Qed.

Lemma url_char_no_dot (c : ascii) :
  Bytes.b64_index c <> None -> Ascii.eqb (to_url c) "." = false.
Proof.
  destruct c as [[] [] [] [] [] [] [] []]; vm_compute; intro Hc;
    try (exfalso; apply Hc; reflexivity); reflexivity.
Qed.

Lemma encoded_free_of_dot (l : list byte) :
  free_of "." (Jwt.base64urlEncode_bytes l).
Proof.
  rewrite base64urlEncode_bytes_text.
  pose proof (text_in_alphabet _ (sextets_of_range l)) as Ha.
  induction (b64_text (sextets_of l)) as [|c s IH]; [reflexivity|].
  apply in_alphabet_cons in Ha. destruct Ha as [Hc Hs].
  unfold free_of in *. simpl. now rewrite (url_char_no_dot c Hc), (IH Hs).
Qed.

Lemma encoded_nonempty (l : list byte) :
  l <> [] -> exists c s, Jwt.base64urlEncode_bytes l = String c s.
Proof.
  intro Hne. rewrite base64urlEncode_bytes_text.
  destruct l as [|a [|b [|c l]]]; [congruence | | |]; cbn; eauto.
Qed.

Lemma hex40_shape (a : string) :
  Did.is_0x_hex40 a = true ->
  (exists c s, a = String c s) /\ free_of ":" a.
Proof.
  unfold Did.is_0x_hex40. intro Hh.
  apply andb_true_iff in Hh. destruct Hh as [Hh Hhex].
  apply andb_true_iff in Hh. destruct Hh as [Hpre _].
  apply startsWith_spec in Hpre. destruct Hpre as [rest ->].
  split; [now exists "0"%char, (String "x" rest)|].
  cbn [append JsString.drop] in Hhex. unfold free_of. cbn.
  induction rest as [|c rest IH]; [reflexivity|].
  cbn in Hhex. apply andb_true_iff in Hhex. destruct Hhex as [Hc Ha].
  cbn. rewrite (IH Ha), andb_true_r.
  destruct c as [[] [] [] [] [] [] [] []]; try reflexivity; discriminate.
Qed.

Lemma token_segments (a b c : string) :
  (a ++ "." ++ b) ++ "." ++ c = a ++ String "." (b ++ String "." c).
Proof. rewrite append_assoc. reflexivity. Qed.

Section SignVerify.

Context `{Platform} `{Ethers}.

Lemma decode_encoded (v : jsval) :
  json_round_trips v ->
  Jwt.decode_segment (Jwt.base64urlEncode (JSON_stringify v)) = Ok v.
Proof.
  intros [_ Hrt]. unfold Jwt.decode_segment, Jwt.base64urlEncode.
  now rewrite base64url_round_trip.
Qed.

Lemma segment_encoded (v : jsval) (rest : list string) (i : nat) :
  json_round_trips v ->
  Jwt.segment (Jwt.base64urlEncode (JSON_stringify v) :: rest) 0
  = Some (Jwt.base64urlEncode (JSON_stringify v)).
Proof.
  intros [Hne _]. unfold Jwt.segment, Jwt.base64urlEncode. cbn [nth_error].
  destruct (encoded_nonempty _ Hne) as [c [s E]]. now rewrite E.
Qed.

Lemma try_recover_finds (w : Wallet) (digest : string) (rBytes sBytes : list byte)
    (recovered : string) (parity : Z) :
  (parity = 0 \/ parity = 1) ->
  recoverAddress digest
    {| sig_r := "0x" ++ Bytes.hex_of_bytes rBytes;
       sig_s := "0x" ++ Bytes.hex_of_bytes sBytes;
       sig_v := parity + 27 |} = Ok recovered ->
  JsString.toLowerCase recovered = JsString.toLowerCase (address w) ->
  exists found,
    Jwt.try_recover digest ("0x" ++ Bytes.hex_of_bytes rBytes)
      ("0x" ++ Bytes.hex_of_bytes sBytes) (address w) [0; 1] = Some found.
Proof.
  intros Hpar Hrec Hlow.
  assert (Hmatch : String.eqb (JsString.toLowerCase recovered)
                              (JsString.toLowerCase (address w)) = true)
    by now apply String.eqb_eq.
  destruct Hpar as [-> | ->]; cbn [Jwt.try_recover].
  - rewrite Hrec, Hmatch. eauto.
  - destruct (recoverAddress digest
                {| sig_r := "0x" ++ Bytes.hex_of_bytes rBytes;
                   sig_s := "0x" ++ Bytes.hex_of_bytes sBytes;
                   sig_v := 0 + 27 |}) as [first|].
    + destruct (String.eqb (JsString.toLowerCase first) _); [eauto|].
      rewrite Hrec, Hmatch. eauto.
    + rewrite Hrec, Hmatch. eauto.
Qed.

(** C1.  Given the contracts of the platform's JSON and of ethers' signing
    key (the header and the completed payload survive [JSON.stringify] and
    [JSON.parse]; the wallet's address is a checksummed address; the
    wallet's signature over the digest of the signing input recovers to the
    wallet's address): for every wallet [w], every payload field-set [p] and
    every life time, [signES256KJWT] returns a token, and [verifyES256KJWT]
    run on that token at any time up to its expiry second returns
    [valid: true] with the header and payload that were signed; the
    payload's [iss] is [did:pkh:eip155:1:<address of w>]. *)
Theorem sign_then_verify (Date_now Date_later : Z) (random : list byte)
    (w : Wallet) (p : list (string * jsval)) (expirationMinutes : Z) :
  let header := Jwt.jwt_header (user_did w) in
  let payload :=
    Jwt.completePayload p (user_did w) (Date_now / 1000) expirationMinutes
      (Jwt.generateNonce random) in
  wallet_address_ok w ->
  json_round_trips header ->
  json_round_trips payload ->
  signature_recovers w (keccak256 (toUtf8Bytes (signing_input header payload))) ->
  Date_later / 1000 <= Date_now / 1000 + expirationMinutes * 60 ->
  exists token,
    Jwt.signES256KJWT Date_now random w p expirationMinutes = Ok token
    /\ Jwt.verifyES256KJWT Date_later token
       = Ok {| Jwt.header := header; Jwt.payload := payload; Jwt.valid := true |}
    /\ JsVal.get payload "iss" = Ok (JStr (user_did w)).
Proof.
  intros header payload [Hisaddr [Hget Hhex]] Hh Hp Hsig Hlater.
  destruct Hsig as [rBytes [sBytes [recovered [parity
    [Hr [Hrl [Hs [Hsl [Hpar [Hrec Hlow]]]]]]]]]].
  destruct (hex40_shape _ Hhex) as [[c0 [a0 Eaddr]] Hfree].
  set (eh := Jwt.base64urlEncode (JSON_stringify header)) in *.
  set (ep := Jwt.base64urlEncode (JSON_stringify payload)) in *.
  set (es := Jwt.base64urlEncode_bytes (rBytes ++ sBytes)).
  exists (signing_input header payload ++ "." ++ es).
  assert (Hiss : JsVal.get payload "iss" = Ok (JStr (user_did w))).
  { unfold payload, Jwt.completePayload. cbn [JsVal.get]. f_equal.
    rewrite !lookup_obj_set_other by discriminate.
    apply lookup_obj_set_same. }
  assert (Hsub : JsVal.get payload "sub" = Ok (JStr (user_did w))).
  { unfold payload, Jwt.completePayload. cbn [JsVal.get]. f_equal.
    rewrite !lookup_obj_set_other by discriminate.
    apply lookup_obj_set_same. }
  assert (Hexp : JsVal.get payload "exp"
                 = Ok (JNum (Date_now / 1000 + expirationMinutes * 60))).
  { unfold payload, Jwt.completePayload. cbn [JsVal.get]. f_equal.
    rewrite !lookup_obj_set_other by discriminate.
    apply lookup_obj_set_same. }
  split; [|split; [|exact Hiss]].
  - unfold Jwt.signES256KJWT, Did.createDIDPKH. rewrite Hisaddr, Hget.
    cbn [negb bind].
    change ("did:pkh:eip155:" ++ JsVal.num_to_string 1 ++ ":" ++ address w)
      with (user_did w).
    fold header. fold payload. fold eh. fold ep.
    change (eh ++ "." ++ ep) with (signing_input header payload).
    rewrite Hr, Hs. cbn [bind].
    pose proof (packed_signature rBytes sBytes Hrl Hsl) as Hpack.
    cbn [bind] in Hpack.
    destruct (Bytes.set (Bytes.new_Uint8Array 64) rBytes 0) as [raw|e];
      [cbn [bind] in *|discriminate].
    rewrite Hpack. reflexivity.
  - unfold Jwt.verifyES256KJWT, signing_input. fold eh. fold ep.
    rewrite token_segments.
    rewrite (split_append "." eh) by apply encoded_free_of_dot.
    rewrite (split_append "." ep) by apply encoded_free_of_dot.
    rewrite (split_free "." es) by apply encoded_free_of_dot.
    unfold eh at 1. rewrite (segment_encoded header _ 0%nat Hh). fold eh.
    change (Jwt.segment (eh :: ep :: [es]) 1) with (Jwt.segment (ep :: [es]) 0).
    unfold ep at 1 2. rewrite (segment_encoded payload _ 0%nat Hp). fold ep.
    change (Jwt.segment (eh :: ep :: [es]) 2) with (Jwt.segment [es] 0).
    assert (Hes : Jwt.segment [es] 0 = Some es).
    { unfold Jwt.segment. cbn [nth_error].
      destruct (encoded_nonempty (rBytes ++ sBytes)) as [c [s E]].
      - destruct rBytes; [discriminate | discriminate].
      - fold es in E. now rewrite E. }
    rewrite Hes.
    unfold eh at 1. rewrite (decode_encoded header Hh).
    unfold ep at 1. rewrite (decode_encoded payload Hp).
    cbn [bind]. unfold header at 1. cbn [JsVal.get Jwt.jwt_header JsVal.lookup String.eqb Ascii.eqb Bool.eqb andb].
    cbn [bind JsVal.strict_eq String.eqb Ascii.eqb Bool.eqb andb negb].
    rewrite Hiss. cbn [bind Jwt.call_startsWith].
    change (JsString.startsWith "did:pkh:eip155:" (user_did w)) with true.
    rewrite Hsub. cbn [bind JsVal.strict_eq negb orb].
    rewrite String.eqb_refl. cbn [negb].
    unfold Jwt.last_segment.
    change (user_did w) with ("did:pkh:eip155:1" ++ String ":" (address w)) at 1.
    rewrite (pop_split_append ":" _ _ Hfree).
    rewrite Eaddr at 1. rewrite <- Eaddr.
    rewrite Hisaddr. cbn [negb]. rewrite Hexp. cbn [bind].
    unfold js_lt, to_number.
    rewrite (proj2 (Z.ltb_ge _ _) Hlater).
    unfold es. rewrite base64url_round_trip. cbn [bind].
    rewrite length_app, Hrl, Hsl. cbn [Nat.add Nat.eqb negb].
    destruct (slice_packed rBytes sBytes Hrl Hsl) as [E1 E2]. rewrite E1, E2.
    destruct (try_recover_finds w _ rBytes sBytes recovered parity Hpar Hrec Hlow)
      as [found Hfound].
    change (eh ++ "." ++ ep) with (signing_input header payload).
    rewrite Hfound. reflexivity.
Qed.

End SignVerify.

(** ** The DID:PKH codec *)

Lemma uint_digits (d : Decimal.uint) :
  JsString.all_chars Did.is_digit (NilEmpty.string_of_uint d) = true.
Proof. induction d; simpl; auto. Qed.

Lemma span_digits_append (d rest : string) :
  JsString.all_chars Did.is_digit d = true ->
  Did.span_digits (d ++ String ":" rest) = (d, String ":" rest).
Proof.
  induction d as [|c d IH]; intro Hd; [reflexivity|].
  simpl in Hd. apply andb_true_iff in Hd. destruct Hd as [Hc Hd].
  cbn [append Did.span_digits]. now rewrite Hc, (IH Hd).
Qed.

(** A chain id that is not negative is written with digits only, and
    [parseInt] reads it back. *)
Lemma chain_id_text (c : Z) :
  0 <= c ->
  exists first more,
    JsVal.num_to_string c = String first more
    /\ JsString.all_chars Did.is_digit (JsVal.num_to_string c) = true
    /\ Did.parseInt10 (JsVal.num_to_string c) = Some c.
Proof.
  intro Hc. unfold JsVal.num_to_string, Did.parseInt10.
  pose proof (DecimalZ.of_to c) as Hof.
  destruct c as [|p|p]; [| |lia].
  - exists "0"%char, EmptyString. repeat split; reflexivity.
  - cbn [Z.to_int NilZero.string_of_int Z.of_int] in *.
    assert (Hnn : Pos.to_uint p <> Decimal.Nil).
    { intro E. rewrite E in Hof. discriminate. }
    pose proof (NilZero.usu _ Hnn) as Husu.
    assert (Hdigits : JsString.all_chars Did.is_digit
                        (NilZero.string_of_uint (Pos.to_uint p)) = true).
    { unfold NilZero.string_of_uint.
      destruct (Pos.to_uint p) eqn:Eu; [congruence| ..]; rewrite <- Eu;
        apply uint_digits. }
    destruct (NilZero.string_of_uint (Pos.to_uint p)) as [|first more].
    + discriminate.
    + exists first, more. repeat split; [assumption|].
      rewrite Husu. cbn [option_map]. now rewrite Hof.
Qed.

Section DidCodec.

Context `{Ethers}.

Lemma match_didPattern_created (c : Z) (checksummed : string) :
  0 <= c -> Did.is_0x_hex40 checksummed = true ->
  Did.match_didPattern
    ("did:pkh:eip155:" ++ JsVal.num_to_string c ++ ":" ++ checksummed)
  = Some (JsVal.num_to_string c, checksummed).
Proof.
  intros Hc Hhex. destruct (chain_id_text c Hc) as [first [more [E [Hd _]]]].
  unfold Did.match_didPattern.
  change (JsString.startsWith "did:pkh:eip155:"
            ("did:pkh:eip155:" ++ JsVal.num_to_string c ++ ":" ++ checksummed))
    with true.
  change (JsString.drop 15
            ("did:pkh:eip155:" ++ JsVal.num_to_string c ++ ":" ++ checksummed))
    with (JsVal.num_to_string c ++ String ":" checksummed).
  rewrite (span_digits_append _ _ Hd). rewrite E at 1. now rewrite Hhex.
Qed.

(** C9.  Given ethers' address laws: for every valid address [a], in any
    casing ethers accepts, and every chain id [c], an integer from 0 up to
    [Number.MAX_SAFE_INTEGER], creating the DID and parsing it back
    succeeds; the parsed address is the checksummed form of [a] and the
    parsed chain id is [c]. *)
Theorem did_round_trip (a : string) (c : Z) :
  address_laws -> isAddress a = true -> chain_id_in_range c ->
  exists checksummed did,
    getAddress a = Ok checksummed
    /\ Did.createDIDPKH a c = Ok did
    /\ Did.parseDIDPKH did
       = Ok {| Did.did := did; Did.address := checksummed; Did.chainId := Some c |}.
Proof.
  intros Hlaws Ha [Hc _].
  destruct (Hlaws a Ha) as [checksummed [Hget [Hhex [Hvalid Hfix]]]].
  exists checksummed,
    ("did:pkh:eip155:" ++ JsVal.num_to_string c ++ ":" ++ checksummed).
  split; [exact Hget | split].
  - unfold Did.createDIDPKH. now rewrite Ha, Hget.
  - unfold Did.parseDIDPKH.
    rewrite (match_didPattern_created c checksummed Hc Hhex).
    rewrite Hvalid, Hfix. cbn [negb bind].
    destruct (chain_id_text c Hc) as [_ [_ [_ [_ Hparse]]]]. now rewrite Hparse.
Qed.

End DidCodec.

(** ** The reference ethers obeys the address laws *)

Lemma hex_char_lower (c : ascii) :
  Did.is_hex c = true -> lower_hex_digit (JsString.lower_char c) = true.
Proof.
  destruct c as [[] [] [] [] [] [] [] []]; vm_compute; intro Hc;
    try discriminate; reflexivity.
Qed.

Lemma lower_hex_digit_facts (c : ascii) :
  lower_hex_digit c = true ->
  JsString.lower_char (Reference.upper_hex c) = c
  /\ JsString.lower_char c = c
  /\ Did.is_hex (Reference.upper_hex c) = true
  /\ Did.is_hex c = true.
Proof.
  destruct c as [[] [] [] [] [] [] [] []]; vm_compute; intro Hc;
    try discriminate; repeat split; reflexivity.
Qed.

Lemma toLowerCase_hex (h : string) :
  JsString.all_chars Did.is_hex h = true ->
  JsString.all_chars lower_hex_digit (JsString.toLowerCase h) = true.
Proof.
  induction h as [|c h IH]; intro Hh; [reflexivity|].
  simpl in Hh. apply andb_true_iff in Hh. destruct Hh as [Hc Hh].
  simpl. now rewrite (hex_char_lower c Hc), (IH Hh).
Qed.

Lemma toLowerCase_length (s : string) :
  String.length (JsString.toLowerCase s) = String.length s.
Proof. induction s as [|c s IH]; simpl; [reflexivity | now rewrite IH]. Qed.

Lemma apply_checksum_facts (chars : string) :
  JsString.all_chars lower_hex_digit chars = true ->
  forall hashed,
    String.length (Reference.apply_checksum chars hashed) = String.length chars
    /\ JsString.all_chars Did.is_hex (Reference.apply_checksum chars hashed) = true
    /\ JsString.toLowerCase (Reference.apply_checksum chars hashed) = chars.
Proof.
  induction chars as [|c chars IH]; intros Hl hashed.
  - destruct hashed; repeat split; reflexivity.
  - simpl in Hl. apply andb_true_iff in Hl. destruct Hl as [Hc Hl].
    destruct (lower_hex_digit_facts c Hc) as [Hup [Hlow [Hhu Hh]]].
    destruct hashed as [|h hashed].
    + cbn [Reference.apply_checksum]. repeat split.
      * simpl. rewrite Hh. simpl.
        clear -Hl. induction chars as [|d chars IH]; [reflexivity|].
        simpl in Hl. apply andb_true_iff in Hl. destruct Hl as [Hd Hl].
        simpl. now rewrite (proj2 (proj2 (proj2 (lower_hex_digit_facts d Hd)))), (IH Hl).
      * simpl. rewrite Hlow. f_equal.
        clear -Hl. induction chars as [|d chars IH]; [reflexivity|].
        simpl in Hl. apply andb_true_iff in Hl. destruct Hl as [Hd Hl].
        simpl. now rewrite (proj1 (proj2 (lower_hex_digit_facts d Hd))), (IH Hl).
    + destruct (IH Hl hashed) as [IHlen [IHhex IHlow]].
      cbn [Reference.apply_checksum]. repeat split.
      * simpl. now rewrite IHlen.
      * simpl. rewrite IHhex, andb_true_r. now destruct (8 <=? h).
      * simpl. rewrite IHlow. f_equal. now destruct (8 <=? h).
Qed.

Lemma hex40_parts (a : string) :
  Did.is_0x_hex40 a = true ->
  exists h, a = "0x" ++ h /\ String.length h = 40%nat
            /\ JsString.all_chars Did.is_hex h = true.
Proof.
  unfold Did.is_0x_hex40. intro Hh.
  apply andb_true_iff in Hh. destruct Hh as [Hh Hhex].
  apply andb_true_iff in Hh. destruct Hh as [Hpre Hlen].
  apply startsWith_spec in Hpre. destruct Hpre as [h ->]. exists h.
  apply Nat.eqb_eq in Hlen. cbn in Hlen. cbn [append JsString.drop] in Hhex.
  repeat split; [lia | assumption].
Qed.

Lemma checksum_shape (a : string) :
  Did.is_0x_hex40 a = true ->
  Did.is_0x_hex40 (Reference.getChecksumAddress a) = true
  /\ Reference.getChecksumAddress (Reference.getChecksumAddress a)
     = Reference.getChecksumAddress a.
Proof.
  intro Ha. destruct (hex40_parts a Ha) as [h [-> [Hlen Hhex]]].
  unfold Reference.getChecksumAddress.
  change (JsString.drop 2 (JsString.toLowerCase ("0x" ++ h)))
    with (JsString.toLowerCase h).
  set (chars := JsString.toLowerCase h).
  assert (Hl : JsString.all_chars lower_hex_digit chars = true)
    by now apply toLowerCase_hex.
  set (hashed := Reference.nibbles (Reference.keccak256_bytes (Bytes.charCodes chars))).
  destruct (apply_checksum_facts chars Hl hashed) as [Elen [Ehex Elow]].
  split.
  - unfold Did.is_0x_hex40.
    change (JsString.startsWith "0x" ("0x" ++ Reference.apply_checksum chars hashed))
      with true.
    change (JsString.drop 2 ("0x" ++ Reference.apply_checksum chars hashed))
      with (Reference.apply_checksum chars hashed).
    rewrite Ehex. cbn [append String.length]. rewrite Elen.
    unfold chars. rewrite toLowerCase_length, Hlen. reflexivity.
  - change (JsString.drop 2
              (JsString.toLowerCase ("0x" ++ Reference.apply_checksum chars hashed)))
      with (JsString.toLowerCase (Reference.apply_checksum chars hashed)).
    rewrite Elow. reflexivity.
Qed.

(** ** Reading a run *)

(** One step of a case analysis of a run: the next value the run depends
    on is taken apart. *)
Ltac run_step :=
  match goal with
  | |- context [match ?x with Ok _ => _ | Throw _ => _ end] =>
      lazymatch x with
      | Ok _ => fail
      | Throw _ => fail
      | _ => destruct x eqn:?
      end
  | |- context [match ?x with Some _ => _ | None => _ end] =>
      lazymatch x with
      | Some _ => fail
      | None => fail
      | _ => destruct x eqn:?
      end
  | |- context [if ?b then _ else _] =>
      lazymatch b with
      | true => fail
      | false => fail
      | _ => destruct b eqn:?
      end
  end.

Lemma in_mbind {A B : Type} (m : M A) (k : A -> M B) (e : Event) :
  In e (trace (mbind m k)) ->
  In e (trace m) \/ exists a, outcome m = Ok a /\ In e (trace (k a)).
Proof.
  unfold mbind, trace, outcome. destruct m as [[a|err] t1]; cbn.
  - destruct (k a) as [r t2] eqn:Ek. cbn. intro Hin. apply in_app_or in Hin.
    destruct Hin as [Hin | Hin]; [now left | right].
    exists a. rewrite Ek. now split.
  - now left.
Qed.

Lemma in_try_catch {A : Type} (m : M A) (handler : JsError -> M A) (e : Event) :
  In e (trace (try_catch m handler)) ->
  In e (trace m) \/ exists err, outcome m = Throw err /\ In e (trace (handler err)).
Proof.
  unfold try_catch, trace, outcome. destruct m as [[a|err] t1]; cbn.
  - now left.
  - destruct (handler err) as [r t2] eqn:Eh. cbn. intro Hin. apply in_app_or in Hin.
    destruct Hin as [Hin | Hin]; [now left | right].
    exists err. rewrite Eh. now split.
Qed.

Lemma outcome_lift {A : Type} (r : result A) (a : A) :
  outcome (lift r) = Ok a -> r = Ok a.
Proof. exact (fun E => E). Qed.

(** The event [H] speaks of is found: each step of the run that comes
    before it has succeeded. *)
Ltac run_inv H :=
  repeat first
    [ match type of H with
      | In _ (trace (mbind (emit _) _)) =>
          apply in_mbind in H;
          destruct H as [H | [? [_ H]]];
          [cbn in H; destruct H as [H | []]; try discriminate H | cbv beta in H]
      | In _ (trace (mbind (lift _) _)) =>
          apply in_mbind in H;
          destruct H as [[] | [? [?Estep H]]];
          apply outcome_lift in Estep; cbv beta in H
      | In _ (trace (mbind _ _)) =>
          apply in_mbind in H;
          destruct H as [H | [? [?Estep H]]]; [|cbv beta in H]
      | In _ (trace (if ?b then throw _ else _)) =>
          destruct b eqn:?Echeck; [destruct H|]
      | In _ (trace (emit _)) =>
          cbn in H; destruct H as [H | []]; try discriminate H
      | In _ (trace (throw _)) => destruct H
      end ].

Lemma outcome_mbind_ok {A B : Type} (m : M A) (k : A -> M B) (b : B) :
  outcome (mbind m k) = Ok b ->
  exists a, outcome m = Ok a /\ outcome (k a) = Ok b.
Proof.
  unfold mbind, outcome. destruct m as [[a|err] t1]; cbn; [|discriminate].
  destruct (k a) as [r t2] eqn:Ek. cbn. intros ->. exists a. now rewrite Ek.
Qed.

(** The run [H] speaks of has returned: each of its steps has. *)
Ltac ok_inv H :=
  repeat first
    [ match type of H with
      | outcome (mbind (emit _) _) = Ok _ =>
          apply outcome_mbind_ok in H; destruct H as [? [_ H]]; cbv beta in H
      | outcome (mbind _ _) = Ok _ =>
          apply outcome_mbind_ok in H; destruct H as [? [?Estep H]]; cbv beta in H
      | outcome (if ?b then throw _ else _) = Ok _ =>
          destruct b eqn:?Echeck; [discriminate H|]
      | outcome (throw _) = Ok _ => discriminate H
      end ].

(** The same for a function that returns a [result]. *)
Ltac res_inv H :=
  repeat first
    [ match type of H with
      | bind ?r _ = Ok _ =>
          destruct r eqn:?Estep; [cbn [bind] in H | discriminate H]
      | (if ?b then Throw _ else _) = Ok _ =>
          destruct b eqn:?Echeck; [discriminate H|]
      | match ?x with Some _ => _ | None => _ end = Ok _ =>
          destruct x eqn:?Estep; [|discriminate H]
      end ].

Lemma in_mbind_left {A B : Type} (m : M A) (k : A -> M B) (e : Event) :
  In e (trace m) -> In e (trace (mbind m k)).
Proof.
  unfold mbind, trace. destruct m as [[a|err] t1]; cbn; [|exact (fun E => E)].
  destruct (k a) as [r t2]. cbn. intro Hin. apply in_or_app. now left.
Qed.

Lemma in_mbind_right {A B : Type} (m : M A) (k : A -> M B) (a : A) (e : Event) :
  outcome m = Ok a -> In e (trace (k a)) -> In e (trace (mbind m k)).
Proof.
  unfold mbind, trace, outcome. destruct m as [[a'|err] t1]; cbn; [|discriminate].
  intro E. injection E as ->. destruct (k a) as [r t2]. cbn. intro Hin.
  apply in_or_app. now right.
Qed.

Lemma in_try_catch_left {A : Type} (m : M A) (handler : JsError -> M A) (e : Event) :
  In e (trace m) -> In e (trace (try_catch m handler)).
Proof.
  unfold try_catch, trace. destruct m as [[a|err] t1]; cbn; [exact (fun E => E)|].
  destruct (handler err) as [r t2]. cbn. intro Hin. apply in_or_app. now left.
Qed.

Lemma outcome_try_finally_ok {A : Type} (m : M A) (cleanup : list Event -> M unit)
    (a : A) :
  outcome (try_finally m cleanup) = Ok a -> outcome m = Ok a.
Proof.
  unfold try_finally, outcome. destruct m as [r t1]. cbn.
  destruct (cleanup t1) as [[u|e] t2]; cbn; [exact (fun E => E) | discriminate].
Qed.

Lemma outcome_rethrow_ok {A : Type} (m : M A) (log : JsError -> M unit) (a : A) :
  outcome (try_catch m (fun error => mbind (log error) (fun _ => throw error))) = Ok a ->
  outcome m = Ok a.
Proof.
  unfold try_catch, mbind, throw, outcome. destruct m as [[b|e] t1]; cbn;
    [exact (fun E => E)|].
  destruct (log e) as [[u|e'] t2]; cbn; discriminate.
Qed.

Lemma url_char_safe (c : ascii) :
  Bytes.b64_index c <> None -> url_safe (to_url c) = true.
Proof.
  destruct c as [[] [] [] [] [] [] [] []]; vm_compute; intro Hc;
    try reflexivity; now elim Hc.
Qed.

Lemma url_text_safe (s : string) :
  in_alphabet s -> JsString.all_chars url_safe (map_chars to_url s) = true.
Proof.
  induction s as [|c s IH]; [reflexivity|].
  intro Ha. apply in_alphabet_cons in Ha. destruct Ha as [Hc Hs].
  cbn [map_chars JsString.all_chars]. now rewrite (url_char_safe c Hc), (IH Hs).
Qed.

Lemma len_map_chars (f : ascii -> ascii) (s : string) :
  JsString.len (map_chars f s) = JsString.len s.
Proof.
  unfold JsString.len. f_equal.
  induction s as [|c s IH]; [reflexivity|]. cbn. now rewrite IH.
Qed.

Lemma sextets_of_count (l : list byte) :
  Z.of_nat (List.length (sextets_of l)) = (4 * Z.of_nat (List.length l) + 2) / 3.
Proof.
  induction l as [| a | a b | a b c l IH] using list_ind3; try reflexivity.
  cbn [sextets_of List.length]. rewrite !Nat2Z.inj_succ, IH.
  Z.div_mod_to_equations. lia.
Qed.

(** base64url, as the token code writes and reads it: decoding the text
    the encoder wrote gives the bytes back; the text has letters, digits,
    [-] and [_] only, so no padding; and [n] bytes take [ceil(4n/3)]
    characters. *)
Theorem base64url_codec (bytes : list byte) :
  Jwt.base64urlDecode (Jwt.base64urlEncode_bytes bytes) = Ok bytes
  /\ JsString.all_chars url_safe (Jwt.base64urlEncode_bytes bytes) = true
  /\ JsString.len (Jwt.base64urlEncode_bytes bytes)
     = (4 * Z.of_nat (List.length bytes) + 2) / 3.
Proof.
  split; [apply base64url_round_trip | split].
  - rewrite base64urlEncode_bytes_text. apply url_text_safe, text_in_alphabet,
      sextets_of_range.
  - rewrite base64urlEncode_bytes_text, len_map_chars, len_b64_text.
    apply sextets_of_count.
Qed.

(** The nonce of a token: the 16 bytes of [crypto.getRandomValues] make 22
    characters, and different bytes make different nonces. *)
Lemma generateNonce_keeps_entropy (random random' : list byte) :
  List.length random = 16%nat ->
  JsString.len (Jwt.generateNonce random) = 22
  /\ (Jwt.generateNonce random = Jwt.generateNonce random' -> random = random').
Proof.
  intro Hlen. unfold Jwt.generateNonce. split.
  - rewrite base64urlEncode_bytes_text, len_map_chars, len_b64_text,
      sextets_of_count, Hlen. reflexivity.
  - intro E. pose proof (base64url_round_trip random) as R.
    rewrite E, base64url_round_trip in R. now injection R.
Qed.

(** The payload the signer completes: whatever the caller passed, [iss]
    and [sub] are the signer's DID, [iat] the current second, [exp] the
    expiry and [nonce] the fresh nonce; every other field is the caller's. *)
Theorem completePayload_sets_signer_claims (p : list (string * jsval))
    (userDID nonce : string) (now expirationMinutes : Z) :
  let payload := Jwt.completePayload p userDID now expirationMinutes nonce in
  JsVal.get payload "iss" = Ok (JStr userDID)
  /\ JsVal.get payload "sub" = Ok (JStr userDID)
  /\ JsVal.get payload "iat" = Ok (JNum now)
  /\ JsVal.get payload "exp" = Ok (JNum (now + expirationMinutes * 60))
  /\ JsVal.get payload "nonce" = Ok (JStr nonce)
  /\ (forall k, ~ In k signer_claims ->
                JsVal.get payload k = Ok (JsVal.lookup k p)).
Proof.
  intro payload. unfold payload, Jwt.completePayload. cbn [JsVal.get].
  repeat split;
    try (f_equal; rewrite ?lookup_obj_set_other by discriminate;
         apply lookup_obj_set_same).
  intros k Hk. f_equal.
  rewrite !lookup_obj_set_other; [reflexivity| ..];
    intro E; apply Hk; rewrite E; cbn; tauto.
Qed.

Section Tokens.

Context `{Platform} `{Ethers}.

Lemma set_length (arr src out : list byte) (offset : nat) :
  Bytes.set arr src offset = Ok out -> List.length out = List.length arr.
Proof.
  unfold Bytes.set.
  destruct (offset + List.length src <=? List.length arr)%nat eqn:E;
    [|discriminate].
  intro Hout. injection Hout as <-. apply Nat.leb_le in E.
  rewrite !length_app, length_firstn, length_skipn. lia.
Qed.

Lemma createDIDPKH_wallet (w : Wallet) :
  wallet_address_ok w -> Did.createDIDPKH (address w) 1 = Ok (user_did w).
Proof.
  intros [Hisaddr [Hget _]]. unfold Did.createDIDPKH. now rewrite Hisaddr, Hget.
Qed.

(** What a token the signer returned looks like. *)
Lemma signed_token_shape (Date_now : Z) (random : list byte) (w : Wallet)
    (p : list (string * jsval)) (expirationMinutes : Z) (token : string) :
  wallet_address_ok w ->
  Jwt.signES256KJWT Date_now random w p expirationMinutes = Ok token ->
  let header := Jwt.jwt_header (user_did w) in
  let payload :=
    Jwt.completePayload p (user_did w) (Date_now / 1000) expirationMinutes
      (Jwt.generateNonce random) in
  exists rawSignature,
    List.length rawSignature = 64%nat
    /\ token = Jwt.base64urlEncode (JSON_stringify header)
               ++ String "." (Jwt.base64urlEncode (JSON_stringify payload)
                              ++ String "." (Jwt.base64urlEncode_bytes rawSignature)).
Proof.
  intros Hw Hsign header payload. unfold Jwt.signES256KJWT in Hsign.
  rewrite (createDIDPKH_wallet w Hw) in Hsign. cbn [bind] in Hsign.
  fold header in Hsign. fold payload in Hsign.
  unfold bind in Hsign.
  destruct (getBytes _) as [rBytes|]; [|discriminate].
  destruct (getBytes _) as [sBytes|]; [|discriminate].
  destruct (Bytes.set _ rBytes 0) as [r1|] eqn:E1; [|discriminate].
  destruct (Bytes.set r1 sBytes 32) as [r2|] eqn:E2; [|discriminate].
  injection Hsign as <-. exists r2. split; [|apply token_segments].
  apply set_length in E1, E2. rewrite E2, E1. reflexivity.
Qed.

Lemma signed_token_parts (v v' : jsval) (raw : list byte) :
  JsString.split "."
    (Jwt.base64urlEncode (JSON_stringify v)
     ++ String "." (Jwt.base64urlEncode (JSON_stringify v')
                    ++ String "." (Jwt.base64urlEncode_bytes raw)))
  = [Jwt.base64urlEncode (JSON_stringify v);
     Jwt.base64urlEncode (JSON_stringify v');
     Jwt.base64urlEncode_bytes raw].
Proof.
  rewrite (split_append "." (Jwt.base64urlEncode (JSON_stringify v)))
    by apply encoded_free_of_dot.
  rewrite (split_append "." (Jwt.base64urlEncode (JSON_stringify v')))
    by apply encoded_free_of_dot.
  now rewrite (split_free "." (Jwt.base64urlEncode_bytes raw))
    by apply encoded_free_of_dot.
Qed.

(** [parseJWT] reads back, without verifying anything, the header and the
    payload of a token the signer returned. *)
Theorem parseJWT_reads_signed_token (Date_now : Z) (random : list byte) (w : Wallet)
    (p : list (string * jsval)) (expirationMinutes : Z) (token : string) :
  let header := Jwt.jwt_header (user_did w) in
  let payload :=
    Jwt.completePayload p (user_did w) (Date_now / 1000) expirationMinutes
      (Jwt.generateNonce random) in
  wallet_address_ok w -> json_round_trips header -> json_round_trips payload ->
  Jwt.signES256KJWT Date_now random w p expirationMinutes = Ok token ->
  Jwt.parseJWT token = Ok (header, payload).
Proof.
  intros header payload Hw Hh Hp Hsign.
  destruct (signed_token_shape _ _ _ _ _ _ Hw Hsign) as [raw [Hraw ->]].
  fold header. fold payload.
  unfold Jwt.parseJWT. rewrite signed_token_parts.
  rewrite (segment_encoded header _ 0%nat Hh).
  change (Jwt.segment (?a :: ?l) 1) with (Jwt.segment l 0).
  rewrite (segment_encoded payload _ 0%nat Hp).
  now rewrite (decode_encoded header Hh), (decode_encoded payload Hp).
Qed.

Lemma parseDIDPKH_wallet (w : Wallet) :
  wallet_address_ok w ->
  Did.parseDIDPKH (user_did w)
  = Ok {| Did.did := user_did w; Did.address := address w; Did.chainId := Some 1 |}.
Proof.
  intros [Hisaddr [Hget Hhex]]. unfold Did.parseDIDPKH.
  change (user_did w)
    with ("did:pkh:eip155:" ++ JsVal.num_to_string 1 ++ ":" ++ address w).
  rewrite (match_didPattern_created 1 (address w)) by (lia || assumption).
  now rewrite Hisaddr, Hget.
Qed.

(** [validateJWTUserAddress] on a token the signer returned: the expected
    address is accepted exactly when it is the wallet's address, case
    apart. *)
Theorem validateJWTUserAddress_of_signed_token (Date_now : Z) (random : list byte)
    (w : Wallet) (p : list (string * jsval)) (expirationMinutes : Z)
    (token expectedAddress : string) :
  let header := Jwt.jwt_header (user_did w) in
  let payload :=
    Jwt.completePayload p (user_did w) (Date_now / 1000) expirationMinutes
      (Jwt.generateNonce random) in
  wallet_address_ok w -> json_round_trips header -> json_round_trips payload ->
  Jwt.signES256KJWT Date_now random w p expirationMinutes = Ok token ->
  Jwt.validateJWTUserAddress token expectedAddress
  = String.eqb (JsString.toLowerCase (address w))
               (JsString.toLowerCase expectedAddress).
Proof.
  intros header payload Hw Hh Hp Hsign.
  destruct (signed_token_shape _ _ _ _ _ _ Hw Hsign) as [raw [Hraw ->]].
  fold header. fold payload.
  unfold Jwt.validateJWTUserAddress, Jwt.parseJWT. rewrite signed_token_parts.
  rewrite (segment_encoded header _ 0%nat Hh).
  change (Jwt.segment (?a :: ?l) 1) with (Jwt.segment l 0).
  rewrite (segment_encoded payload _ 0%nat Hp).
  rewrite (decode_encoded header Hh), (decode_encoded payload Hp). cbn [bind].
  assert (Hiss : JsVal.get payload "iss" = Ok (JStr (user_did w))).
  { unfold payload, Jwt.completePayload. cbn [JsVal.get]. f_equal.
    rewrite !lookup_obj_set_other by discriminate. apply lookup_obj_set_same. }
  rewrite Hiss.
  unfold Did.validateDIDPKHAddress. now rewrite (parseDIDPKH_wallet w Hw).
Qed.

(** A token the signer returned, verified after its expiry second, is
    reported with [valid: false]; nothing is thrown, and the signature is
    not looked at. *)
Theorem verifyES256KJWT_after_expiry (Date_now Date_later : Z) (random : list byte)
    (w : Wallet) (p : list (string * jsval)) (expirationMinutes : Z)
    (token : string) :
  let header := Jwt.jwt_header (user_did w) in
  let payload :=
    Jwt.completePayload p (user_did w) (Date_now / 1000) expirationMinutes
      (Jwt.generateNonce random) in
  wallet_address_ok w -> json_round_trips header -> json_round_trips payload ->
  Jwt.signES256KJWT Date_now random w p expirationMinutes = Ok token ->
  Date_now / 1000 + expirationMinutes * 60 < Date_later / 1000 ->
  Jwt.verifyES256KJWT Date_later token
  = Ok {| Jwt.header := header; Jwt.payload := payload; Jwt.valid := false |}.
Proof.
  intros header payload Hw Hh Hp Hsign Hlate.
  destruct (signed_token_shape _ _ _ _ _ _ Hw Hsign) as [raw [Hraw ->]].
  fold header. fold payload.
  destruct Hw as [Hisaddr [Hget Hhex]].
  destruct (hex40_shape _ Hhex) as [[c0 [a0 Eaddr]] Hfree].
  unfold Jwt.verifyES256KJWT. rewrite signed_token_parts.
  rewrite (segment_encoded header _ 0%nat Hh).
  change (Jwt.segment (?a :: ?l) 1) with (Jwt.segment l 0).
  rewrite (segment_encoded payload _ 0%nat Hp).
  change (Jwt.segment (?a :: ?b :: ?l) 2) with (Jwt.segment l 0).
  destruct (encoded_nonempty raw) as [c [s Es]];
    [destruct raw; [discriminate Hraw | discriminate]|].
  unfold Jwt.segment at 1. cbn [nth_error]. rewrite Es. rewrite <- Es.
  rewrite (decode_encoded header Hh), (decode_encoded payload Hp). cbn [bind].
  unfold header at 1.
  cbn [JsVal.get Jwt.jwt_header JsVal.lookup String.eqb Ascii.eqb Bool.eqb andb].
  cbn [bind JsVal.strict_eq String.eqb Ascii.eqb Bool.eqb andb negb].
  assert (Hl : forall k v, JsVal.lookup k (match payload with JObj l => l | _ => [] end) = v ->
                           JsVal.get payload k = Ok v)
    by (intros k v <-; reflexivity).
  rewrite (Hl "iss" (JStr (user_did w)))
    by (cbn; rewrite !lookup_obj_set_other by discriminate; apply lookup_obj_set_same).
  cbn [bind Jwt.call_startsWith].
  change (JsString.startsWith "did:pkh:eip155:" (user_did w)) with true.
  rewrite (Hl "sub" (JStr (user_did w)))
    by (cbn; rewrite !lookup_obj_set_other by discriminate; apply lookup_obj_set_same).
  cbn [bind JsVal.strict_eq negb orb]. rewrite String.eqb_refl. cbn [negb].
  unfold Jwt.last_segment.
  change (user_did w) with ("did:pkh:eip155:1" ++ String ":" (address w)) at 1.
  rewrite (pop_split_append ":" _ _ Hfree). rewrite Eaddr at 1. rewrite <- Eaddr.
  rewrite Hisaddr. cbn [negb].
  rewrite (Hl "exp" (JNum (Date_now / 1000 + expirationMinutes * 60)))
    by (cbn; rewrite !lookup_obj_set_other by discriminate; apply lookup_obj_set_same).
  cbn [bind]. unfold js_lt, to_number.
  now rewrite (proj2 (Z.ltb_lt _ _) Hlate).
Qed.

Lemma try_recover_sound (messageHash r s signerAddress : string) (params : list Z)
    (found : string) :
  Jwt.try_recover messageHash r s signerAddress params = Some found ->
  exists recoveryParam,
    In recoveryParam params
    /\ recoverAddress messageHash
         {| sig_r := r; sig_s := s; sig_v := recoveryParam + 27 |} = Ok found
    /\ JsString.toLowerCase found = JsString.toLowerCase signerAddress.
Proof.
  induction params as [|x params IH]; [discriminate|]. cbn [Jwt.try_recover].
  destruct (recoverAddress messageHash _) as [recovered|] eqn:Erec.
  - destruct (String.eqb _ _) eqn:Elow.
    + intro E. injection E as <-. exists x. apply String.eqb_eq in Elow.
      repeat split; [now left | assumption | assumption].
    + intro E. destruct (IH E) as [y [Hin Hy]]. exists y. split; [now right | exact Hy].
  - intro E. destruct (IH E) as [y [Hin Hy]]. exists y. split; [now right | exact Hy].
Qed.

(** What [valid: true] stands for.  When the verifier returns [valid: true]
    the token has three non-empty leading segments; its header names
    ES256K; the issuer is a [did:pkh:eip155:] DID equal to the subject
    whose last segment is a valid address; the token has not expired; the
    signature is 64 bytes; and for recovery parameter 0 or 1 the address
    recovered from the digest of [header.payload] and the two halves of the
    signature is the issuer's address, case apart. *)
Theorem verifyES256KJWT_valid_is_sound (Date_now : Z) (jwt : string)
    (verified : Jwt.Verified) :
  Jwt.verifyES256KJWT Date_now jwt = Ok verified ->
  Jwt.valid verified = true ->
  exists encodedHeader encodedPayload encodedSignature more iss signerAddress exp
         rawSignature recoveryParam recovered,
    JsString.split "." jwt
    = encodedHeader :: encodedPayload :: encodedSignature :: more
    /\ Jwt.decode_segment encodedHeader = Ok (Jwt.header verified)
    /\ Jwt.decode_segment encodedPayload = Ok (Jwt.payload verified)
    /\ JsVal.get (Jwt.header verified) "alg" = Ok (JStr "ES256K")
    /\ JsVal.get (Jwt.payload verified) "iss" = Ok (JStr iss)
    /\ JsVal.get (Jwt.payload verified) "sub" = Ok (JStr iss)
    /\ JsString.startsWith "did:pkh:eip155:" iss = true
    /\ JsString.pop (JsString.split ":" iss) = Some signerAddress
    /\ isAddress signerAddress = true
    /\ JsVal.get (Jwt.payload verified) "exp" = Ok exp
    /\ js_lt exp (Date_now / 1000) = false
    /\ Jwt.base64urlDecode encodedSignature = Ok rawSignature
    /\ List.length rawSignature = 64%nat
    /\ (recoveryParam = 0 \/ recoveryParam = 1)
    /\ recoverAddress
         (keccak256 (toUtf8Bytes (encodedHeader ++ "." ++ encodedPayload)))
         {| sig_r := "0x" ++ Bytes.hex_of_bytes (Bytes.slice rawSignature 0 32);
            sig_s := "0x" ++ Bytes.hex_of_bytes (Bytes.slice rawSignature 32 64);
            sig_v := recoveryParam + 27 |} = Ok recovered
    /\ JsString.toLowerCase recovered = JsString.toLowerCase signerAddress.
Proof.
  unfold Jwt.verifyES256KJWT, Jwt.segment.
  destruct (JsString.split "." jwt) as [|eh [|ep [|es more]]] eqn:Esplit;
    cbn [nth_error]; try discriminate; try (destruct eh; discriminate);
    try (destruct eh; [discriminate | destruct ep; discriminate]).
  destruct eh as [|h0 eh]; [discriminate|].
  destruct ep as [|p0 ep]; [discriminate|].
  destruct es as [|s0 es]; [discriminate|].
  set (encodedHeader := String h0 eh). set (encodedPayload := String p0 ep).
  set (encodedSignature := String s0 es).
  destruct (Jwt.decode_segment encodedHeader) as [header|] eqn:Eh; [|discriminate].
  destruct (Jwt.decode_segment encodedPayload) as [payload|] eqn:Ep; [|discriminate].
  cbn [bind].
  destruct (JsVal.get header "alg") as [alg|] eqn:Ealg; [|discriminate]. cbn [bind].
  destruct (JsVal.strict_eq alg (JStr "ES256K")) eqn:Es256; [|discriminate].
  cbn [negb].
  destruct (JsVal.get payload "iss") as [issv|] eqn:Eiss; [|discriminate]. cbn [bind].
  destruct (Jwt.call_startsWith issv "did:pkh:eip155:") as [is_pkh|] eqn:Epkh;
    [|discriminate]. cbn [bind].
  destruct (JsVal.get payload "sub") as [sub|] eqn:Esub; [|discriminate]. cbn [bind].
  destruct is_pkh; [|discriminate]. cbn [negb orb].
  destruct (JsVal.strict_eq issv sub) eqn:Esame; [|discriminate]. cbn [negb].
  destruct issv as [| | | |iss| |]; try discriminate.
  cbn [Jwt.call_startsWith] in Epkh. injection Epkh as Epkh.
  destruct sub as [| | | |sub'| |]; try discriminate.
  cbn [JsVal.strict_eq] in Esame. apply String.eqb_eq in Esame. subst sub'.
  destruct alg as [| | | |alg'| |]; try discriminate.
  cbn [JsVal.strict_eq] in Es256. apply String.eqb_eq in Es256. subst alg'.
  cbn [Jwt.last_segment].
  destruct (JsString.pop (JsString.split ":" iss)) as [[|a0 signer]|] eqn:Epop;
    try discriminate.
  destruct (isAddress (String a0 signer)) eqn:Eaddr; [|discriminate]. cbn [negb].
  destruct (JsVal.get payload "exp") as [exp|] eqn:Eexp; [|discriminate]. cbn [bind].
  destruct (js_lt exp (Date_now / 1000)) eqn:Elt.
  { intro E. injection E as <-. discriminate. }
  destruct (Jwt.base64urlDecode encodedSignature) as [raw|] eqn:Eraw; [|discriminate].
  cbn [bind].
  destruct (List.length raw =? 64)%nat eqn:Elen; [|discriminate]. cbn [negb].
  destruct (Jwt.try_recover _ _ _ _ _) as [found|] eqn:Etry.
  2:{ intro E. injection E as <-. discriminate. }
  intro E. injection E as <-. intros _. cbn [Jwt.header Jwt.payload].
  destruct (try_recover_sound _ _ _ _ _ _ Etry) as [x [Hin [Hrec Hlow]]].
  exists encodedHeader, encodedPayload, encodedSignature, more, iss,
    (String a0 signer), exp, raw, x, found.
  apply Nat.eqb_eq in Elen.
  repeat split; try assumption; try reflexivity.
  destruct Hin as [<- | [<- | []]]; [now left | now right].
Qed.

End Tokens.




Section DidAccessors.

Context `{Ethers}.


(** [isValidDIDPKH] answers what [parseDIDPKH] would do: given ethers'
    address laws, it is true exactly on the DIDs that parse. *)
Theorem isValidDIDPKH_iff_parses (did : string) :
  address_laws ->
  Did.isValidDIDPKH did = true <-> exists parsed, Did.parseDIDPKH did = Ok parsed.
Proof.
  intro Hlaws. unfold Did.isValidDIDPKH, Did.parseDIDPKH.
  destruct (Did.match_didPattern did) as [[chainIdStr addr]|].
  - destruct (isAddress addr) eqn:Ha; cbn [negb].
    + destruct (Hlaws addr Ha) as [checksummed [Hg _]]. rewrite Hg. cbn [bind].
      split; [eauto | reflexivity].
    + split; [discriminate | intros [parsed E]; discriminate].
  - split; [discriminate | intros [parsed E]; discriminate].
Qed.

(** The accessors on a DID that [createDIDPKH] made, given ethers' address
    laws: it is a valid DID:PKH, [extractAddressFromDID] gives the
    checksummed address, and [validateDIDPKHAddress] accepts exactly the
    addresses that equal the checksummed one, case apart. *)
Theorem created_did_is_accepted (a : string) (c : Z) (did expectedAddress : string) :
  address_laws -> chain_id_in_range c ->
  Did.createDIDPKH a c = Ok did ->
  exists checksummed,
    getAddress a = Ok checksummed
    /\ Did.isValidDIDPKH did = true
    /\ Did.extractAddressFromDID did = Ok checksummed
    /\ Did.validateDIDPKHAddress did expectedAddress
       = String.eqb (JsString.toLowerCase checksummed)
                    (JsString.toLowerCase expectedAddress).
Proof.
  intros Hlaws [Hc _]. unfold Did.createDIDPKH.
  destruct (isAddress a) eqn:Ha; [|discriminate]. cbn [negb].
  destruct (Hlaws a Ha) as [checksummed [Hget [Hhex [Hvalid Hfix]]]].
  rewrite Hget. cbn [bind].
  pose proof (match_didPattern_created c checksummed Hc Hhex) as Hm.
  set (made := "did:pkh:eip155:" ++ JsVal.num_to_string c ++ ":" ++ checksummed) in *.
  intro E. injection E as <-.
  exists checksummed. split; [reflexivity|].
  unfold Did.isValidDIDPKH, Did.extractAddressFromDID, Did.validateDIDPKHAddress,
    Did.parseDIDPKH.
  rewrite Hm, Hvalid, Hfix. cbn. repeat split; reflexivity.
Qed.

End DidAccessors.

(** ** Trimming and the trust list *)

Lemma trimEnd_first (c : ascii) (s : string) :
  JsString.is_space c = false ->
  exists t, JsString.trimEnd (String c s) = String c t.
Proof.
  intro Hc. cbn [JsString.trimEnd].
  destruct (JsString.trimEnd s); [rewrite Hc|]; eauto.
Qed.

Lemma trimEnd_cons (c : ascii) (s : string) :
  JsString.trimEnd (String c s)
  = match JsString.trimEnd s with
    | EmptyString => if JsString.is_space c then EmptyString else String c EmptyString
    | t => String c t
    end.
Proof. reflexivity. Qed.

Lemma trimEnd_idempotent (s : string) :
  JsString.trimEnd (JsString.trimEnd s) = JsString.trimEnd s.
Proof.
  induction s as [|c s IH]; [reflexivity|]. rewrite trimEnd_cons.
  destruct (JsString.trimEnd s) as [|d t] eqn:E.
  - destruct (JsString.is_space c) eqn:Hc; [reflexivity|].
    cbn. now rewrite Hc.
  - rewrite trimEnd_cons, IH. reflexivity.
Qed.

Lemma trimStart_first (s : string) :
  JsString.trimStart s = EmptyString
  \/ exists c t, JsString.trimStart s = String c t /\ JsString.is_space c = false.
Proof.
  induction s as [|c s IH]; [now left|]. cbn.
  destruct (JsString.is_space c) eqn:Hc; [exact IH | right; eauto].
Qed.

Lemma trim_idempotent (s : string) : JsString.trim (JsString.trim s) = JsString.trim s.
Proof.
  unfold JsString.trim.
  destruct (trimStart_first s) as [-> | [c [t [-> Hc]]]]; [reflexivity|].
  destruct (trimEnd_first c t Hc) as [t' E]. rewrite E.
  cbn [JsString.trimStart]. rewrite Hc, <- E. apply trimEnd_idempotent.
Qed.

Lemma all_chars_trimStart (p : ascii -> bool) (s : string) :
  JsString.all_chars p s = true -> JsString.all_chars p (JsString.trimStart s) = true.
Proof.
  induction s as [|c s IH]; [reflexivity|]. intro Hs. cbn.
  destruct (JsString.is_space c); [|exact Hs].
  cbn in Hs. apply andb_true_iff in Hs. now apply IH.
Qed.

Lemma all_chars_trimEnd (p : ascii -> bool) (s : string) :
  JsString.all_chars p s = true -> JsString.all_chars p (JsString.trimEnd s) = true.
Proof.
  induction s as [|c s IH]; [reflexivity|]. intro Hs.
  cbn in Hs. apply andb_true_iff in Hs. destruct Hs as [Hc Hs].
  specialize (IH Hs). rewrite trimEnd_cons.
  destruct (JsString.trimEnd s) as [|d t].
  - destruct (JsString.is_space c); [reflexivity | cbn; now rewrite Hc].
  - change (JsString.all_chars p (String c (String d t)))
      with (p c && JsString.all_chars p (String d t)).
    now rewrite Hc, IH.
Qed.

Lemma split_parts_free (sep : ascii) (s : string) :
  Forall (free_of sep) (JsString.split sep s).
Proof.
  induction s as [|c s IH]; [repeat constructor|]. cbn [JsString.split].
  destruct (Ascii.eqb c sep) eqn:Hc.
  - constructor; [reflexivity | exact IH].
  - destruct (JsString.split sep s) as [|h t]; inversion IH; subst;
      constructor; try assumption; unfold free_of in *; cbn;
      now rewrite Hc.
Qed.

(** The trust list read from the configuration has no empty entry and no
    entry that begins or ends with white space or holds a comma: so the
    empty string, a padded issuer or a list of issuers never counts as a
    trusted issuer, whatever the configuration. *)
Theorem trusted_issuer_is_a_clean_entry (rt : Utils.Runtime) (issuer : string) :
  Utils.validateTrustedIssuer rt issuer = Ok true ->
  issuer <> EmptyString /\ JsString.trim issuer = issuer /\ free_of "," issuer.
Proof.
  unfold Utils.validateTrustedIssuer, Utils.getTrustedIssuers.
  destruct (Utils.getEnv rt "TRUSTED_ISSUERS") as [env|]; [|discriminate].
  cbn [bind]. intro E. injection E as E. apply includes_string_In in E.
  apply filter_In in E. destruct E as [Hin Hlen].
  apply in_map_iff in Hin. destruct Hin as [part [<- Hpart]].
  pose proof (split_parts_free "," env) as Hfree.
  rewrite Forall_forall in Hfree. specialize (Hfree part Hpart).
  repeat split.
  - intro E0. rewrite E0 in Hlen. discriminate.
  - apply trim_idempotent.
  - unfold JsString.trim. now apply all_chars_trimEnd, all_chars_trimStart.
Qed.

(** Without a trust list in the environment: under Node a missing or empty
    [TRUSTED_ISSUERS] makes the validation of every requirement throw the
    configuration error; in a browser, and where neither is detected, the
    two default issuers are used. *)
Lemma trust_list_without_configuration
    (process_env : string -> option string)
    (requirements : Utils.CredentialRequirements) (VITE_TOKEN : option string) :
  (process_env "TRUSTED_ISSUERS" = None
   \/ process_env "TRUSTED_ISSUERS" = Some EmptyString ->
   Utils.getTrustedIssuers (Utils.Node process_env)
   = Throw (node_env_error "TRUSTED_ISSUERS")
   /\ Utils.validateGithubCredentialRequirements (Utils.Node process_env) requirements
      = Throw (node_env_error "TRUSTED_ISSUERS"))
  /\ Utils.getTrustedIssuers (Utils.Browser None VITE_TOKEN) = Ok configured_trust_list
  /\ Utils.getTrustedIssuers (Utils.Browser (Some EmptyString) VITE_TOKEN)
     = Ok configured_trust_list
  /\ Utils.getTrustedIssuers Utils.Other = Ok configured_trust_list.
Proof.
  split; [|repeat split; reflexivity].
  intro Hmissing.
  assert (E : Utils.getEnv (Utils.Node process_env) "TRUSTED_ISSUERS"
              = Throw (node_env_error "TRUSTED_ISSUERS")).
  { unfold Utils.getEnv. destruct Hmissing as [-> | ->]; reflexivity. }
  unfold Utils.validateGithubCredentialRequirements, Utils.validateTrustedIssuer,
    Utils.getTrustedIssuers.
  rewrite E. split; reflexivity.
Qed.

(** ** The matcher and the case of the subject identifier *)

Lemma startsWith_length (p s : string) :
  JsString.startsWith p s = true -> (String.length p <= String.length s)%nat.
Proof.
  revert s. induction p as [|a p IH]; intros s Hs; [cbn; lia|].
  destruct s as [|b s]; [discriminate|]. cbn in Hs.
  apply andb_true_iff in Hs. destruct Hs as [_ Hs]. apply IH in Hs. cbn. lia.
Qed.

Lemma startsWith_same_length (p s : string) :
  JsString.startsWith p s = true -> String.length p = String.length s -> p = s.
Proof.
  revert s. induction p as [|a p IH]; intros s Hs Hlen.
  - destruct s; [reflexivity | discriminate].
  - destruct s as [|b s]; [discriminate|]. cbn in Hs.
    apply andb_true_iff in Hs. destruct Hs as [Hab Hs].
    apply Ascii.eqb_eq in Hab. subst b. f_equal. apply IH; [assumption|].
    cbn in Hlen. lia.
Qed.

Lemma includes_length (sub s : string) :
  JsString.includes sub s = true -> (String.length sub <= String.length s)%nat.
Proof.
  induction s as [|c s IH]; cbn [JsString.includes]; intro Hs;
    apply orb_true_iff in Hs; destruct Hs as [Hs | Hs].
  - now apply startsWith_length in Hs.
  - discriminate.
  - now apply startsWith_length in Hs.
  - apply IH in Hs. cbn. lia.
Qed.

Lemma includes_same_length (sub s : string) :
  JsString.includes sub s = true -> String.length sub = String.length s -> sub = s.
Proof.
  destruct s as [|c s]; cbn [JsString.includes]; intros Hs Hlen;
    apply orb_true_iff in Hs; destruct Hs as [Hs | Hs].
  - now apply startsWith_same_length.
  - discriminate.
  - now apply startsWith_same_length.
  - apply includes_length in Hs. cbn in Hlen. lia.
Qed.

Lemma hex40_lower_prefix (a : string) :
  Did.is_0x_hex40 a = true ->
  exists rest, JsString.toLowerCase a = String "0" (String "x" rest).
Proof.
  intro Ha. destruct (hex40_parts a Ha) as [h [-> _]]. eexists. reflexivity.
Qed.

(** The subject test of the matcher is case-sensitive on the credential's
    side: it looks for the lower-cased user address inside the subject
    identifier as it is written.  A credential whose subject is the DID:PKH
    of the user's own address in a spelling with a capital letter, which is
    what [createDIDPKH] writes for a checksummed address, fails the test
    and is never returned. *)
Theorem matcher_misses_checksummed_subject `{Platform} (Date_now : Z)
    (pool : list Utils.ParsedCredential) (requirements : Utils.CredentialRequirements)
    (cred : Utils.ParsedCredential) (userAddress subjectAddress : string) :
  Did.is_0x_hex40 subjectAddress = true ->
  JsString.toLowerCase userAddress = JsString.toLowerCase subjectAddress ->
  JsString.toLowerCase subjectAddress <> subjectAddress ->
  Utils.credentialSubject cred
  = Some {| Utils.id := Some ("did:pkh:eip155:1:" ++ subjectAddress) |} ->
  Utils.subject_matches cred userAddress = false
  /\ Utils.findMatchingCredential Date_now pool requirements userAddress <> Some cred.
Proof.
  intros Hhex Hsame Hcase Hsubject.
  assert (Hmiss : Utils.subject_matches cred userAddress = false).
  { unfold Utils.subject_matches. rewrite Hsubject. cbn [Utils.id append].
    rewrite Hsame.
    destruct (hex40_lower_prefix _ Hhex) as [rest Elow].
    destruct (JsString.includes (JsString.toLowerCase subjectAddress) _) eqn:E;
      [|reflexivity].
    exfalso. rewrite Elow in E.
    repeat (cbn [JsString.includes JsString.startsWith Ascii.eqb Bool.eqb andb orb] in E).
    rewrite <- Elow in E. apply includes_same_length in E; [contradiction|].
    apply toLowerCase_length. }
  split; [exact Hmiss|]. intro Hfound.
  unfold Utils.findMatchingCredential in Hfound. apply find_some in Hfound.
  destruct Hfound as [_ Hm]. unfold Utils.credential_matches in Hm.
  rewrite Hmiss in Hm. destruct (negb (String.eqb _ _)); discriminate.
Qed.

(** ** Runs of the wallet-based decryption *)

Section DecryptionRuns.

Context `{Platform} `{Ethers}.

(** The [finally] block: a run that constructed the Lit client ends by
    disconnecting it, once, whether it returns or throws; a run that did
    not construct it never calls [disconnect]. *)
Theorem decrypt_disconnects_what_it_connected (rt : Utils.Runtime)
    (net : WalletBased.LitNetwork) (Date_now : Z) (random : list byte)
    (encryptedData : EncryptedData) (userWallet : Wallet)
    (userCredentials : option (list Utils.ParsedCredential)) :
  let run :=
    WalletBased.decryptFromCredentialsWithJWT rt net Date_now random encryptedData
      userWallet userCredentials in
  (In new_LitNodeClient (trace run) ->
   exists before,
     trace run = (before ++ [litNodeClient_disconnect])%list
     /\ ~ In litNodeClient_disconnect before)
  /\ (~ In new_LitNodeClient (trace run) ->
      ~ In litNodeClient_disconnect (trace run)).
Proof.
  intro run. unfold run, WalletBased.decryptFromCredentialsWithJWT.
  match goal with |- context [try_finally ?m _] => set (body := m) end.
  assert (Hbody : ~ In litNodeClient_disconnect (trace body)).
  { unfold body, try_catch, mbind, lift, emit, ret, throw, trace.
    repeat (run_step; cbn); intuition discriminate. }
  unfold try_finally. destruct body as [r t1]. cbn [trace snd] in *.
  destruct (existsb WalletBased.is_new_LitNodeClient t1) eqn:Enew; cbn.
  - split.
    + intros _. exists t1. now split.
    + intro Hn. exfalso. apply Hn. apply in_or_app. left.
      apply existsb_exists in Enew. destruct Enew as [e [Hin He]].
      destruct e; try discriminate. exact Hin.
  - rewrite app_nil_r. split; [|intros _; exact Hbody].
    intro Hin. exfalso.
    assert (existsb WalletBased.is_new_LitNodeClient t1 = true)
      by (apply existsb_exists; now exists new_LitNodeClient).
    congruence.
Qed.

(** The failures of the decryption that happen before the network is
    reached, for the wallet the bundle belongs to: a stored token that is
    not the wallet's, a decryption token that cannot be signed, and a pool
    without a matching credential each end the run with that error and
    without a call to the Lit network. *)
Theorem decrypt_fails_before_the_network (rt : Utils.Runtime)
    (net : WalletBased.LitNetwork) (Date_now : Z) (random : list byte)
    (encryptedData : EncryptedData) (userWallet : Wallet)
    (userCredentials : option (list Utils.ParsedCredential)) :
  JsString.toLowerCase (address userWallet)
  = JsString.toLowerCase (userAddress encryptedData) ->
  let run :=
    WalletBased.decryptFromCredentialsWithJWT rt net Date_now random encryptedData
      userWallet userCredentials in
  let stored_ok :=
    Jwt.validateJWTUserAddress (userSignedJWT encryptedData) (address userWallet) in
  let minted :=
    Jwt.createDecryptionJWT Date_now random userWallet
      (credentialRequirements encryptedData) in
  let matching :=
    Utils.findMatchingCredential Date_now (Utils.loadCredentials userCredentials)
      (credentialRequirements encryptedData) (address userWallet) in
  (stored_ok = false ->
   run = (Throw (Error "Stored user JWT does not match user address"),
          [console_error "Stored user JWT does not match user address"]))
  /\ (forall error, stored_ok = true -> minted = Throw error ->
      outcome run = Throw error /\ Forall (fun e => ~ network_call e) (trace run))
  /\ (forall token, stored_ok = true -> minted = Ok token -> matching = None ->
      outcome run
      = Throw (Error "No matching credential found for the specified requirements")
      /\ Forall (fun e => ~ network_call e) (trace run)).
Proof.
  intros Hsame run stored_ok minted matching.
  apply String.eqb_eq in Hsame.
  unfold run, WalletBased.decryptFromCredentialsWithJWT.
  rewrite Hsame. cbn [negb]. fold stored_ok. fold minted. fold matching.
  split; [|split].
  - intros ->. reflexivity.
  - intros error -> ->. split; [reflexivity|]. cbn. repeat constructor; intros [].
  - intros token -> -> ->. split; [reflexivity|]. cbn. repeat constructor; intros [].
Qed.

(** A decryption that returns has gone through every step: the bundle is
    the wallet's, a fresh decryption token was signed, a credential of the
    pool matched, and the Lit Action was executed once, with that
    credential's token, the fresh token and the purpose "decrypt" among its
    parameters; what the run returns is what the Lit Action answered. *)
Theorem decrypt_returns_what_the_action_answered (rt : Utils.Runtime)
    (net : WalletBased.LitNetwork) (Date_now : Z) (random : list byte)
    (encryptedData : EncryptedData) (userWallet : Wallet)
    (userCredentials : option (list Utils.ParsedCredential)) (result : jsval) :
  let run :=
    WalletBased.decryptFromCredentialsWithJWT rt net Date_now random encryptedData
      userWallet userCredentials in
  outcome run = Ok result ->
  exists decryptionJWT matchingCredential sessionSigs,
    JsString.toLowerCase (address userWallet)
    = JsString.toLowerCase (userAddress encryptedData)
    /\ Jwt.validateJWTUserAddress (userSignedJWT encryptedData) (address userWallet)
       = true
    /\ Jwt.createDecryptionJWT Date_now random userWallet
         (credentialRequirements encryptedData) = Ok decryptionJWT
    /\ Utils.findMatchingCredential Date_now (Utils.loadCredentials userCredentials)
         (credentialRequirements encryptedData) (address userWallet)
       = Some matchingCredential
    /\ (let params :=
          WalletBased.jsParams encryptedData (Utils.jwt matchingCredential)
            (address userWallet) decryptionJWT in
        WalletBased.net_executeJs net sessionSigs params = Ok result
        /\ JsVal.get params "operationPurpose" = Ok (JStr "decrypt")
        /\ filter (fun e => match e with executeJs _ => true | _ => false end)
             (trace run)
           = [executeJs params]).
Proof.
  intro run. unfold run, WalletBased.decryptFromCredentialsWithJWT.
  unfold try_finally, try_catch, mbind, lift, emit, ret, throw, outcome, trace.
  repeat (run_step; cbn); try discriminate.
  all: intro E; injection E as <-.
  all: do 3 eexists.
  all: repeat match goal with
         | Hn : negb _ = false |- _ => apply negb_false_iff in Hn
         end.
  all: repeat match goal with
         | Hs : String.eqb (JsString.toLowerCase _) _ = true |- _ =>
             apply String.eqb_eq in Hs
         end.
  all: repeat split; try eassumption; try reflexivity.
Qed.

End DecryptionRuns.

Lemma replace_first_prefix (p s : string) :
  JsString.replace_first p EmptyString (p ++ s) = s.
Proof.
  assert (Hpre : forall q t, JsString.startsWith q (q ++ t) = true).
  { induction q as [|a q IH]; intro t; [reflexivity|].
    cbn. now rewrite Ascii.eqb_refl, IH. }
  assert (Hdrop : forall q t, JsString.drop (String.length q) (q ++ t) = t).
  { induction q as [|a q IH]; intro t; [reflexivity | apply IH]. }
  assert (Hunfold : forall t,
    JsString.replace_first p EmptyString t
    = if JsString.startsWith p t
      then EmptyString ++ JsString.drop (String.length p) t
      else match t with
           | EmptyString => EmptyString
           | String c t' => String c (JsString.replace_first p EmptyString t')
           end) by (destruct t; reflexivity).
  now rewrite Hunfold, Hpre, Hdrop.
Qed.

Section ActionSteps.

Context `{Platform} `{Ethers}.

(** Resolving a [did:web] issuer: the DID document is fetched, with one
    request, from [https://<domain>/.well-known/did.json], where [<domain>]
    is all that follows [did:web:]; a response that is not [ok] is an
    error that names the status, and otherwise the answer is the JSON body
    of the response. *)
Lemma resolveDIDWeb_fetches_well_known (env : LitAction.Env) (domain : string) :
  let run := LitAction.resolveDIDWeb env (JStr ("did:web:" ++ domain)) in
  trace run = [fetch (well_known_url domain)]
  /\ (forall e, LitAction.env_fetch env (well_known_url domain) = Throw e ->
                outcome run = Throw e)
  /\ (forall response,
        LitAction.env_fetch env (well_known_url domain) = Ok response ->
        outcome run
        = if LitAction.ok response then LitAction.json response
          else Throw (Error ("Failed to fetch DID document: "
                             ++ JsVal.num_to_string (LitAction.status response)))).
Proof.
  intro run. unfold run, LitAction.resolveDIDWeb.
  rewrite (replace_first_prefix "did:web:" domain). fold (well_known_url domain).
  unfold mbind, emit, lift, throw, trace, outcome.
  destruct (LitAction.env_fetch env (well_known_url domain)) as [response|e]; cbn.
  - destruct (LitAction.ok response) eqn:Eok; cbn;
      (split; [reflexivity | split; [discriminate|]]);
      intros r E; injection E as <-; now rewrite Eok.
  - split; [reflexivity | split; [|discriminate]].
    intros e' E. now injection E as <-.
Qed.

(** The key [extractPublicKey] returns is one the document declares: the
    [publicKeyJwk] of a verification method of type
    [Ed25519VerificationKey2018] whose [id] is the key id asked for or ends
    with [#controller]. *)
Theorem extractPublicKey_returns_declared_key (didDocument keyId publicKeyJwk : jsval) :
  LitAction.extractPublicKey didDocument keyId = Ok publicKeyJwk ->
  exists methods method id,
    JsVal.get didDocument "verificationMethod" = Ok (JArr methods)
    /\ In method methods
    /\ JsVal.get method "id" = Ok id
    /\ (JsVal.strict_eq id keyId = true
        \/ LitAction.call_endsWith id "#controller" = Ok true)
    /\ JsVal.get method "type" = Ok (JStr "Ed25519VerificationKey2018")
    /\ JsVal.get method "publicKeyJwk" = Ok publicKeyJwk
    /\ JsVal.truthy publicKeyJwk = true.
Proof.
  unfold LitAction.extractPublicKey.
  destruct (JsVal.get didDocument "verificationMethod") as [vm|]; [|discriminate].
  cbn [bind].
  assert (Hfind : forall methods,
    LitAction.find_key methods keyId = Ok publicKeyJwk ->
    exists method id,
      In method methods
      /\ JsVal.get method "id" = Ok id
      /\ (JsVal.strict_eq id keyId = true
          \/ LitAction.call_endsWith id "#controller" = Ok true)
      /\ JsVal.get method "type" = Ok (JStr "Ed25519VerificationKey2018")
      /\ JsVal.get method "publicKeyJwk" = Ok publicKeyJwk
      /\ JsVal.truthy publicKeyJwk = true).
  { induction methods as [|m methods IH]; [discriminate|].
    cbn [LitAction.find_key]. unfold bind.
    destruct (JsVal.get m "id") as [mid|] eqn:Eid; [|discriminate].
    assert (Hrest : LitAction.find_key methods keyId = Ok publicKeyJwk ->
                    exists method id,
                      In method (m :: methods)
                      /\ JsVal.get method "id" = Ok id
                      /\ (JsVal.strict_eq id keyId = true
                          \/ LitAction.call_endsWith id "#controller" = Ok true)
                      /\ JsVal.get method "type" = Ok (JStr "Ed25519VerificationKey2018")
                      /\ JsVal.get method "publicKeyJwk" = Ok publicKeyJwk
                      /\ JsVal.truthy publicKeyJwk = true).
    { intro E. destruct (IH E) as [method [id [Hin Hrest]]].
      exists method, id. split; [now right | exact Hrest]. }
    destruct (JsVal.strict_eq mid keyId) eqn:Eeq.
    - destruct (JsVal.get m "type") as [type|] eqn:Etype; [|discriminate].
      destruct (JsVal.get m "publicKeyJwk") as [jwk|] eqn:Ejwk; [|discriminate].
      destruct (JsVal.strict_eq type _) eqn:Et; cbn [andb]; [|exact Hrest].
      destruct (JsVal.truthy jwk) eqn:Etruthy; [|exact Hrest].
      intro E. injection E as <-. exists m, mid.
      destruct type; try discriminate. cbn in Et. apply String.eqb_eq in Et. subst.
      repeat split; auto using in_eq.
    - destruct (LitAction.call_endsWith mid "#controller") as [[]|] eqn:Eends;
        [| exact Hrest | discriminate].
      destruct (JsVal.get m "type") as [type|] eqn:Etype; [|discriminate].
      destruct (JsVal.get m "publicKeyJwk") as [jwk|] eqn:Ejwk; [|discriminate].
      destruct (JsVal.strict_eq type _) eqn:Et; cbn [andb]; [|exact Hrest].
      destruct (JsVal.truthy jwk) eqn:Etruthy; [|exact Hrest].
      intro E. injection E as <-. exists m, mid.
      destruct type; try discriminate. cbn in Et. apply String.eqb_eq in Et. subst.
      repeat split; auto using in_eq. }
  destruct vm as [| |b|n|s|methods|props]; try discriminate.
  - destruct b; discriminate.
  - cbn. destruct (n =? 0); discriminate.
  - destruct s; discriminate.
  - intro E. destruct (Hfind methods E) as [method [id Hm]].
    exists methods, method, id. split; [reflexivity | exact Hm].
Qed.

End ActionSteps.

Lemma validateCredentialClaims_true `{Platform} (env : LitAction.Env)
    (jwtPayload requirements : jsval) (userAddress : string) (b : bool) :
  LitAction.validateCredentialClaims env jwtPayload requirements userAddress = Ok b ->
  b = true.
Proof.
  unfold LitAction.validateCredentialClaims, bind.
  repeat (run_step; try discriminate); intro E; now injection E.
Qed.

Section ActionRuns.

Context `{Platform} `{Ethers}.

Lemma resolveDIDWeb_trace (env : LitAction.Env) (did : jsval) :
  Forall is_fetch (trace (LitAction.resolveDIDWeb env did)).
Proof.
  unfold LitAction.resolveDIDWeb, mbind, emit, lift, throw, trace.
  destruct did; cbn; try constructor.
  repeat (run_step; cbn); repeat constructor.
Qed.

Lemma verifyJWTWithEdDSA_trace (env : LitAction.Env) (jwt : string) (issuerDID : jsval) :
  Forall is_fetch (trace (LitAction.verifyJWTWithEdDSA env jwt issuerDID)).
Proof.
  unfold LitAction.verifyJWTWithEdDSA.
  pose proof (resolveDIDWeb_trace env issuerDID) as Hres.
  destruct (LitAction.resolveDIDWeb env issuerDID) as [r t].
  unfold mbind, emit, lift, throw, trace in *. cbn [snd] in Hres.
  repeat (run_step; cbn); rewrite ?app_nil_r; try constructor; try assumption.
Qed.

(** The Lit Action decrypts exactly when every check has passed: a run
    calls [Lit.Actions.decryptAndCombine], and then on the ciphertext of
    the parameters, if and only if the user token verified against the
    [userAddress] parameter, its purpose is the operation's, the
    requirement it carries has the JSON text of the operation's
    requirement, its audience is [lit-protocol-encryption], the credential
    token verified against the DID document of the required issuer, and
    the credential's claims were validated for the same [userAddress]. *)
Theorem action_decrypts_exactly_after_every_check (env : LitAction.Env)
    (p : LitAction.Params) (c h : jsval) :
  In (decryptAndCombine c h) (trace (LitAction.litActionCodeWithES256K env p)) <->
  c = LitAction.ciphertext p /\ h = LitAction.dataToEncryptHash p
  /\ exists es256kResult purpose jwtCredReqs aud issuer verificationResult,
    LitAction.verifyES256KJWT env (LitAction.userSignedJWT p) (LitAction.userAddress p)
    = Ok es256kResult
    /\ JsVal.get (LitAction.payload es256kResult) "purpose" = Ok purpose
    /\ JsVal.strict_eq purpose (LitAction.operationPurpose p) = true
    /\ JsVal.get (LitAction.payload es256kResult) "credential_requirements"
       = Ok jwtCredReqs
    /\ JsVal.strict_eq (LitAction.js_stringify jwtCredReqs)
         (LitAction.js_stringify (LitAction.credentialRequirements p)) = true
    /\ JsVal.get (LitAction.payload es256kResult) "aud" = Ok aud
    /\ JsVal.strict_eq aud (JStr "lit-protocol-encryption") = true
    /\ JsVal.get (LitAction.credentialRequirements p) "issuer" = Ok issuer
    /\ outcome (LitAction.verifyJWTWithEdDSA env (LitAction.credentialJWT p) issuer)
       = Ok verificationResult
    /\ LitAction.validateCredentialClaims env (LitAction.ed_payload verificationResult)
         (LitAction.credentialRequirements p) (LitAction.userAddress p) = Ok true.
Proof.
  unfold LitAction.litActionCodeWithES256K. split.
  - intro Hin.
    apply in_try_catch in Hin. destruct Hin as [Hin | [err [_ Hin]]].
    2:{ cbn in Hin. intuition discriminate. }
    unfold LitAction.main in Hin.
    run_inv Hin.
    { match type of Hin with
      | In _ (trace (LitAction.verifyJWTWithEdDSA ?e ?j ?i)) =>
          pose proof (verifyJWTWithEdDSA_trace e j i) as Ht
      end.
      rewrite Forall_forall in Ht. destruct (Ht _ Hin). }
    injection Hin as <- <-.
    repeat match goal with
           | Hc : negb _ = false |- _ => apply negb_false_iff in Hc
           | Hs : outcome (lift _) = Ok _ |- _ => apply outcome_lift in Hs
           | Hv : LitAction.validateCredentialClaims _ _ _ _ = Ok ?b |- _ =>
               is_var b; pose proof (validateCredentialClaims_true _ _ _ _ _ Hv); subst b
           end.
    split; [reflexivity | split; [reflexivity|]].
    do 6 eexists. repeat split; eassumption.
  - intros [-> [-> [es256kResult [purpose [jwtCredReqs [aud [issuer [verificationResult
      [Hverified [Hpurpose [Hsame [Hreqs [Htext [Haud [Hlit [Hissuer
      [Hcredential Hclaims]]]]]]]]]]]]]]]]].
    apply in_try_catch_left. unfold LitAction.main.
    apply (in_mbind_right _ _ tt); [reflexivity|].
    apply (in_mbind_right _ _ tt); [reflexivity|].
    eapply in_mbind_right; [exact Hverified|].
    eapply in_mbind_right; [exact Hpurpose|]. cbv beta. rewrite Hsame. cbn [negb].
    eapply in_mbind_right; [exact Hreqs|]. cbv beta. rewrite Htext. cbn [negb].
    eapply in_mbind_right; [exact Haud|]. cbv beta. rewrite Hlit. cbn [negb].
    apply (in_mbind_right _ _ tt); [reflexivity|].
    apply (in_mbind_right _ _ tt); [reflexivity|].
    eapply in_mbind_right; [exact Hissuer|].
    eapply in_mbind_right; [exact Hcredential|].
    apply (in_mbind_right _ _ tt); [reflexivity|].
    eapply in_mbind_right; [exact Hclaims|].
    apply (in_mbind_right _ _ tt); [reflexivity|].
    apply (in_mbind_right _ _ tt); [reflexivity|].
    apply in_mbind_left. now left.
Qed.

Lemma last_app_cons {A : Type} (l l' : list A) (x d : A) :
  last (l ++ x :: l')%list d = last (x :: l') d.
Proof.
  induction l as [|a l IH]; [reflexivity|].
  cbn [app]. rewrite <- IH. destruct (l ++ x :: l')%list eqn:E; [|reflexivity].
  destruct l; discriminate.
Qed.

Lemma fetches_hold_no_response (t : list Event) :
  Forall is_fetch t -> filter is_setResponse t = [].
Proof.
  induction 1 as [|e t He _ IH]; [reflexivity|].
  destruct e; try destruct He. exact IH.
Qed.

End ActionRuns.

Section ActionChecks.

Context `{Platform} `{Ethers}.

Lemma action_try_recover_sound (messageHash r s expectedAddress : string)
    (vs : list Z) :
  LitAction.try_recover messageHash r s expectedAddress vs = true ->
  exists v recovered,
    In v vs
    /\ recoverAddress messageHash {| sig_r := r; sig_s := s; sig_v := v |}
       = Ok recovered
    /\ JsString.toLowerCase recovered = JsString.toLowerCase expectedAddress.
Proof.
  induction vs as [|x vs IH]; [discriminate|]. cbn [LitAction.try_recover].
  destruct (recoverAddress messageHash _) as [recovered|] eqn:Erec.
  - destruct (String.eqb _ _) eqn:Elow.
    + intros _. exists x, recovered. apply String.eqb_eq in Elow.
      repeat split; [now left | assumption | assumption].
    + intro E. destruct (IH E) as [v [rec [Hin Hv]]].
      exists v, rec. split; [now right | exact Hv].
  - intro E. destruct (IH E) as [v [rec [Hin Hv]]].
    exists v, rec. split; [now right | exact Hv].
Qed.

(** What the Lit Action takes for a proof of the user's key.  When its
    verifier accepts a token for an expected address, the header names
    ES256K, the issuer is a [did:pkh:eip155:] DID equal to the subject
    whose last segment is the expected address, case apart, the token has
    not expired on the node's clock, and for [v] 27 or 28 the address
    recovered from the digest of [header.payload] and the 64-byte
    signature is the expected address, case apart. *)
Theorem action_accepts_only_the_signer (env : LitAction.Env)
    (jwt expectedAddress : string) (verified : LitAction.Verified) :
  LitAction.verifyES256KJWT env jwt expectedAddress = Ok verified ->
  exists encodedHeader encodedPayload encodedSignature more iss signerAddress exp
         rawSignature v recovered,
    JsString.split "." jwt
    = encodedHeader :: encodedPayload :: encodedSignature :: more
    /\ Jwt.decode_segment encodedHeader = Ok (LitAction.header verified)
    /\ Jwt.decode_segment encodedPayload = Ok (LitAction.payload verified)
    /\ LitAction.valid verified = true
    /\ JsVal.get (LitAction.header verified) "alg" = Ok (JStr "ES256K")
    /\ JsVal.get (LitAction.payload verified) "iss" = Ok (JStr iss)
    /\ JsVal.get (LitAction.payload verified) "sub" = Ok (JStr iss)
    /\ JsString.startsWith "did:pkh:eip155:" iss = true
    /\ JsString.pop (JsString.split ":" iss) = Some signerAddress
    /\ JsString.toLowerCase signerAddress = JsString.toLowerCase expectedAddress
    /\ JsVal.get (LitAction.payload verified) "exp" = Ok exp
    /\ js_lt exp (LitAction.Date_now env / 1000) = false
    /\ Jwt.base64urlDecode encodedSignature = Ok rawSignature
    /\ List.length rawSignature = 64%nat
    /\ (v = 27 \/ v = 28)
    /\ recoverAddress
         (keccak256 (toUtf8Bytes (encodedHeader ++ "." ++ encodedPayload)))
         {| sig_r := "0x" ++ Bytes.hex_of_bytes (Bytes.slice rawSignature 0 32);
            sig_s := "0x" ++ Bytes.hex_of_bytes (Bytes.slice rawSignature 32 64);
            sig_v := v |} = Ok recovered
    /\ JsString.toLowerCase recovered = JsString.toLowerCase expectedAddress.
Proof.
  unfold LitAction.verifyES256KJWT, Jwt.segment, Jwt.decode_segment.
  destruct (JsString.split "." jwt) as [|eh [|ep [|es more]]] eqn:Esplit;
    cbn [nth_error]; try discriminate; try (destruct eh; discriminate);
    try (destruct eh; [discriminate | destruct ep; discriminate]).
  destruct eh as [|h0 eh]; [discriminate|].
  destruct ep as [|p0 ep]; [discriminate|].
  destruct es as [|s0 es]; [discriminate|].
  set (encodedHeader := String h0 eh). set (encodedPayload := String p0 ep).
  set (encodedSignature := String s0 es).
  destruct (Jwt.base64urlDecode encodedHeader) as [headerBytes|] eqn:Ehb;
    [|discriminate].
  destruct (Jwt.base64urlDecode encodedPayload) as [payloadBytes|] eqn:Epb;
    [|discriminate].
  cbn [bind].
  destruct (JSON_parse (TextDecoder_decode headerBytes)) as [header|] eqn:Ehj;
    [|discriminate].
  destruct (JSON_parse (TextDecoder_decode payloadBytes)) as [payload|] eqn:Epj;
    [|discriminate].
  cbn [bind].
  destruct (JsVal.get header "alg") as [alg|] eqn:Ealg; [|discriminate]. cbn [bind].
  destruct (JsVal.strict_eq alg (JStr "ES256K")) eqn:Es256; [|discriminate].
  cbn [negb].
  destruct (JsVal.get payload "iss") as [issv|] eqn:Eiss; [|discriminate]. cbn [bind].
  destruct (Jwt.call_startsWith issv "did:pkh:eip155:") as [is_pkh|] eqn:Epkh;
    [|discriminate]. cbn [bind].
  destruct (JsVal.get payload "sub") as [sub|] eqn:Esub; [|discriminate]. cbn [bind].
  destruct is_pkh; [|discriminate]. cbn [negb orb].
  destruct (JsVal.strict_eq issv sub) eqn:Esame; [|discriminate]. cbn [negb].
  destruct issv as [| |b|n|iss|items|props]; try discriminate.
  cbn [Jwt.call_startsWith] in Epkh. injection Epkh as Epkh.
  destruct sub as [| |b|n|sub'|items|props]; try discriminate.
  cbn [JsVal.strict_eq] in Esame. apply String.eqb_eq in Esame. subst sub'.
  destruct alg as [| |b|n|alg'|items|props]; try discriminate.
  cbn [JsVal.strict_eq] in Es256. apply String.eqb_eq in Es256. subst alg'.
  cbn [Jwt.last_segment].
  destruct (JsString.pop (JsString.split ":" iss)) as [signer|] eqn:Epop;
    [|discriminate].
  destruct (String.eqb (JsString.toLowerCase signer) _) eqn:Esigner; [|discriminate].
  cbn [negb]. apply String.eqb_eq in Esigner.
  destruct (JsVal.get payload "exp") as [exp|] eqn:Eexp; [|discriminate]. cbn [bind].
  destruct (js_lt exp (LitAction.Date_now env / 1000)) eqn:Elt; [discriminate|].
  destruct (Jwt.base64urlDecode encodedSignature) as [raw|] eqn:Eraw; [|discriminate].
  cbn [bind].
  destruct (List.length raw =? 64)%nat eqn:Elen; [|discriminate]. cbn [negb].
  destruct (LitAction.try_recover _ _ _ _ _) eqn:Etry; [|discriminate]. cbn [negb].
  intro E. injection E as <-. cbn [LitAction.header LitAction.payload LitAction.valid].
  destruct (action_try_recover_sound _ _ _ _ _ Etry) as [v [recovered [Hin [Hrec Hlow]]]].
  exists encodedHeader, encodedPayload, encodedSignature, more, iss, signer, exp,
    raw, v, recovered.
  apply Nat.eqb_eq in Elen.
  repeat split; try assumption; try reflexivity.
  - now rewrite Ehb.
  - now rewrite Epb.
  - destruct Hin as [<- | [<- | []]]; [now left | now right].
Qed.

(** What the Lit Action takes for a verified credential.  When
    [verifyJWTWithEdDSA] returns, the header names EdDSA; the DID document
    of the issuer was resolved; the key taken from it, for the header's
    [kid] or else [<issuer>#controller], was imported; [crypto.subtle.verify]
    accepted the signature segment over the bytes of [header.payload]; and
    neither a truthy [exp] has elapsed nor a truthy [nbf] is still to come. *)
Theorem verifyJWTWithEdDSA_accepts_only_signed (env : LitAction.Env)
    (jwt : string) (issuerDID : jsval) (verified : LitAction.EdDSAVerified) :
  outcome (LitAction.verifyJWTWithEdDSA env jwt issuerDID) = Ok verified ->
  exists headerB64 payloadB64 signatureB64 more didDocument kid publicKeyJwk
         publicKey signature exp nbf iss,
    JsString.split "." jwt = headerB64 :: payloadB64 :: signatureB64 :: more
    /\ LitAction.decode_part headerB64 = Ok (LitAction.ed_header verified)
    /\ LitAction.decode_part payloadB64 = Ok (LitAction.ed_payload verified)
    /\ JsVal.get (LitAction.ed_header verified) "alg" = Ok (JStr "EdDSA")
    /\ outcome (LitAction.resolveDIDWeb env issuerDID) = Ok didDocument
    /\ JsVal.get (LitAction.ed_header verified) "kid" = Ok kid
    /\ LitAction.extractPublicKey didDocument
         (if JsVal.truthy kid then kid
          else JStr (JsVal.to_string issuerDID ++ "#controller")) = Ok publicKeyJwk
    /\ LitAction.crypto_subtle_importKey env publicKeyJwk = Ok publicKey
    /\ LitAction.base64UrlDecode signatureB64 = Ok signature
    /\ LitAction.crypto_subtle_verify env publicKey signature
         (TextEncoder_encode (headerB64 ++ "." ++ payloadB64)) = Ok true
    /\ JsVal.get (LitAction.ed_payload verified) "exp" = Ok exp
    /\ LitAction.elapsed exp (LitAction.Date_now env / 1000) = false
    /\ JsVal.get (LitAction.ed_payload verified) "nbf" = Ok nbf
    /\ LitAction.still_future nbf (LitAction.Date_now env / 1000) = false
    /\ JsVal.get (LitAction.ed_payload verified) "iss" = Ok iss
    /\ LitAction.ed_issuer verified = iss
    /\ LitAction.ed_valid verified = true.
Proof.
  unfold LitAction.verifyJWTWithEdDSA. intro Hok.
  ok_inv Hok.
  repeat match goal with
         | Hs : outcome (lift _) = Ok _ |- _ => unfold outcome, lift in Hs; cbn [fst] in Hs
         | Hc : negb _ = false |- _ => apply negb_false_iff in Hc
         end.
  unfold LitAction.required_segment in *.
  destruct (JsString.split "." jwt) as [|headerB64 [|payloadB64 [|signatureB64 more]]];
    cbn [nth_error] in *; try discriminate.
  repeat match goal with
         | Hs : Ok _ = Ok _ |- _ => injection Hs as Hs; subst
         end.
  unfold LitAction.verify_claims, bind in Hok.
  destruct (JsVal.get _ "exp") as [exp|] eqn:Eexp; [|discriminate].
  destruct (LitAction.elapsed exp _) eqn:Eelapsed; [discriminate|].
  destruct (JsVal.get _ "nbf") as [nbf|] eqn:Enbf; [|discriminate].
  destruct (LitAction.still_future nbf _) eqn:Efuture; [discriminate|].
  destruct (JsVal.get _ "iss") as [iss|] eqn:Eiss; [|discriminate].
  injection Hok as <-.
  cbn [LitAction.ed_header LitAction.ed_payload LitAction.ed_issuer LitAction.ed_valid].
  match goal with
  | Ha : JsVal.strict_eq ?alg (JStr "EdDSA") = true |- _ =>
      destruct alg; try discriminate Ha; cbn in Ha; apply String.eqb_eq in Ha; subst
  end.
  do 12 eexists. repeat split; try eassumption; reflexivity.
Qed.

(** What the Lit Action takes for a matching credential.  When
    [validateCredentialClaims] returns, it returns [true]; the payload has
    a credential whose types include the required one, the payload's
    issuer is the required issuer, the last segment of the subject
    identifier is the user address, case apart, and, when the requirement
    names handles, the handle of the evidence is one of them. *)
Theorem validateCredentialClaims_binds_the_user (env : LitAction.Env)
    (jwtPayload requirements : jsval) (userAddress : string) (answer : bool) :
  LitAction.validateCredentialClaims env jwtPayload requirements userAddress
  = Ok answer ->
  answer = true
  /\ exists vc types credentialType iss issuer credentialSubject id subjectAddress
            githubHandle,
       JsVal.get jwtPayload "vc" = Ok vc
       /\ JsVal.get vc "type" = Ok types
       /\ JsVal.get requirements "credentialType" = Ok credentialType
       /\ LitAction.types_include types credentialType = Ok true
       /\ JsVal.get jwtPayload "iss" = Ok iss
       /\ JsVal.get requirements "issuer" = Ok issuer
       /\ JsVal.strict_eq iss issuer = true
       /\ JsVal.get vc "credentialSubject" = Ok credentialSubject
       /\ JsVal.get credentialSubject "id" = Ok id
       /\ Jwt.last_segment id = Some subjectAddress
       /\ JsString.toLowerCase subjectAddress = JsString.toLowerCase userAddress
       /\ LitAction.claims_field requirements "githubHandle" = Ok githubHandle
       /\ (JsVal.truthy githubHandle = true ->
           exists evidence handle,
             JsVal.get vc "evidence" = Ok evidence
             /\ LitAction.evidence_handle evidence = Ok handle
             /\ JsVal.truthy handle = true
             /\ existsb (JsVal.strict_eq handle) (Utils.as_array githubHandle) = true).
Proof.
  intro Hok. split; [exact (validateCredentialClaims_true _ _ _ _ _ Hok)|].
  unfold LitAction.validateCredentialClaims in Hok.
  res_inv Hok.
  repeat match goal with
         | Hc : negb _ = false |- _ => apply negb_false_iff in Hc
         end.
  subst.
  match goal with
  | Hid : (if JsVal.truthy ?cs then _ else Ok JUndefined) = Ok ?id,
    Ht : JsVal.truthy ?id = true |- _ =>
      destruct (JsVal.truthy cs);
      [|injection Hid as Hid; rewrite <- Hid in Ht; discriminate Ht]
  end.
  match goal with
  | Hs : String.eqb (JsString.toLowerCase _) _ = true |- _ => apply String.eqb_eq in Hs
  end.
  do 9 eexists.
  repeat match goal with
         | |- _ /\ _ => split; [eassumption || reflexivity|]
         end.
  intro Hhandle.
  match goal with
  | Hh : (if JsVal.truthy ?g then _ else Ok tt) = Ok _ |- _ =>
      rewrite Hhandle in Hh; unfold bind in Hh
  end.
  destruct (JsVal.get _ "evidence") as [evidence|]; [|discriminate].
  destruct (LitAction.evidence_handle evidence) as [handle|] eqn:Ehandle;
    [|discriminate].
  destruct (negb (JsVal.truthy handle) || _) eqn:Ebad; [discriminate|].
  apply orb_false_iff in Ebad. destruct Ebad as [Et Ein].
  apply negb_false_iff in Et, Ein.
  exists evidence, handle. repeat split; assumption.
Qed.

End ActionChecks.

(** ** The two editions of the enhanced action *)

Lemma padding_cut_or_repeated (n : Z) :
  0 <= n ->
  substring 0 (Z.to_nat ((4 - n mod 4) mod 4)) "===="
  = Bytes.repeat_char "=" (Z.to_nat (n + (4 - n mod 4) mod 4 - n)).
Proof.
  intro Hn. replace (n + (4 - n mod 4) mod 4 - n) with ((4 - n mod 4) mod 4) by lia.
  assert (Hr : 0 <= n mod 4 < 4) by (apply Z.mod_pos_bound; lia).
  assert (Hc : n mod 4 = 0 \/ n mod 4 = 1 \/ n mod 4 = 2 \/ n mod 4 = 3) by lia.
  destruct Hc as [-> | [-> | [-> | ->]]]; reflexivity.
Qed.

Lemma es5_base64urlDecode_agrees (data : string) :
  LitActionES5.base64urlDecode data = Jwt.base64urlDecode data.
Proof.
  unfold LitActionES5.base64urlDecode, Jwt.base64urlDecode, Bytes.padEnd.
  rewrite padding_cut_or_repeated; [reflexivity|].
  unfold JsString.len. lia.
Qed.

Lemma string_app_assoc (a b c : string) : (a ++ b) ++ c = a ++ (b ++ c).
Proof. induction a as [|x a IH]; [reflexivity|]. cbn. now rewrite IH. Qed.

Lemma string_app_empty (a : string) : a ++ EmptyString = a.
Proof. induction a as [|x a IH]; [reflexivity|]. cbn. now rewrite IH. Qed.

Lemma skipn_nth_cons (l : list byte) (i : nat) :
  (i < List.length l)%nat -> skipn i l = nth i l x00 :: skipn (S i) l.
Proof.
  revert i. induction l as [|b l IH]; intros i Hi; [cbn in Hi; lia|].
  destruct i as [|i]; [reflexivity|]. cbn in Hi. cbn [skipn nth].
  rewrite (IH i) by lia. reflexivity.
Qed.

Lemma hex_loop_is_slice (raw : list byte) (n from : nat) (hex : string) :
  (from + n <= List.length raw)%nat ->
  fold_left (fun hex i => hex ++ Bytes.hex2 (nth i raw x00)) (seq from n) hex
  = hex ++ Bytes.hex_of_bytes (firstn n (skipn from raw)).
Proof.
  revert from hex. induction n as [|n IH]; intros from hex Hle.
  - cbn. now rewrite string_app_empty.
  - cbn [seq fold_left]. rewrite IH by lia.
    rewrite (skipn_nth_cons raw from) by lia.
    cbn [firstn Bytes.hex_of_bytes]. now rewrite string_app_assoc.
Qed.

Lemma hex_between_is_slice (raw : list byte) (from to : nat) :
  (from <= to <= List.length raw)%nat ->
  LitActionES5.hex_between raw from to = Bytes.hex_of_bytes (Bytes.slice raw from to).
Proof.
  intro Hle. unfold LitActionES5.hex_between, Bytes.slice.
  rewrite hex_loop_is_slice by lia. reflexivity.
Qed.

Section Editions.

Context `{Platform} `{Ethers}.

Lemma es5_verifyES256KJWT_agrees (env : LitAction.Env)
    (jwt expectedAddress : string) :
  LitActionES5.verifyES256KJWT env jwt expectedAddress
  = LitAction.verifyES256KJWT env jwt expectedAddress.
Proof.
  unfold LitActionES5.verifyES256KJWT, LitAction.verifyES256KJWT.
  destruct (Jwt.segment _ 0) as [encodedHeader|]; [|reflexivity].
  destruct (Jwt.segment _ 1) as [encodedPayload|]; [|reflexivity].
  destruct (Jwt.segment _ 2) as [encodedSignature|]; [|reflexivity].
  rewrite !es5_base64urlDecode_agrees.
  destruct (Jwt.base64urlDecode encodedHeader) as [headerBytes|]; [|reflexivity].
  destruct (Jwt.base64urlDecode encodedPayload) as [payloadBytes|]; [|reflexivity].
  cbn [bind].
  destruct (JSON_parse (TextDecoder_decode headerBytes)) as [header|]; [|reflexivity].
  destruct (JSON_parse (TextDecoder_decode payloadBytes)) as [payload|]; [|reflexivity].
  cbn [bind].
  destruct (JsVal.get header "alg") as [alg|]; [|reflexivity]. cbn [bind].
  destruct (negb (JsVal.strict_eq alg (JStr "ES256K"))); [reflexivity|].
  destruct (JsVal.get payload "iss") as [iss|]; [|reflexivity]. cbn [bind].
  destruct (Jwt.call_startsWith iss "did:pkh:eip155:") as [is_pkh|]; [|reflexivity].
  cbn [bind].
  destruct (JsVal.get payload "sub") as [sub|]; [|reflexivity]. cbn [bind].
  destruct (negb is_pkh || negb (JsVal.strict_eq iss sub)); [reflexivity|].
  destruct (Jwt.last_segment iss) as [signerAddress|]; [|reflexivity].
  destruct (negb (String.eqb _ _)); [reflexivity|].
  destruct (JsVal.get payload "exp") as [exp|]; [|reflexivity]. cbn [bind].
  destruct (js_lt exp _); [reflexivity|].
  destruct (Jwt.base64urlDecode encodedSignature) as [rawSignature|]; [|reflexivity].
  cbn [bind].
  destruct (List.length rawSignature =? 64)%nat eqn:Hlen; [|reflexivity].
  apply Nat.eqb_eq in Hlen. cbn [negb].
  rewrite !hex_between_is_slice by lia. reflexivity.
Qed.

(** The two editions verify the user's token alike: for every token and
    every expected address the verifier of the edition that is executed,
    with its padding cut from ["===="] and its loops over the signature
    bytes, returns or throws what the verifier of the first edition does. *)
Theorem editions_verify_the_user_token_alike (env : LitAction.Env)
    (jwt expectedAddress : string) :
  LitActionES5.verifyES256KJWT env jwt expectedAddress
  = LitAction.verifyES256KJWT env jwt expectedAddress.
Proof.
  apply es5_verifyES256KJWT_agrees.
Qed.

End Editions.

Lemma strict_eq_sym (a b : jsval) : JsVal.strict_eq a b = JsVal.strict_eq b a.
Proof.
  destruct a, b; cbn; try reflexivity.
  - now destruct b, b0.
  - apply Z.eqb_sym.
  - apply String.eqb_sym.
Qed.

Lemma existsb_strict_eq_sym (x : jsval) (items : list jsval) :
  existsb (fun t => JsVal.strict_eq t x) items = existsb (JsVal.strict_eq x) items.
Proof.
  induction items as [|t items IH]; [reflexivity|].
  cbn. now rewrite IH, strict_eq_sym.
Qed.

Lemma handle_loop_is_includes (handle : jsval) (requiredHandles : list jsval) :
  negb (JsVal.truthy handle
        && existsb (fun required => JsVal.strict_eq required handle) requiredHandles)
  = negb (JsVal.truthy handle)
    || negb (existsb (JsVal.strict_eq handle) requiredHandles).
Proof.
  rewrite existsb_strict_eq_sym. now destruct (JsVal.truthy handle), (existsb _ _).
Qed.

Lemma find_key_agrees (methods : list jsval) (keyId : jsval) :
  Forall controller_at_the_end methods ->
  LitActionES5.find_key methods keyId = LitAction.find_key methods keyId.
Proof.
  induction 1 as [|method methods [id [Hid Hsame]] _ IH]; [reflexivity|].
  cbn [LitActionES5.find_key LitAction.find_key]. rewrite Hid. cbn [bind].
  cbn [LitActionES5.call_indexOf LitAction.call_endsWith]. rewrite Hsame, IH.
  reflexivity.
Qed.

Section EditionsOnCredentials.

Context `{Platform} `{Ethers}.

(** The key of the issuer, in the two editions.  The edition that is
    executed takes a verification method whose [id] holds [#controller]
    anywhere, the first edition one whose [id] ends with it.  On a
    document without verification methods, or with an array of them whose
    ids are strings that hold [#controller] at the end or not at all, both
    return or throw the same; a leading method of the right type whose id
    holds [#controller] before its end, and is not the key id asked for,
    is the answer of the executed edition and is passed over by the
    first. *)
Theorem editions_choose_the_key (didDocument keyId vm : jsval) :
  JsVal.get didDocument "verificationMethod" = Ok vm ->
  (JsVal.truthy vm = false
   \/ (exists methods, vm = JArr methods /\ Forall controller_at_the_end methods) ->
   LitActionES5.extractPublicKey didDocument keyId
   = LitAction.extractPublicKey didDocument keyId)
  /\ (forall method rest id publicKeyJwk,
        vm = JArr (method :: rest) ->
        JsVal.get method "id" = Ok (JStr id) ->
        JsVal.strict_eq (JStr id) keyId = false ->
        JsString.includes "#controller" id = true ->
        JsString.endsWith "#controller" id = false ->
        JsVal.get method "type" = Ok (JStr "Ed25519VerificationKey2018") ->
        JsVal.get method "publicKeyJwk" = Ok publicKeyJwk ->
        JsVal.truthy publicKeyJwk = true ->
        LitActionES5.extractPublicKey didDocument keyId = Ok publicKeyJwk
        /\ LitAction.extractPublicKey didDocument keyId = LitAction.find_key rest keyId).
Proof.
  intro Hvm. unfold LitActionES5.extractPublicKey, LitAction.extractPublicKey.
  rewrite Hvm. cbn [bind]. split.
  - intros [Hfalsy | [methods [-> Hall]]].
    + rewrite Hfalsy. destruct vm as [| |b|n|s|items|props]; try discriminate Hfalsy;
        try reflexivity.
      destruct s; [reflexivity | discriminate Hfalsy].
    + cbn [JsVal.truthy LitActionES5.indexed]. now apply find_key_agrees.
  - intros method rest id publicKeyJwk -> Hid Hne Hin Hend Htype Hkey Htruthy.
    cbn [JsVal.truthy LitActionES5.indexed LitActionES5.find_key LitAction.find_key].
    rewrite Hid. cbn [bind]. rewrite Hne.
    cbn [LitActionES5.call_indexOf LitAction.call_endsWith bind].
    rewrite Hin, Hend, Htype, Hkey. cbn [bind]. rewrite Htruthy.
    split; reflexivity.
Qed.

End EditionsOnCredentials.

Lemma no_character_is_a_longer_text (x : string) (t : string) :
  String.length x <> 1%nat ->
  existsb (fun c => JsVal.strict_eq c (JStr x))
    (map (fun c => JStr (String c EmptyString)) (list_ascii_of_string t)) = false.
Proof.
  intro Hx. induction t as [|c t IH]; [reflexivity|].
  cbn [list_ascii_of_string map existsb JsVal.strict_eq]. rewrite IH, orb_false_r.
  apply String.eqb_neq. intros <-. now apply Hx.
Qed.

Lemma get_throws_TypeError (v : jsval) (k : string) (e : JsError) :
  JsVal.get v k = Throw e -> exists m, e = TypeError m.
Proof.
  destruct v; cbn; intro E; try discriminate E; injection E as <-; eauto.
Qed.

(** A function has thrown a given error: the step that threw it is looked
    for. *)
Ltac throw_inv :=
  repeat match goal with
         | Hg : Ok _ = Throw _ |- _ => discriminate Hg
         | Hg : Throw ?e = Throw _ |- _ =>
             first [discriminate Hg | is_var e; injection Hg as ->]
         | Hg : JsVal.get _ _ = Throw (Error _) |- _ =>
             destruct (get_throws_TypeError _ _ _ Hg) as [? Hm]; discriminate Hm
         | Hg : bind ?r _ = Throw _ |- _ => destruct r eqn:?; cbn [bind] in Hg
         | Hg : (if ?b then _ else _) = Throw _ |- _ => destruct b eqn:?
         | Hg : match ?x with Some _ => _ | None => _ end = Throw _ |- _ =>
             destruct x eqn:?
         end.

Section EditionsOnClaims.

Context `{Platform} `{Ethers}.

(** The claims of the credential, in the two editions.  Where the
    credential's [type] is an array, or is missing, both editions return
    or throw the same.  Where it is a string, the executed edition
    compares its characters one by one with the required type and so
    refuses every required type that is not a single character, by the
    error that the type was not found; the first edition looks for the
    required type inside the string, and gives another answer whenever it
    is there. *)
Theorem editions_read_the_credential_type (env : LitAction.Env)
    (jwtPayload requirements vc type : jsval) (userAddress : string) :
  JsVal.get jwtPayload "vc" = Ok vc ->
  JsVal.truthy vc = true ->
  JsVal.get vc "type" = Ok type ->
  (JsVal.truthy type = false \/ (exists items, type = JArr items) ->
   LitActionES5.validateCredentialClaims env jwtPayload requirements userAddress
   = LitAction.validateCredentialClaims env jwtPayload requirements userAddress)
  /\ (forall credentialTypes credentialType,
        type = JStr credentialTypes ->
        JsVal.get requirements "credentialType" = Ok (JStr credentialType) ->
        String.length credentialType <> 1%nat ->
        let not_found :=
          Throw (Error ("Required credential type " ++ credentialType ++ " not found")) in
        LitActionES5.validateCredentialClaims env jwtPayload requirements userAddress
        = not_found
        /\ (JsString.includes credentialType credentialTypes = true ->
            credentialTypes <> EmptyString ->
            LitAction.validateCredentialClaims env jwtPayload requirements userAddress
            <> not_found)).
Proof.
  intros Hvc Htruthy Htype.
  unfold LitActionES5.validateCredentialClaims, LitAction.validateCredentialClaims.
  rewrite Hvc. cbn [bind]. rewrite Htruthy. cbn [negb]. rewrite Htype. cbn [bind].
  split.
  - intro Hshape.
    destruct (JsVal.get requirements "credentialType") as [credentialType|];
      [|reflexivity].
    cbn [bind].
    assert (Hsame :
              LitAction.types_include type credentialType
              = Ok (existsb (fun t => JsVal.strict_eq t credentialType)
                      (LitActionES5.indexed (if JsVal.truthy type then type else JArr [])))).
    { destruct Hshape as [Hfalsy | [items ->]].
      - rewrite Hfalsy. unfold LitAction.types_include.
        destruct type as [| |b|n|s|items|props]; try discriminate Hfalsy;
          try (now rewrite Hfalsy).
        destruct s; [reflexivity | discriminate Hfalsy].
      - cbn. now rewrite existsb_strict_eq_sym. }
    rewrite Hsame. cbn [bind].
    destruct (negb (existsb _ _)); [reflexivity|].
    destruct (JsVal.get jwtPayload "iss") as [iss|]; [|reflexivity]. cbn [bind].
    destruct (JsVal.get requirements "issuer") as [issuer|]; [|reflexivity]. cbn [bind].
    destruct (negb (JsVal.strict_eq iss issuer)); [reflexivity|].
    destruct (JsVal.get vc "credentialSubject") as [credentialSubject|]; [|reflexivity].
    cbn [bind].
    destruct (if JsVal.truthy credentialSubject then _ else _) as [subject_id|];
      [|reflexivity].
    cbn [bind].
    destruct (negb (JsVal.truthy subject_id)); [reflexivity|].
    destruct (Jwt.last_segment subject_id) as [subjectAddress|]; [|reflexivity].
    destruct (negb (String.eqb _ _)); [reflexivity|].
    destruct (LitAction.claims_field requirements "githubHandle") as [githubHandle|];
      [|reflexivity].
    cbn [bind].
    destruct (JsVal.truthy githubHandle); [|reflexivity].
    destruct (JsVal.get vc "evidence") as [evidence|]; [|reflexivity]. cbn [bind].
    destruct (LitAction.evidence_handle evidence) as [handle|]; [|reflexivity].
    cbn [bind]. rewrite handle_loop_is_includes. reflexivity.
  - intros credentialTypes credentialType -> Hreq Hlen. cbv zeta.
    rewrite Hreq. cbn [bind]. split.
    + assert (Hnone :
                existsb (fun t => JsVal.strict_eq t (JStr credentialType))
                  (LitActionES5.indexed
                     (if JsVal.truthy (JStr credentialTypes) then JStr credentialTypes
                      else JArr [])) = false).
      { destruct (JsVal.truthy (JStr credentialTypes)); [|reflexivity].
        now apply no_character_is_a_longer_text. }
      rewrite Hnone. reflexivity.
    + intros Hinside Hnonempty.
      destruct credentialTypes as [|c s]; [now elim Hnonempty|].
      cbn [LitAction.types_include JsVal.to_string bind]. rewrite Hinside. cbn [negb].
      intro E. unfold LitAction.claims_field, LitAction.evidence_handle in E.
      throw_inv.
Qed.

End EditionsOnClaims.

Section ExecutedAction.

Context `{Platform} `{Ethers}.

Lemma es5_resolveDIDWeb_trace (env : LitAction.Env) (did : jsval) :
  Forall is_fetch (trace (LitActionES5.resolveDIDWeb env did)).
Proof.
  unfold LitActionES5.resolveDIDWeb, mbind, emit, lift, throw, trace.
  destruct did; cbn; try constructor.
  repeat (run_step; cbn); repeat constructor.
Qed.

Lemma es5_verifyJWTWithEdDSA_trace (env : LitAction.Env) (jwt : string)
    (issuerDID : jsval) :
  Forall is_fetch (trace (LitActionES5.verifyJWTWithEdDSA env jwt issuerDID)).
Proof.
  unfold LitActionES5.verifyJWTWithEdDSA.
  pose proof (es5_resolveDIDWeb_trace env issuerDID) as Hres.
  destruct (LitActionES5.resolveDIDWeb env issuerDID) as [r t].
  unfold mbind, emit, lift, throw, trace in *. cbn [snd] in Hres.
  repeat (run_step; cbn); rewrite ?app_nil_r; try constructor; try assumption.
Qed.

Lemma es5_validateCredentialClaims_true (env : LitAction.Env)
    (jwtPayload requirements : jsval) (userAddress : string) (answer : bool) :
  LitActionES5.validateCredentialClaims env jwtPayload requirements userAddress
  = Ok answer ->
  answer = true.
Proof.
  unfold LitActionES5.validateCredentialClaims, bind.
  repeat (run_step; try discriminate); intro E; now injection E.
Qed.

(** The action that is executed decrypts exactly when every check has
    passed: a run of [litActionCode] calls [Lit.Actions.decryptAndCombine],
    and then on the ciphertext of the parameters, if and only if the user
    token verified against the [userAddress] parameter, its purpose is the
    operation's, the requirement it carries has the JSON text of the
    operation's requirement, its audience is [lit-protocol-encryption],
    the credential token verified against the DID document of the required
    issuer, and the credential's claims were validated for the same
    [userAddress]. *)
Theorem executed_action_decrypts_exactly_after_every_check (env : LitAction.Env)
    (p : LitAction.Params) (c h : jsval) :
  In (decryptAndCombine c h) (trace (LitActionES5.litActionCode env p)) <->
  c = LitAction.ciphertext p /\ h = LitAction.dataToEncryptHash p
  /\ exists es256kResult purpose jwtCredReqs aud issuer verificationResult,
    LitActionES5.verifyES256KJWT env (LitAction.userSignedJWT p) (LitAction.userAddress p)
    = Ok es256kResult
    /\ JsVal.get (LitAction.payload es256kResult) "purpose" = Ok purpose
    /\ JsVal.strict_eq purpose (LitAction.operationPurpose p) = true
    /\ JsVal.get (LitAction.payload es256kResult) "credential_requirements"
       = Ok jwtCredReqs
    /\ JsVal.strict_eq (LitAction.js_stringify jwtCredReqs)
         (LitAction.js_stringify (LitAction.credentialRequirements p)) = true
    /\ JsVal.get (LitAction.payload es256kResult) "aud" = Ok aud
    /\ JsVal.strict_eq aud (JStr "lit-protocol-encryption") = true
    /\ JsVal.get (LitAction.credentialRequirements p) "issuer" = Ok issuer
    /\ outcome (LitActionES5.verifyJWTWithEdDSA env (LitAction.credentialJWT p) issuer)
       = Ok verificationResult
    /\ LitActionES5.validateCredentialClaims env
         (LitAction.ed_payload verificationResult)
         (LitAction.credentialRequirements p) (LitAction.userAddress p) = Ok true.
Proof.
  unfold LitActionES5.litActionCode. split.
  - intro Hin.
    apply in_try_catch in Hin. destruct Hin as [Hin | [err [_ Hin]]].
    2:{ cbn in Hin. intuition discriminate. }
    unfold LitActionES5.main in Hin.
    run_inv Hin.
    { match type of Hin with
      | In _ (trace (LitActionES5.verifyJWTWithEdDSA ?e ?j ?i)) =>
          pose proof (es5_verifyJWTWithEdDSA_trace e j i) as Ht
      end.
      rewrite Forall_forall in Ht. destruct (Ht _ Hin). }
    injection Hin as <- <-.
    repeat match goal with
           | Hc : negb _ = false |- _ => apply negb_false_iff in Hc
           | Hs : outcome (lift _) = Ok _ |- _ => apply outcome_lift in Hs
           | Hv : LitActionES5.validateCredentialClaims _ _ _ _ = Ok ?b |- _ =>
               is_var b; pose proof (es5_validateCredentialClaims_true _ _ _ _ _ Hv);
               subst b
           end.
    split; [reflexivity | split; [reflexivity|]].
    do 6 eexists. repeat split; eassumption.
  - intros [-> [-> [es256kResult [purpose [jwtCredReqs [aud [issuer [verificationResult
      [Hverified [Hpurpose [Hsame [Hreqs [Htext [Haud [Hlit [Hissuer
      [Hcredential Hclaims]]]]]]]]]]]]]]]]].
    apply in_try_catch_left. unfold LitActionES5.main.
    apply (in_mbind_right _ _ tt); [reflexivity|].
    apply (in_mbind_right _ _ tt); [reflexivity|].
    eapply in_mbind_right; [exact Hverified|].
    eapply in_mbind_right; [exact Hpurpose|]. cbv beta. rewrite Hsame. cbn [negb].
    eapply in_mbind_right; [exact Hreqs|]. cbv beta. rewrite Htext. cbn [negb].
    eapply in_mbind_right; [exact Haud|]. cbv beta. rewrite Hlit. cbn [negb].
    apply (in_mbind_right _ _ tt); [reflexivity|].
    apply (in_mbind_right _ _ tt); [reflexivity|].
    eapply in_mbind_right; [exact Hissuer|].
    eapply in_mbind_right; [exact Hcredential|].
    apply (in_mbind_right _ _ tt); [reflexivity|].
    eapply in_mbind_right; [exact Hclaims|].
    apply (in_mbind_right _ _ tt); [reflexivity|].
    apply (in_mbind_right _ _ tt); [reflexivity|].
    apply in_mbind_left. now left.
Qed.

End ExecutedAction.

Section Answers.

Context `{Platform} `{Ethers}.

(** The Lit Action always answers, and answers once.  Every run of either
    edition of the dual-factor action returns normally and calls
    [Lit.Actions.setResponse] exactly once, as its last step; and an answer
    with [success: true] is given only in a run that called
    [Lit.Actions.decryptAndCombine]. *)
Theorem action_answers_exactly_once (env : LitAction.Env) (p : LitAction.Params) :
  answers_exactly_once (LitAction.litActionCodeWithES256K env p) p
  /\ answers_exactly_once (LitActionES5.litActionCode env p) p.
Proof.
  split.
  - unfold answers_exactly_once, LitAction.litActionCodeWithES256K, LitAction.main.
    unfold try_catch, mbind, lift, emit, throw, ret, outcome, trace.
    repeat (first
      [ run_step
      | match goal with
        | |- context [LitAction.verifyJWTWithEdDSA ?e ?j ?i] =>
            let Ht := fresh "Ht" in
            pose proof (fetches_hold_no_response _ (verifyJWTWithEdDSA_trace e j i)) as Ht;
            destruct (LitAction.verifyJWTWithEdDSA e j i) as [[?|?] ?];
            unfold trace in Ht; cbn [snd] in Ht
        end ];
      cbn -[LitAction.verifyJWTWithEdDSA last filter]).
    all: split; [reflexivity|]; eexists.
    all: repeat rewrite app_comm_cons.
    all: rewrite ?filter_app, ?last_app_cons.
    all: cbn [filter is_setResponse app last]; rewrite ?Ht.
    all: split; [reflexivity | split; [reflexivity|]].
    all: try (intro Hs; discriminate Hs).
    all: intros _; cbn;
      repeat match goal with
             | |- _ \/ _ => first [left; reflexivity | right]
             | |- In _ (_ ++ _) => apply in_or_app; right; cbn
             end.
  - unfold answers_exactly_once, LitActionES5.litActionCode, LitActionES5.main.
    unfold try_catch, mbind, lift, emit, throw, ret, outcome, trace.
    repeat (first
      [ run_step
      | match goal with
        | |- context [LitActionES5.verifyJWTWithEdDSA ?e ?j ?i] =>
            let Ht := fresh "Ht" in
            pose proof (fetches_hold_no_response _ (es5_verifyJWTWithEdDSA_trace e j i))
              as Ht;
            destruct (LitActionES5.verifyJWTWithEdDSA e j i) as [[?|?] ?];
            unfold trace in Ht; cbn [snd] in Ht
        end ];
      cbn -[LitActionES5.verifyJWTWithEdDSA last filter]).
    all: split; [reflexivity|]; eexists.
    all: repeat rewrite app_comm_cons.
    all: rewrite ?filter_app, ?last_app_cons.
    all: cbn [filter is_setResponse app last]; rewrite ?Ht.
    all: split; [reflexivity | split; [reflexivity|]].
    all: try (intro Hs; discriminate Hs).
    all: intros _; cbn;
      repeat match goal with
             | |- _ \/ _ => first [left; reflexivity | right]
             | |- In _ (_ ++ _) => apply in_or_app; right; cbn
             end.
Qed.

End Answers.

Section CallerToAction.

Context `{Platform} `{Ethers}.

Lemma decode_text (v : jsval) :
  json_round_trips v ->
  Jwt.base64urlDecode (Jwt.base64urlEncode (JSON_stringify v))
  = Ok (TextEncoder_encode (JSON_stringify v))
  /\ JSON_parse (TextDecoder_decode (TextEncoder_encode (JSON_stringify v))) = Ok v.
Proof.
  intros [_ Hparse]. split; [apply base64url_round_trip | exact Hparse].
Qed.

Lemma action_try_recover_finds (w : Wallet) (digest : string)
    (rBytes sBytes : list byte) (recovered : string) (parity : Z) :
  (parity = 0 \/ parity = 1) ->
  recoverAddress digest
    {| sig_r := "0x" ++ Bytes.hex_of_bytes rBytes;
       sig_s := "0x" ++ Bytes.hex_of_bytes sBytes;
       sig_v := parity + 27 |} = Ok recovered ->
  JsString.toLowerCase recovered = JsString.toLowerCase (address w) ->
  LitAction.try_recover digest ("0x" ++ Bytes.hex_of_bytes rBytes)
    ("0x" ++ Bytes.hex_of_bytes sBytes) (address w) [27; 28] = true.
Proof.
  intros Hpar Hrec Hlow.
  assert (Hmatch : String.eqb (JsString.toLowerCase recovered)
                              (JsString.toLowerCase (address w)) = true)
    by now apply String.eqb_eq.
  destruct Hpar as [-> | ->]; cbn [LitAction.try_recover];
    change (0 + 27) with 27 in Hrec; change (1 + 27) with 28 in Hrec.
  - now rewrite Hrec, Hmatch.
  - destruct (recoverAddress digest
                {| sig_r := "0x" ++ Bytes.hex_of_bytes rBytes;
                   sig_s := "0x" ++ Bytes.hex_of_bytes sBytes;
                   sig_v := 27 |}) as [first|].
    + destruct (String.eqb (JsString.toLowerCase first) _); [reflexivity|].
      now rewrite Hrec, Hmatch.
    + now rewrite Hrec, Hmatch.
Qed.

(** The verifier of the Lit Action on a token the signer returned. *)
Lemma action_verifies_signed_token (env : LitAction.Env) (Date_now : Z)
    (random : list byte) (w : Wallet) (p : list (string * jsval))
    (expirationMinutes : Z) :
  let header := Jwt.jwt_header (user_did w) in
  let payload :=
    Jwt.completePayload p (user_did w) (Date_now / 1000) expirationMinutes
      (Jwt.generateNonce random) in
  wallet_address_ok w ->
  json_round_trips header ->
  json_round_trips payload ->
  signature_recovers w (keccak256 (toUtf8Bytes (signing_input header payload))) ->
  LitAction.Date_now env / 1000 <= Date_now / 1000 + expirationMinutes * 60 ->
  exists token,
    Jwt.signES256KJWT Date_now random w p expirationMinutes = Ok token
    /\ LitAction.verifyES256KJWT env token (address w)
       = Ok {| LitAction.header := header; LitAction.payload := payload;
               LitAction.valid := true |}.
Proof.
  intros header payload [Hisaddr [Hget Hhex]] Hh Hp Hsig Hlater.
  destruct Hsig as [rBytes [sBytes [recovered [parity
    [Hr [Hrl [Hs [Hsl [Hpar [Hrec Hlow]]]]]]]]]].
  destruct (hex40_shape _ Hhex) as [[c0 [a0 Eaddr]] Hfree].
  set (eh := Jwt.base64urlEncode (JSON_stringify header)) in *.
  set (ep := Jwt.base64urlEncode (JSON_stringify payload)) in *.
  set (es := Jwt.base64urlEncode_bytes (rBytes ++ sBytes)).
  exists (signing_input header payload ++ "." ++ es).
  assert (Hl : forall k v,
             JsVal.lookup k (match payload with JObj l => l | _ => [] end) = v ->
             JsVal.get payload k = Ok v) by (intros k v <-; reflexivity).
  split.
  - unfold Jwt.signES256KJWT, Did.createDIDPKH. rewrite Hisaddr, Hget.
    cbn [negb bind].
    change ("did:pkh:eip155:" ++ JsVal.num_to_string 1 ++ ":" ++ address w)
      with (user_did w).
    fold header. fold payload. fold eh. fold ep.
    change (eh ++ "." ++ ep) with (signing_input header payload).
    rewrite Hr, Hs. cbn [bind].
    pose proof (packed_signature rBytes sBytes Hrl Hsl) as Hpack.
    cbn [bind] in Hpack.
    destruct (Bytes.set (Bytes.new_Uint8Array 64) rBytes 0) as [raw|e];
      [cbn [bind] in *|discriminate].
    rewrite Hpack. reflexivity.
  - unfold LitAction.verifyES256KJWT, signing_input.
    rewrite token_segments. subst eh ep es.
    rewrite signed_token_parts.
    rewrite (segment_encoded header _ 0%nat Hh).
    change (Jwt.segment (?a :: ?l) 1) with (Jwt.segment l 0).
    rewrite (segment_encoded payload _ 0%nat Hp).
    change (Jwt.segment (?a :: ?b :: ?l) 2) with (Jwt.segment l 0).
    set (eh := Jwt.base64urlEncode (JSON_stringify header)) in *.
    set (ep := Jwt.base64urlEncode (JSON_stringify payload)) in *.
    set (es := Jwt.base64urlEncode_bytes (rBytes ++ sBytes)).
    assert (Hes : Jwt.segment [es] 0 = Some es).
    { unfold Jwt.segment. cbn [nth_error].
      destruct (encoded_nonempty (rBytes ++ sBytes)) as [c [s E]].
      - destruct rBytes; [discriminate | discriminate].
      - fold es in E. now rewrite E. }
    rewrite Hes.
    destruct (decode_text header Hh) as [Dh Ph].
    destruct (decode_text payload Hp) as [Dp Pp].
    fold eh in Dh. fold ep in Dp. rewrite Dh, Dp. cbn [bind]. rewrite Ph, Pp.
    cbn [bind]. unfold header at 1.
    cbn [JsVal.get Jwt.jwt_header JsVal.lookup String.eqb Ascii.eqb Bool.eqb andb].
    cbn [bind JsVal.strict_eq String.eqb Ascii.eqb Bool.eqb andb negb].
    rewrite (Hl "iss" (JStr (user_did w)))
      by (cbn; rewrite !lookup_obj_set_other by discriminate; apply lookup_obj_set_same).
    cbn [bind Jwt.call_startsWith].
    change (JsString.startsWith "did:pkh:eip155:" (user_did w)) with true.
    rewrite (Hl "sub" (JStr (user_did w)))
      by (cbn; rewrite !lookup_obj_set_other by discriminate; apply lookup_obj_set_same).
    cbn [bind JsVal.strict_eq negb orb]. rewrite String.eqb_refl. cbn [negb].
    unfold Jwt.last_segment.
    change (user_did w) with ("did:pkh:eip155:1" ++ String ":" (address w)) at 1.
    rewrite (pop_split_append ":" _ _ Hfree). rewrite String.eqb_refl. cbn [negb].
    rewrite (Hl "exp" (JNum (Date_now / 1000 + expirationMinutes * 60)))
      by (cbn; rewrite !lookup_obj_set_other by discriminate; apply lookup_obj_set_same).
    cbn [bind]. unfold js_lt, to_number.
    rewrite (proj2 (Z.ltb_ge _ _) Hlater).
    unfold es. rewrite base64url_round_trip. cbn [bind].
    rewrite length_app, Hrl, Hsl. cbn [Nat.add Nat.eqb negb].
    destruct (slice_packed rBytes sBytes Hrl Hsl) as [E1 E2]. rewrite E1, E2.
    change (eh ++ "." ++ ep) with (signing_input header payload).
    now rewrite (action_try_recover_finds w _ rBytes sBytes recovered parity
                   Hpar Hrec Hlow).
Qed.

(** The caller and the Lit Action fit together.  The decryption token the
    wallet-based decryption signs, handed to the action it executes among
    the parameters as that function builds them, passes the action's
    checks of the user's token: the signature, the purpose "decrypt", the
    requirement and the audience; this holds while the node's clock has not
    passed the token's five minutes, given the contracts of JSON and of
    the signing key. *)
Theorem decryption_token_passes_the_action (env : LitAction.Env) (Date_now : Z)
    (random : list byte) (w : Wallet) (encryptedData : EncryptedData)
    (credentialJWT : string) :
  let requirements := credentialRequirements encryptedData in
  let header := Jwt.jwt_header (user_did w) in
  let payload :=
    Jwt.completePayload (Jwt.purpose_payload "decrypt" requirements) (user_did w)
      (Date_now / 1000) 5 (Jwt.generateNonce random) in
  wallet_address_ok w ->
  json_round_trips header ->
  json_round_trips payload ->
  signature_recovers w (keccak256 (toUtf8Bytes (signing_input header payload))) ->
  LitAction.Date_now env / 1000 <= Date_now / 1000 + 5 * 60 ->
  exists decryptionJWT p,
    Jwt.createDecryptionJWT Date_now random w requirements = Ok decryptionJWT
    /\ globals_of_jsParams
         (WalletBased.jsParams encryptedData credentialJWT (address w) decryptionJWT)
       = Some p
    /\ LitActionES5.verifyES256KJWT env (LitAction.userSignedJWT p)
         (LitAction.userAddress p)
       = Ok {| LitAction.header := header; LitAction.payload := payload;
               LitAction.valid := true |}
    /\ In user_token_accepted (trace (LitActionES5.litActionCode env p)).
Proof.
  intros requirements header payload Hw Hh Hp Hsig Hlater.
  destruct (action_verifies_signed_token env Date_now random w
              (Jwt.purpose_payload "decrypt" requirements) 5 Hw Hh Hp Hsig Hlater)
    as [token [Hsign Hverify]].
  fold header in Hverify. fold payload in Hverify.
  rewrite <- es5_verifyES256KJWT_agrees in Hverify.
  exists token. eexists. split; [exact Hsign | split; [reflexivity | split]].
  - exact Hverify.
  - cbn [LitAction.userSignedJWT LitAction.userAddress] in *.
    unfold LitActionES5.litActionCode. apply in_try_catch_left.
    unfold LitActionES5.main.
    apply (in_mbind_right _ _ tt); [reflexivity|].
    apply (in_mbind_right _ _ tt); [reflexivity|].
    cbn [LitAction.userSignedJWT LitAction.userAddress].
    eapply in_mbind_right; [exact Hverify|]. cbn [LitAction.payload].
    assert (Hl : forall k v,
               JsVal.lookup k (match payload with JObj l => l | _ => [] end) = v ->
               JsVal.get payload k = Ok v) by (intros k v <-; reflexivity).
    eapply in_mbind_right;
      [apply (Hl "purpose" (JStr "decrypt")); reflexivity|].
    cbn [LitAction.operationPurpose JsVal.lookup String.eqb Ascii.eqb Bool.eqb andb
         JsVal.strict_eq negb].
    eapply in_mbind_right;
      [apply (Hl "credential_requirements" (Utils.requirements_to_js requirements));
       reflexivity|].
    cbn [LitAction.credentialRequirements JsVal.lookup String.eqb Ascii.eqb Bool.eqb
         andb].
    fold requirements.
    change (LitAction.js_stringify (Utils.requirements_to_js requirements))
      with (JStr (JSON_stringify (Utils.requirements_to_js requirements))).
    cbn [JsVal.strict_eq]. rewrite String.eqb_refl. cbn [negb].
    eapply in_mbind_right;
      [apply (Hl "aud" (JStr "lit-protocol-encryption")); reflexivity|].
    cbn [JsVal.strict_eq String.eqb Ascii.eqb Bool.eqb andb negb].
    apply in_mbind_left. now left.
Qed.

End CallerToAction.

(** ** Runs of the encryption *)

Section EncryptionRuns.

Context `{Platform} `{Ethers}.

(** The encryption begins with the requirement: when
    [validateGithubCredentialRequirements] refuses it, for an untrusted
    issuer, another credential type or a bad handle, the run throws that
    error and has done nothing but log: no token is signed and the Lit
    network is not contacted. *)
Theorem encrypt_stops_at_a_refused_requirement (rt : Utils.Runtime)
    (net : WalletBased.LitNetwork) (lit : Encryption.LitEncryption) (Date_now : Z)
    (random : list byte) (secret : string)
    (credentialRequirements : Utils.CredentialRequirements) (userWallet : Wallet)
    (error : JsError) :
  Utils.validateGithubCredentialRequirements rt credentialRequirements = Throw error ->
  Encryption.encryptToCredentialWithJWT rt net lit Date_now random secret
    credentialRequirements userWallet
  = (Throw error,
     [console_log "Validating credential requirements...";
      console_error (error_message error)]).
Proof.
  intro Hrefused. unfold Encryption.encryptToCredentialWithJWT.
  rewrite Hrefused. reflexivity.
Qed.

(** The bundle of an encryption that returns: the requirement was
    accepted; the bundle carries it, the wallet's address, the encryption
    token signed by the wallet, the ciphertext and hash that
    [encryptString] answered for the secret under the universal access
    control condition, and the resource string of that hash. *)
Theorem encrypt_returns_the_wallets_bundle (rt : Utils.Runtime)
    (net : WalletBased.LitNetwork) (lit : Encryption.LitEncryption) (Date_now : Z)
    (random : list byte) (secret : string)
    (requirements : Utils.CredentialRequirements) (userWallet : Wallet)
    (bundle : EncryptedData) :
  outcome (Encryption.encryptToCredentialWithJWT rt net lit Date_now random secret
             requirements userWallet) = Ok bundle ->
  Utils.validateGithubCredentialRequirements rt requirements = Ok tt
  /\ Jwt.createEncryptionJWT Date_now random userWallet requirements
     = Ok (userSignedJWT bundle)
  /\ userAddress bundle = address userWallet
  /\ credentialRequirements bundle = requirements
  /\ accessControlConditions bundle = Encryption.universalAccessControlConditions
  /\ Encryption.encryptString lit Encryption.universalAccessControlConditions secret
     = Ok (ciphertext bundle, dataToEncryptHash bundle)
  /\ Encryption.generateResourceString lit Encryption.universalAccessControlConditions
       (dataToEncryptHash bundle) = Ok (accsResourceString bundle)
  /\ metadata bundle = None.
Proof.
  unfold Encryption.encryptToCredentialWithJWT. intro Hok.
  apply outcome_try_finally_ok, outcome_rethrow_ok in Hok.
  ok_inv Hok.
  injection Hok as <-. cbn.
  repeat match goal with
         | Hs : outcome (lift _) = Ok _ |- _ => unfold outcome, lift in Hs; cbn [fst] in Hs
         | u : unit |- _ => destruct u
         end.
  match goal with
  | He : Encryption.encryptString _ _ _ = Ok ?pair |- _ => destruct pair
  end.
  repeat split; assumption.
Qed.

Lemma encrypt_bundle_facts (rt : Utils.Runtime)
    (net : WalletBased.LitNetwork) (lit : Encryption.LitEncryption) (Date_now : Z)
    (random : list byte) (secret : string)
    (requirements : Utils.CredentialRequirements) (userWallet : Wallet)
    (bundle : EncryptedData) :
  outcome (Encryption.encryptToCredentialWithJWT rt net lit Date_now random secret
             requirements userWallet) = Ok bundle ->
  Jwt.createEncryptionJWT Date_now random userWallet requirements
  = Ok (userSignedJWT bundle)
  /\ userAddress bundle = address userWallet.
Proof.
  unfold Encryption.encryptToCredentialWithJWT. intro Hok.
  apply outcome_try_finally_ok, outcome_rethrow_ok in Hok.
  ok_inv Hok. injection Hok as <-. cbn.
  repeat match goal with
         | Hs : outcome (lift _) = Ok _ |- _ => unfold outcome, lift in Hs; cbn [fst] in Hs
         end.
  split; [assumption | reflexivity].
Qed.

(** An encryption and the decryption that follows it.  The bundle an
    encryption returned passes the two owner checks of the decryption
    exactly for a wallet with the address of the wallet that encrypted,
    case apart: for that wallet the run goes on to sign a decryption
    token, and for any other it signs none.  This is given the contract of
    JSON for the encryption token. *)
Theorem own_bundle_passes_the_owner_checks (rt : Utils.Runtime)
    (net : WalletBased.LitNetwork) (lit : Encryption.LitEncryption)
    (Date_now Date_later : Z) (random random' : list byte) (secret : string)
    (requirements : Utils.CredentialRequirements) (encryptor decryptor : Wallet)
    (userCredentials : option (list Utils.ParsedCredential))
    (bundle : EncryptedData) :
  let header := Jwt.jwt_header (user_did encryptor) in
  let payload :=
    Jwt.completePayload (Jwt.purpose_payload "encrypt" requirements)
      (user_did encryptor) (Date_now / 1000) 5 (Jwt.generateNonce random) in
  wallet_address_ok encryptor -> json_round_trips header -> json_round_trips payload ->
  outcome (Encryption.encryptToCredentialWithJWT rt net lit Date_now random secret
             requirements encryptor) = Ok bundle ->
  In (mint_token "decrypt" (address decryptor))
     (trace (WalletBased.decryptFromCredentialsWithJWT rt net Date_later random'
               bundle decryptor userCredentials))
  <-> JsString.toLowerCase (address decryptor)
      = JsString.toLowerCase (address encryptor).
Proof.
  intros header payload Hw Hh Hp Hok.
  destruct (encrypt_bundle_facts _ _ _ _ _ _ _ _ _ Hok) as [Htoken Haddr].
  unfold Jwt.createEncryptionJWT in Htoken.
  destruct (signed_token_shape _ _ _ _ _ _ Hw Htoken) as [raw [Hraw Eshape]].
  fold header in Eshape. fold payload in Eshape.
  assert (Hvalid : forall a,
            Jwt.validateJWTUserAddress (userSignedJWT bundle) a
            = String.eqb (JsString.toLowerCase (address encryptor))
                         (JsString.toLowerCase a)).
  { intro a. rewrite Eshape.
    unfold Jwt.validateJWTUserAddress, Jwt.parseJWT. rewrite signed_token_parts.
    rewrite (segment_encoded header _ 0%nat Hh).
    change (Jwt.segment (?x :: ?l) 1) with (Jwt.segment l 0).
    rewrite (segment_encoded payload _ 0%nat Hp).
    rewrite (decode_encoded header Hh), (decode_encoded payload Hp). cbn [bind].
    assert (Hiss : JsVal.get payload "iss" = Ok (JStr (user_did encryptor)))
      by reflexivity.
    rewrite Hiss. unfold Did.validateDIDPKHAddress.
    now rewrite (parseDIDPKH_wallet encryptor Hw). }
  unfold WalletBased.decryptFromCredentialsWithJWT.
  rewrite Hvalid, Haddr.
  destruct (String.eqb (JsString.toLowerCase (address decryptor))
                       (JsString.toLowerCase (address encryptor))) eqn:Esame.
  - apply String.eqb_eq in Esame. split; [intros _; exact Esame|]. intros _.
    rewrite Esame, String.eqb_refl. cbn [negb].
    unfold try_finally.
    match goal with |- context [try_catch ?m ?h] => set (body := try_catch m h) end.
    assert (Hin : In (mint_token "decrypt" (address decryptor)) (trace body)).
    { unfold body. apply in_try_catch_left.
      apply (in_mbind_right _ _ tt); [reflexivity|].
      apply in_mbind_left. now left. }
    destruct body as [r t1]. cbn [trace snd] in *.
    destruct (if existsb _ t1 then _ else _) as [[u|e] t2]; cbn;
      apply in_or_app; now left.
  - split; [|intro E; apply String.eqb_neq in Esame; contradiction].
    cbn. intros [E | []]. discriminate E.
Qed.

End EncryptionRuns.

(** ** Mock bundles *)

Lemma padding_is_padEnd (l : list byte) :
  let text := b64_text (sextets_of l) in
  text ++ b64_padding l
  = Bytes.padEnd text (JsString.len text + (4 - JsString.len text mod 4) mod 4) "=".
Proof.
  intro text. unfold Bytes.padEnd. f_equal. unfold text. rewrite len_b64_text.
  replace (Z.of_nat (List.length (sextets_of l))
           + (4 - Z.of_nat (List.length (sextets_of l)) mod 4) mod 4
           - Z.of_nat (List.length (sextets_of l)))
    with ((4 - Z.of_nat (List.length (sextets_of l)) mod 4) mod 4) by lia.
  induction l as [| a | a b | a b c l IH] using list_ind3; try reflexivity.
  cbn [b64_padding sextets_of List.length]. rewrite IH. do 2 f_equal.
  rewrite !Nat2Z.inj_succ. Z.div_mod_to_equations. lia.
Qed.

Lemma atob_btoa (s : string) : Bytes.atob (Bytes.btoa s) = Ok s.
Proof.
  unfold Bytes.btoa. rewrite b64_encode_text, padding_is_padEnd, atob_padded.
  unfold Bytes.fromCharCodes, Bytes.charCodes.
  now rewrite string_of_list_byte_of_string.
Qed.

(** A mock bundle gives its content back.  What
    [createMockEncryptedData] makes of a content, with or without the
    [metadata] the script stores beside it, is decrypted by the
    credentials-only package to that content, for every pool of
    credentials and every address, without a look at either. *)
Theorem mock_bundle_decrypts_to_its_content `{Platform} (draw : nat -> Z)
    (content : string) (requirements : Utils.CredentialRequirements) (Date_now : Z)
    (userCredentials : option (list Utils.ParsedCredential))
    (userAddress' : option string) :
  let answer :=
    (Ok (JObj [("response",
                JObj [("success", JBool true); ("secret", JStr content)])]),
     [console_log "Detected mock encrypted data, using mock decryption..."]) in
  CredentialsOnly.decryptFromCredentialsWithJWT Date_now
    (MockContent.createMockEncryptedData draw content requirements)
    userCredentials userAddress' = answer
  /\ CredentialsOnly.decryptFromCredentialsWithJWT Date_now
       (MockContent.stored_entry draw content requirements)
       userCredentials userAddress' = answer.
Proof.
  intro answer. unfold CredentialsOnly.decryptFromCredentialsWithJWT.
  split.
  - change (CredentialsOnly.is_mock
              (MockContent.createMockEncryptedData draw content requirements))
      with true.
    cbn [ciphertext MockContent.createMockEncryptedData].
    now rewrite atob_btoa.
  - change (CredentialsOnly.is_mock (MockContent.stored_entry draw content requirements))
      with true.
    cbn [ciphertext MockContent.stored_entry MockContent.createMockEncryptedData].
    now rewrite atob_btoa.
Qed.

(** ** The action with one factor *)

Section BasicAction.

Context `{Platform} `{Ethers}.

(** The action with one factor decrypts after the checks of the
    credential alone: in a run that calls [decryptAndCombine] the
    credential token verified against the required issuer and its claims
    were validated for [userAddress].  The enhanced action asks for more:
    whenever it decrypts, so does the action with one factor on the same
    parameters. *)
Theorem basic_action_checks_the_credential_only (env : LitAction.Env)
    (p : LitAction.Params) (c h : jsval) :
  (In (decryptAndCombine c h) (trace (LitActionBasic.litActionCode env p)) <->
   c = LitAction.ciphertext p /\ h = LitAction.dataToEncryptHash p
   /\ exists issuer verificationResult,
        JsVal.get (LitAction.credentialRequirements p) "issuer" = Ok issuer
        /\ outcome (LitAction.verifyJWTWithEdDSA env (LitAction.credentialJWT p) issuer)
           = Ok verificationResult
        /\ LitAction.validateCredentialClaims env
             (LitAction.ed_payload verificationResult)
             (LitAction.credentialRequirements p) (LitAction.userAddress p) = Ok true)
  /\ (In (decryptAndCombine c h) (trace (LitAction.litActionCodeWithES256K env p)) ->
      In (decryptAndCombine c h) (trace (LitActionBasic.litActionCode env p))).
Proof.
  assert (Hback :
    forall issuer verificationResult,
      JsVal.get (LitAction.credentialRequirements p) "issuer" = Ok issuer ->
      outcome (LitAction.verifyJWTWithEdDSA env (LitAction.credentialJWT p) issuer)
      = Ok verificationResult ->
      LitAction.validateCredentialClaims env (LitAction.ed_payload verificationResult)
        (LitAction.credentialRequirements p) (LitAction.userAddress p) = Ok true ->
      In (decryptAndCombine (LitAction.ciphertext p) (LitAction.dataToEncryptHash p))
         (trace (LitActionBasic.litActionCode env p))).
  { intros issuer verificationResult Hissuer Hverified Hclaims.
    unfold LitActionBasic.litActionCode. apply in_try_catch_left.
    unfold LitActionBasic.main.
    apply (in_mbind_right _ _ tt); [reflexivity|].
    eapply in_mbind_right; [exact Hissuer|].
    eapply in_mbind_right; [exact Hverified|].
    apply (in_mbind_right _ _ tt); [reflexivity|].
    eapply in_mbind_right; [exact Hclaims|].
    apply (in_mbind_right _ _ tt); [reflexivity|].
    apply in_mbind_left. now left. }
  split; [split|].
  - unfold LitActionBasic.litActionCode. intro Hin.
    apply in_try_catch in Hin. destruct Hin as [Hin | [err [_ Hin]]].
    2:{ cbn in Hin. intuition discriminate. }
    unfold LitActionBasic.main in Hin. run_inv Hin.
    { match type of Hin with
      | In _ (trace (LitAction.verifyJWTWithEdDSA ?e ?j ?i)) =>
          pose proof (verifyJWTWithEdDSA_trace e j i) as Ht
      end.
      rewrite Forall_forall in Ht. destruct (Ht _ Hin). }
    injection Hin as <- <-.
    repeat match goal with
           | Hs : outcome (lift _) = Ok _ |- _ => apply outcome_lift in Hs
           | Hv : LitAction.validateCredentialClaims _ _ _ _ = Ok ?b |- _ =>
               is_var b; pose proof (validateCredentialClaims_true _ _ _ _ _ Hv); subst b
           end.
    split; [reflexivity | split; [reflexivity|]]. do 2 eexists.
    repeat split; eassumption.
  - intros [-> [-> [issuer [verificationResult [Hissuer [Hverified Hclaims]]]]]].
    exact (Hback issuer verificationResult Hissuer Hverified Hclaims).
  - unfold LitAction.litActionCodeWithES256K. intro Hin.
    apply in_try_catch in Hin. destruct Hin as [Hin | [err [_ Hin]]].
    2:{ cbn in Hin. intuition discriminate. }
    unfold LitAction.main in Hin. run_inv Hin.
    { match type of Hin with
      | In _ (trace (LitAction.verifyJWTWithEdDSA ?e ?j ?i)) =>
          pose proof (verifyJWTWithEdDSA_trace e j i) as Ht
      end.
      rewrite Forall_forall in Ht. destruct (Ht _ Hin). }
    injection Hin as <- <-.
    repeat match goal with
           | Hs : outcome (lift _) = Ok _ |- _ => apply outcome_lift in Hs
           | Hv : LitAction.validateCredentialClaims _ _ _ _ = Ok ?b |- _ =>
               is_var b; pose proof (validateCredentialClaims_true _ _ _ _ _ Hv); subst b
           end.
    eapply Hback; eassumption.
Qed.

End BasicAction.

(** ** The scenario, run *)

#[local] Existing Instance Reference.platform.
#[local] Existing Instance Reference.ethers.

Lemma reference_address_laws : address_laws.
Proof.
  intros a Ha. change (Reference.is_address a = true) in Ha.
  unfold Reference.is_address in Ha.
  change (@getAddress Reference.ethers) with Reference.get_address.
  change (@isAddress Reference.ethers) with Reference.is_address.
  destruct (Reference.get_address a) as [r|] eqn:E; [|discriminate].
  exists r. unfold Reference.get_address in E.
  set (a' := if JsString.startsWith "0x" a then a else "0x" ++ a) in E.
  destruct (Did.is_0x_hex40 a') eqn:Hhex; [|discriminate].
  destruct (checksum_shape a' Hhex) as [Hshape Hfix].
  destruct (_ && _) in E; [discriminate|]. injection E as <-.
  assert (Hget : Reference.get_address (Reference.getChecksumAddress a')
                 = Ok (Reference.getChecksumAddress a')).
  { unfold Reference.get_address.
    assert (Hpre : JsString.startsWith "0x" (Reference.getChecksumAddress a') = true)
      by reflexivity.
    rewrite Hpre, Hshape, Hfix, String.eqb_refl. cbn [negb].
    now rewrite andb_false_r. }
  repeat split; try assumption.
  unfold Reference.is_address. now rewrite Hget.
Qed.

(** C9 at work: Alice's address in lower case, chain 1. *)
Lemma did_round_trip_witness :
  exists checksummed did,
    getAddress Scenario.alice = Ok checksummed
    /\ Did.createDIDPKH Scenario.alice 1 = Ok did
    /\ Did.parseDIDPKH did
       = Ok {| Did.did := did; Did.address := checksummed; Did.chainId := Some 1 |}.
Proof.
  apply (did_round_trip Scenario.alice 1 reference_address_laws).
  - vm_compute. reflexivity.
  - unfold chain_id_in_range. lia.
Defined.

(** C6 at work, under the default configuration of a browser: the
    requirement of the test suite with an untrusted issuer is refused, the
    scenario's requirement is accepted. *)
Lemma trust_gate_witness :
  Utils.validateGithubCredentialRequirements (Utils.Browser None None)
    {| Utils.issuer := "did:web:untrusted-issuer.com";
       Utils.credentialType := "GitHubVerification";
       Utils.claims := Some {| Utils.githubHandle := JStr "someuser";
                               Utils.minIssuanceAge := None;
                               Utils.requiredEvidence := None |} |}
  = Throw (Error ("Untrusted issuer: did:web:untrusted-issuer.com"
                  ++ ". Trusted issuers: did:web:rebasedemokey.pages.dev, did:web:issuer.tinycloud.xyz"))
  /\ Utils.validateGithubCredentialRequirements (Utils.Browser None None)
       (Scenario.requirement None) = Ok tt.
Proof.
  split.
  - apply (validateGithubCredentialRequirements_trust_gate (Utils.Browser None None));
      [reflexivity|].
    cbn. intros [E | [E | []]]; discriminate.
  - apply (validateGithubCredentialRequirements_trust_gate (Utils.Browser None None));
      [reflexivity | now left | reflexivity |].
    repeat constructor. intros [Hn | [s [E Ht]]].
    + now apply (Hn "alice").
    + injection E as <-. discriminate.
Defined.

(** C5, the claim as stated, fails: with a minimum issuance age of one hour
    the matcher returns a credential issued ten seconds ago, and returns
    nothing for a credential issued two hours ago. *)
Lemma issuance_age_counterexample :
  Utils.findMatchingCredential Scenario.noon
    [Scenario.credential "2024-01-01T11:59:50Z" "alice"]
    (Scenario.requirement (Some 3600)) Scenario.alice
  = Some (Scenario.credential "2024-01-01T11:59:50Z" "alice")
  /\ Date_getTime "2024-01-01T11:59:50Z" = Some (Scenario.noon - 10 * 1000)
  /\ ~ (Scenario.noon - (Scenario.noon - 10 * 1000) >= 3600 * 1000)
  /\ Utils.findMatchingCredential Scenario.noon
       [Scenario.credential "2024-01-01T10:00:00Z" "alice"]
       (Scenario.requirement (Some 3600)) Scenario.alice
     = None
  /\ Date_getTime "2024-01-01T10:00:00Z" = Some (Scenario.noon - 7200 * 1000)
  /\ Scenario.noon - (Scenario.noon - 7200 * 1000) >= 3600 * 1000.
Proof.
  split; [vm_compute; reflexivity|].
  split; [vm_compute; reflexivity|].
  split; [unfold Scenario.noon; lia|].
  split; [vm_compute; reflexivity|].
  split; [vm_compute; reflexivity|].
  unfold Scenario.noon. lia.
Qed.

(** C5 as amended, at work: the credential issued ten seconds ago is
    returned, and it is within the hour. *)
Lemma issuance_window_witness :
  (Utils.findMatchingCredential Scenario.noon
     [Scenario.credential "2024-01-01T11:59:50Z" "alice"]
     (Scenario.requirement (Some 3600)) Scenario.alice
   = Some (Scenario.credential "2024-01-01T11:59:50Z" "alice") ->
   Scenario.noon - (Scenario.noon - 10 * 1000) <= 3600 * 1000)
  /\ (3600 * 1000 < Scenario.noon - (Scenario.noon - 10 * 1000) ->
      Utils.findMatchingCredential Scenario.noon
        [Scenario.credential "2024-01-01T11:59:50Z" "alice"]
        (Scenario.requirement (Some 3600)) Scenario.alice
      <> Some (Scenario.credential "2024-01-01T11:59:50Z" "alice")).
Proof.
  apply (findMatchingCredential_issuance_window Scenario.noon
           [Scenario.credential "2024-01-01T11:59:50Z" "alice"]
           (Scenario.requirement (Some 3600)) Scenario.alice
           (Scenario.credential "2024-01-01T11:59:50Z" "alice")
           3600 (Scenario.noon - 10 * 1000)).
  - reflexivity.
  - discriminate.
  - vm_compute. reflexivity.
Defined.

Lemma scenario_matches (date : string) (age : option Z) :
  Matches_issuer_subject_handle (Scenario.requirement age) Scenario.alice
    (Scenario.credential date "alice").
Proof.
  split; [reflexivity | split].
  - exists {| Utils.id := Some ("did:pkh:eip155:1:" ++ Scenario.alice) |},
      ("did:pkh:eip155:1:" ++ Scenario.alice).
    split; [reflexivity | split; [reflexivity | split; [discriminate|]]].
    exists "did:pkh:eip155:1:", EmptyString. reflexivity.
  - intros _. exists "alice".
    split; [reflexivity | split; [discriminate | now left]].
Qed.

(** C7, the claim as stated, fails: of two credentials that both satisfy the
    issuer, subject and handle predicates, the matcher skips the first,
    issued two hours ago, and returns the second when the requirement asks
    for an issuance age of one hour. *)
Lemma first_match_counterexample :
  let older := Scenario.credential "2024-01-01T10:00:00Z" "alice" in
  let newer := Scenario.credential "2024-01-01T11:59:50Z" "alice" in
  first_with
    (Matches_issuer_subject_handle (Scenario.requirement (Some 3600)) Scenario.alice)
    [older; newer] older
  /\ Utils.findMatchingCredential Scenario.noon [older; newer]
       (Scenario.requirement (Some 3600)) Scenario.alice
     = Some newer
  /\ newer <> older.
Proof.
  intros older newer. split; [|split].
  - exists [], [newer].
    split; [reflexivity | split; [apply scenario_matches | constructor]].
  - vm_compute. reflexivity.
  - discriminate.
Qed.

(** C3 at work: mock data decodes to "hello world". *)
Lemma mock_decryption_witness :
  CredentialsOnly.decryptFromCredentialsWithJWT Scenario.noon
    (Scenario.bundle "mock.jwt.token" Scenario.bob None) None None
  = (Ok (JObj [("response",
                JObj [("success", JBool true); ("secret", JStr "hello world")])]),
     [console_log "Detected mock encrypted data, using mock decryption..."]).
Proof.
  apply (mock_decryption_decodes_ciphertext Scenario.noon
           (Scenario.bundle "mock.jwt.token" Scenario.bob None) None None).
  - now left.
  - vm_compute. reflexivity.
Defined.

(** C10 at work: with Alice's credential in the pool the run throws the
    wallet-operations error, with Bob's handle only it throws the
    no-matching-credential error. *)
Lemma real_decryption_witness :
  outcome (CredentialsOnly.decryptFromCredentialsWithJWT Scenario.noon
             (Scenario.bundle Scenario.encrypt_token Scenario.alice None)
             (Some [Scenario.credential "2024-01-01T00:00:00Z" "alice"]) None)
  = Throw (Error ("Real Lit Protocol decryption requires wallet operations. "
                  ++ "This browser package is designed for credentials-only decryption. "
                  ++ "Please use mock encrypted content for testing."))
  /\ outcome (CredentialsOnly.decryptFromCredentialsWithJWT Scenario.noon
                (Scenario.bundle Scenario.encrypt_token Scenario.alice None)
                (Some [Scenario.credential "2024-01-01T00:00:00Z" "bob"]) None)
     = Throw (Error "No matching credential found for the specified requirements").
Proof.
  split.
  - apply (real_decryption_always_throws Scenario.noon
             (Scenario.bundle Scenario.encrypt_token Scenario.alice None)
             (Some [Scenario.credential "2024-01-01T00:00:00Z" "alice"]) None)
      with (cred := Scenario.credential "2024-01-01T00:00:00Z" "alice");
      [discriminate | reflexivity | vm_compute; reflexivity].
  - apply (real_decryption_always_throws Scenario.noon
             (Scenario.bundle Scenario.encrypt_token Scenario.alice None)
             (Some [Scenario.credential "2024-01-01T00:00:00Z" "bob"]) None);
      [discriminate | reflexivity | vm_compute; reflexivity].
Defined.

(** C2 at work: Bob's wallet on Alice's bundle. *)
Lemma other_wallet_witness :
  WalletBased.decryptFromCredentialsWithJWT (Utils.Browser None None) Scenario.offline
    Scenario.noon Scenario.entropy
    (Scenario.bundle Scenario.encrypt_token (address Scenario.alice_wallet) None)
    Scenario.bob_wallet
    (Some [Scenario.credential "2024-01-01T00:00:00Z" "alice"])
  = (Throw (Error "User wallet does not match the encrypted data owner"),
     [console_error "User wallet does not match the encrypted data owner"]).
Proof.
  apply (decrypt_refuses_other_wallet (Utils.Browser None None) Scenario.offline
           Scenario.noon Scenario.entropy
           (Scenario.bundle Scenario.encrypt_token (address Scenario.alice_wallet) None)
           Scenario.bob_wallet
           (Some [Scenario.credential "2024-01-01T00:00:00Z" "alice"])).
  vm_compute. discriminate.
Defined.

(** C1 at work: the token Alice signs at noon verifies one minute later. *)
Lemma sign_then_verify_witness :
  exists token,
    Jwt.signES256KJWT Scenario.noon Scenario.entropy Scenario.alice_wallet
      (Jwt.purpose_payload "encrypt" (Scenario.requirement None)) 5 = Ok token
    /\ Jwt.verifyES256KJWT (Scenario.noon + 60000) token
       = Ok {| Jwt.header := Jwt.jwt_header (user_did Scenario.alice_wallet);
               Jwt.payload :=
                 Jwt.completePayload
                   (Jwt.purpose_payload "encrypt" (Scenario.requirement None))
                   (user_did Scenario.alice_wallet) (Scenario.noon / 1000) 5
                   (Jwt.generateNonce Scenario.entropy);
               Jwt.valid := true |}
    /\ JsVal.get
         (Jwt.completePayload
            (Jwt.purpose_payload "encrypt" (Scenario.requirement None))
            (user_did Scenario.alice_wallet) (Scenario.noon / 1000) 5
            (Jwt.generateNonce Scenario.entropy)) "iss"
       = Ok (JStr (user_did Scenario.alice_wallet)).
Proof.
  apply (sign_then_verify Scenario.noon (Scenario.noon + 60000) Scenario.entropy
           Scenario.alice_wallet
           (Jwt.purpose_payload "encrypt" (Scenario.requirement None)) 5).
  - split; [|split]; vm_compute; reflexivity.
  - split; [vm_compute; discriminate | vm_compute; reflexivity].
  - split; [vm_compute; discriminate | vm_compute; reflexivity].
  - exists (Bytes.slice
              (match Jwt.base64urlDecode
                       "oY8ArbL3_STFjBwqs7Y-O64CF9ch0AmfPLWQsUd6a6kAAAAAAAAAAAAAAABarrYFPz6UybmgnzNmlDXn7xvq7Q"
               with Ok l => l | Throw _ => [] end) 0 32),
      (Bytes.slice
         (match Jwt.base64urlDecode
                  "oY8ArbL3_STFjBwqs7Y-O64CF9ch0AmfPLWQsUd6a6kAAAAAAAAAAAAAAABarrYFPz6UybmgnzNmlDXn7xvq7Q"
          with Ok l => l | Throw _ => [] end) 32 64),
      (address Scenario.alice_wallet), 0.
    split; [vm_compute; reflexivity|].
    split; [vm_compute; reflexivity|].
    split; [vm_compute; reflexivity|].
    split; [vm_compute; reflexivity|].
    split; [now left|].
    split; vm_compute; reflexivity.
  - vm_compute. discriminate.
Defined.

(** C8 at work: Alice's encryption token, presented for decryption. *)
Lemma purpose_mismatch_witness :
  outcome (LitAction.main Scenario.lit_node Scenario.encrypt_purpose_params)
  = Throw (Error "JWT purpose mismatch. Expected: decrypt, Got: encrypt")
  /\ LitAction.litActionCodeWithES256K Scenario.lit_node Scenario.encrypt_purpose_params
     = (Ok tt,
        [console_log "Starting enhanced dual-factor credential verification...";
         console_log "Verifying ES256K JWT signature...";
         console_error ("Enhanced dual-factor credential verification failed: "
                        ++ "JWT purpose mismatch. Expected: decrypt, Got: encrypt");
         setResponse
           (JObj [("response",
                   JObj [("success", JBool false);
                         ("error",
                          JStr "JWT purpose mismatch. Expected: decrypt, Got: encrypt");
                         ("errorType", JStr "decryption_error")])])])
  /\ (forall c h,
        ~ In (decryptAndCombine c h)
            (trace (LitAction.litActionCodeWithES256K Scenario.lit_node
                      Scenario.encrypt_purpose_params))).
Proof.
  apply (purpose_mismatch_blocks_decryption Scenario.lit_node Scenario.encrypt_purpose_params
           Scenario.verified_encrypt_token (JStr "encrypt")).
  - vm_compute. reflexivity.
  - reflexivity.
  - reflexivity.
Defined.

(** With the matching purpose the same node runs the action to the end:
    the decryption is invoked and the secret released. *)
Lemma matching_purpose_decrypts :
  let decrypt_token :=
    Scenario.or_empty
      (Jwt.createDecryptionJWT Scenario.noon Scenario.entropy Scenario.alice_wallet
         (Scenario.requirement None)) in
  let p :=
    {| LitAction.accessControlConditions := JArr [];
       LitAction.ciphertext := JStr "aGVsbG8gd29ybGQ=";
       LitAction.dataToEncryptHash := JStr "64ec88ca";
       LitAction.credentialJWT := Scenario.credential_token 1900000000;
       LitAction.credentialRequirements :=
         Utils.requirements_to_js (Scenario.requirement None);
       LitAction.userAddress := address Scenario.alice_wallet;
       LitAction.userSignedJWT := decrypt_token;
       LitAction.operationPurpose := JStr "decrypt" |} in
  In (decryptAndCombine (JStr "aGVsbG8gd29ybGQ=") (JStr "64ec88ca"))
     (trace (LitAction.litActionCodeWithES256K Scenario.lit_node p))
  /\ exists response,
       last (trace (LitAction.litActionCodeWithES256K Scenario.lit_node p))
            (console_log EmptyString)
       = setResponse (JObj [("response", JObj (("success", JBool true)
                                               :: ("secret", JStr "hello world")
                                               :: response))]).
Proof.
  vm_compute. split; [tauto | eexists; reflexivity].
Qed.

(** C4: the verifier of credential tokens accepts a token whose [exp] is 0,
    the first second of 1970, at a time in 2024, and refuses the same token
    with [exp] 1. *)
Lemma zero_expiry_is_accepted :
  outcome (LitAction.verifyJWTWithEdDSA Scenario.lit_node
             (Scenario.credential_token 0) (JStr Scenario.trusted_issuer))
  = Ok {| LitAction.ed_valid := true;
          LitAction.ed_payload := Scenario.credential_payload 0;
          LitAction.ed_header := Scenario.credential_header;
          LitAction.ed_issuer := JStr Scenario.trusted_issuer |}
  /\ outcome (LitAction.verifyJWTWithEdDSA Scenario.lit_node
                (Scenario.credential_token 1) (JStr Scenario.trusted_issuer))
     = Throw (Error "JWT expired").
Proof.
  split; vm_compute; reflexivity.
Qed.

(** ** More of the scenario, run *)

Lemma alice_wallet_ok : wallet_address_ok Scenario.alice_wallet.
Proof. split; [|split]; vm_compute; reflexivity. Qed.

Lemma alice_header_round_trips :
  json_round_trips (Jwt.jwt_header (user_did Scenario.alice_wallet)).
Proof. split; [vm_compute; discriminate | vm_compute; reflexivity]. Qed.

Lemma alice_payload_round_trips (purpose : string) :
  purpose = "encrypt" \/ purpose = "decrypt" ->
  json_round_trips
    (Jwt.completePayload (Jwt.purpose_payload purpose (Scenario.requirement None))
       (user_did Scenario.alice_wallet) (Scenario.noon / 1000) 5
       (Jwt.generateNonce Scenario.entropy)).
Proof.
  intros [-> | ->]; (split; [vm_compute; discriminate | vm_compute; reflexivity]).
Qed.

Lemma alice_signature_recovers (purpose token : string) :
  purpose = "encrypt" /\ token = Scenario.encrypt_token
  \/ purpose = "decrypt" /\ token = Services.decrypt_token ->
  signature_recovers Scenario.alice_wallet
    (keccak256
       (toUtf8Bytes
          (signing_input (Jwt.jwt_header (user_did Scenario.alice_wallet))
             (Jwt.completePayload
                (Jwt.purpose_payload purpose (Scenario.requirement None))
                (user_did Scenario.alice_wallet) (Scenario.noon / 1000) 5
                (Jwt.generateNonce Scenario.entropy))))).
Proof.
  intros Hcase.
  exists (Bytes.slice (Services.signature_of token) 0 32),
    (Bytes.slice (Services.signature_of token) 32 64),
    (address Scenario.alice_wallet), 0.
  destruct Hcase as [[-> ->] | [-> ->]];
    (split; [vm_compute; reflexivity|];
     split; [vm_compute; reflexivity|];
     split; [vm_compute; reflexivity|];
     split; [vm_compute; reflexivity|];
     split; [now left|];
     split; vm_compute; reflexivity).
Qed.

(** [parseJWT] on Alice's encryption token. *)
Lemma parseJWT_witness :
  Jwt.parseJWT Scenario.encrypt_token
  = Ok (Jwt.jwt_header (user_did Scenario.alice_wallet),
        Jwt.completePayload (Jwt.purpose_payload "encrypt" (Scenario.requirement None))
          (user_did Scenario.alice_wallet) (Scenario.noon / 1000) 5
          (Jwt.generateNonce Scenario.entropy)).
Proof.
  apply (parseJWT_reads_signed_token Scenario.noon Scenario.entropy Scenario.alice_wallet
           (Jwt.purpose_payload "encrypt" (Scenario.requirement None)) 5
           Scenario.encrypt_token).
  - exact alice_wallet_ok.
  - exact alice_header_round_trips.
  - apply alice_payload_round_trips. now left.
  - vm_compute. reflexivity.
Defined.

(** Alice's encryption token is not taken for Bob's. *)
Lemma validateJWTUserAddress_witness :
  Jwt.validateJWTUserAddress Scenario.encrypt_token Scenario.bob
  = String.eqb (JsString.toLowerCase (address Scenario.alice_wallet))
               (JsString.toLowerCase Scenario.bob).
Proof.
  apply (validateJWTUserAddress_of_signed_token Scenario.noon Scenario.entropy
           Scenario.alice_wallet
           (Jwt.purpose_payload "encrypt" (Scenario.requirement None)) 5
           Scenario.encrypt_token Scenario.bob).
  - exact alice_wallet_ok.
  - exact alice_header_round_trips.
  - apply alice_payload_round_trips. now left.
  - vm_compute. reflexivity.
Defined.

(** Alice's encryption token, six minutes after noon. *)
Lemma after_expiry_witness :
  Jwt.verifyES256KJWT (Scenario.noon + 360000) Scenario.encrypt_token
  = Ok {| Jwt.header := Jwt.jwt_header (user_did Scenario.alice_wallet);
          Jwt.payload :=
            Jwt.completePayload
              (Jwt.purpose_payload "encrypt" (Scenario.requirement None))
              (user_did Scenario.alice_wallet) (Scenario.noon / 1000) 5
              (Jwt.generateNonce Scenario.entropy);
          Jwt.valid := false |}.
Proof.
  apply (verifyES256KJWT_after_expiry Scenario.noon (Scenario.noon + 360000)
           Scenario.entropy Scenario.alice_wallet
           (Jwt.purpose_payload "encrypt" (Scenario.requirement None)) 5
           Scenario.encrypt_token).
  - exact alice_wallet_ok.
  - exact alice_header_round_trips.
  - apply alice_payload_round_trips. now left.
  - vm_compute. reflexivity.
  - vm_compute. reflexivity.
Defined.

(** What [valid: true] says of Alice's encryption token, a minute after
    noon. *)
Lemma valid_is_sound_witness :
  exists encodedHeader encodedPayload encodedSignature more iss signerAddress exp
         rawSignature recoveryParam recovered,
    JsString.split "." Scenario.encrypt_token
    = encodedHeader :: encodedPayload :: encodedSignature :: more
    /\ Jwt.decode_segment encodedHeader
       = Ok (Jwt.jwt_header (user_did Scenario.alice_wallet))
    /\ Jwt.decode_segment encodedPayload
       = Ok (LitAction.payload Scenario.verified_encrypt_token)
    /\ JsVal.get (Jwt.jwt_header (user_did Scenario.alice_wallet)) "alg"
       = Ok (JStr "ES256K")
    /\ JsVal.get (LitAction.payload Scenario.verified_encrypt_token) "iss" = Ok (JStr iss)
    /\ JsVal.get (LitAction.payload Scenario.verified_encrypt_token) "sub" = Ok (JStr iss)
    /\ JsString.startsWith "did:pkh:eip155:" iss = true
    /\ JsString.pop (JsString.split ":" iss) = Some signerAddress
    /\ isAddress signerAddress = true
    /\ JsVal.get (LitAction.payload Scenario.verified_encrypt_token) "exp" = Ok exp
    /\ js_lt exp ((Scenario.noon + 60000) / 1000) = false
    /\ Jwt.base64urlDecode encodedSignature = Ok rawSignature
    /\ List.length rawSignature = 64%nat
    /\ (recoveryParam = 0 \/ recoveryParam = 1)
    /\ recoverAddress
         (keccak256 (toUtf8Bytes (encodedHeader ++ "." ++ encodedPayload)))
         {| sig_r := "0x" ++ Bytes.hex_of_bytes (Bytes.slice rawSignature 0 32);
            sig_s := "0x" ++ Bytes.hex_of_bytes (Bytes.slice rawSignature 32 64);
            sig_v := recoveryParam + 27 |} = Ok recovered
    /\ JsString.toLowerCase recovered = JsString.toLowerCase signerAddress.
Proof.
  apply (verifyES256KJWT_valid_is_sound (Scenario.noon + 60000) Scenario.encrypt_token
           {| Jwt.header := Jwt.jwt_header (user_did Scenario.alice_wallet);
              Jwt.payload := LitAction.payload Scenario.verified_encrypt_token;
              Jwt.valid := true |}).
  - vm_compute. reflexivity.
  - reflexivity.
Defined.

(** The DID of Alice's address is valid, and parses. *)
Lemma isValidDIDPKH_witness :
  Did.isValidDIDPKH ("did:pkh:eip155:1:" ++ Scenario.alice) = true
  <-> exists parsed, Did.parseDIDPKH ("did:pkh:eip155:1:" ++ Scenario.alice) = Ok parsed.
Proof.
  apply (isValidDIDPKH_iff_parses ("did:pkh:eip155:1:" ++ Scenario.alice)
           reference_address_laws).
Defined.

(** The DID made for Alice's lower-case address, asked about that address. *)
Lemma created_did_witness :
  exists checksummed,
    getAddress Scenario.alice = Ok checksummed
    /\ Did.isValidDIDPKH ("did:pkh:eip155:1:" ++ Services.alice_checksummed) = true
    /\ Did.extractAddressFromDID ("did:pkh:eip155:1:" ++ Services.alice_checksummed)
       = Ok checksummed
    /\ Did.validateDIDPKHAddress ("did:pkh:eip155:1:" ++ Services.alice_checksummed)
         Scenario.alice
       = String.eqb (JsString.toLowerCase checksummed)
                    (JsString.toLowerCase Scenario.alice).
Proof.
  apply (created_did_is_accepted Scenario.alice 1
           ("did:pkh:eip155:1:" ++ Services.alice_checksummed) Scenario.alice
           reference_address_laws).
  - unfold chain_id_in_range. lia.
  - vm_compute. reflexivity.
Defined.

(** The scenario's issuer, trusted under the default configuration. *)
Lemma clean_entry_witness :
  Scenario.trusted_issuer <> EmptyString
  /\ JsString.trim Scenario.trusted_issuer = Scenario.trusted_issuer
  /\ free_of "," Scenario.trusted_issuer.
Proof.
  apply (trusted_issuer_is_a_clean_entry (Utils.Browser None None)
           Scenario.trusted_issuer).
  vm_compute. reflexivity.
Defined.

(** Alice's credential with the subject [createDIDPKH] writes is not found
    for Alice. *)
Lemma checksummed_subject_witness :
  Utils.subject_matches Services.checksummed_credential Scenario.alice = false
  /\ Utils.findMatchingCredential Scenario.noon [Services.checksummed_credential]
       (Scenario.requirement None) Scenario.alice
     <> Some Services.checksummed_credential.
Proof.
  apply (matcher_misses_checksummed_subject Scenario.noon
           [Services.checksummed_credential] (Scenario.requirement None)
           Services.checksummed_credential Scenario.alice Services.alice_checksummed).
  - reflexivity.
  - reflexivity.
  - vm_compute. discriminate.
  - reflexivity.
Defined.

(** Alice on her own bundle with an empty pool: no credential, no network. *)
Lemma before_the_network_witness :
  let run :=
    WalletBased.decryptFromCredentialsWithJWT (Utils.Browser None None) Services.online
      Scenario.noon Scenario.entropy Services.alice_bundle Scenario.alice_wallet
      (Some []) in
  outcome run = Throw (Error "No matching credential found for the specified requirements")
  /\ Forall (fun e => ~ network_call e) (trace run).
Proof.
  apply (proj2 (proj2
           (decrypt_fails_before_the_network (Utils.Browser None None) Services.online
              Scenario.noon Scenario.entropy Services.alice_bundle Scenario.alice_wallet
              (Some []) eq_refl)) Services.decrypt_token).
  - vm_compute. reflexivity.
  - vm_compute. reflexivity.
  - vm_compute. reflexivity.
Defined.

(** Alice's decryption of the bundle she encrypted, on a network that
    answers. *)
Lemma action_answered_witness :
  let run :=
    WalletBased.decryptFromCredentialsWithJWT (Utils.Browser None None) Services.online
      (Scenario.noon + 60000) Scenario.entropy Services.encrypted_bundle
      Scenario.alice_wallet Services.pool in
  exists decryptionJWT matchingCredential sessionSigs,
    JsString.toLowerCase (address Scenario.alice_wallet)
    = JsString.toLowerCase (userAddress Services.encrypted_bundle)
    /\ Jwt.validateJWTUserAddress (userSignedJWT Services.encrypted_bundle)
         (address Scenario.alice_wallet) = true
    /\ Jwt.createDecryptionJWT (Scenario.noon + 60000) Scenario.entropy
         Scenario.alice_wallet (credentialRequirements Services.encrypted_bundle)
       = Ok decryptionJWT
    /\ Utils.findMatchingCredential (Scenario.noon + 60000)
         (Utils.loadCredentials Services.pool)
         (credentialRequirements Services.encrypted_bundle)
         (address Scenario.alice_wallet)
       = Some matchingCredential
    /\ (let params :=
          WalletBased.jsParams Services.encrypted_bundle (Utils.jwt matchingCredential)
            (address Scenario.alice_wallet) decryptionJWT in
        WalletBased.net_executeJs Services.online sessionSigs params
        = Ok Services.action_answer
        /\ JsVal.get params "operationPurpose" = Ok (JStr "decrypt")
        /\ filter (fun e => match e with executeJs _ => true | _ => false end)
             (trace run)
           = [executeJs params]).
Proof.
  apply (decrypt_returns_what_the_action_answered (Utils.Browser None None)
           Services.online (Scenario.noon + 60000) Scenario.entropy
           Services.encrypted_bundle Scenario.alice_wallet Services.pool
           Services.action_answer).
  vm_compute. reflexivity.
Defined.

(** The key of the scenario's DID document. *)
Lemma declared_key_witness :
  exists methods method id,
    JsVal.get Scenario.did_document "verificationMethod" = Ok (JArr methods)
    /\ In method methods
    /\ JsVal.get method "id" = Ok id
    /\ (JsVal.strict_eq id (JStr (Scenario.trusted_issuer ++ "#key-1")) = true
        \/ LitAction.call_endsWith id "#controller" = Ok true)
    /\ JsVal.get method "type" = Ok (JStr "Ed25519VerificationKey2018")
    /\ JsVal.get method "publicKeyJwk" = Ok Scenario.issuer_key
    /\ JsVal.truthy Scenario.issuer_key = true.
Proof.
  apply (extractPublicKey_returns_declared_key Scenario.did_document
           (JStr (Scenario.trusted_issuer ++ "#key-1")) Scenario.issuer_key).
  vm_compute. reflexivity.
Defined.

(** What the node knows once it has accepted Alice's encryption token for
    her address. *)
Lemma only_the_signer_witness :
  exists encodedHeader encodedPayload encodedSignature more iss signerAddress exp
         rawSignature v recovered,
    JsString.split "." Scenario.encrypt_token
    = encodedHeader :: encodedPayload :: encodedSignature :: more
    /\ Jwt.decode_segment encodedHeader
       = Ok (LitAction.header Scenario.verified_encrypt_token)
    /\ Jwt.decode_segment encodedPayload
       = Ok (LitAction.payload Scenario.verified_encrypt_token)
    /\ LitAction.valid Scenario.verified_encrypt_token = true
    /\ JsVal.get (LitAction.header Scenario.verified_encrypt_token) "alg"
       = Ok (JStr "ES256K")
    /\ JsVal.get (LitAction.payload Scenario.verified_encrypt_token) "iss" = Ok (JStr iss)
    /\ JsVal.get (LitAction.payload Scenario.verified_encrypt_token) "sub" = Ok (JStr iss)
    /\ JsString.startsWith "did:pkh:eip155:" iss = true
    /\ JsString.pop (JsString.split ":" iss) = Some signerAddress
    /\ JsString.toLowerCase signerAddress
       = JsString.toLowerCase (address Scenario.alice_wallet)
    /\ JsVal.get (LitAction.payload Scenario.verified_encrypt_token) "exp" = Ok exp
    /\ js_lt exp (LitAction.Date_now Scenario.lit_node / 1000) = false
    /\ Jwt.base64urlDecode encodedSignature = Ok rawSignature
    /\ List.length rawSignature = 64%nat
    /\ (v = 27 \/ v = 28)
    /\ recoverAddress
         (keccak256 (toUtf8Bytes (encodedHeader ++ "." ++ encodedPayload)))
         {| sig_r := "0x" ++ Bytes.hex_of_bytes (Bytes.slice rawSignature 0 32);
            sig_s := "0x" ++ Bytes.hex_of_bytes (Bytes.slice rawSignature 32 64);
            sig_v := v |} = Ok recovered
    /\ JsString.toLowerCase recovered
       = JsString.toLowerCase (address Scenario.alice_wallet).
Proof.
  apply (action_accepts_only_the_signer Scenario.lit_node Scenario.encrypt_token
           (address Scenario.alice_wallet) Scenario.verified_encrypt_token).
  vm_compute. reflexivity.
Defined.

(** What the node knows once it has verified the scenario's credential
    token. *)
Lemma only_signed_witness :
  exists headerB64 payloadB64 signatureB64 more didDocument kid publicKeyJwk
         publicKey signature exp nbf iss,
    JsString.split "." (Scenario.credential_token 1900000000)
    = headerB64 :: payloadB64 :: signatureB64 :: more
    /\ LitAction.decode_part headerB64 = Ok Scenario.credential_header
    /\ LitAction.decode_part payloadB64 = Ok (Scenario.credential_payload 1900000000)
    /\ JsVal.get Scenario.credential_header "alg" = Ok (JStr "EdDSA")
    /\ outcome (LitAction.resolveDIDWeb Scenario.lit_node (JStr Scenario.trusted_issuer))
       = Ok didDocument
    /\ JsVal.get Scenario.credential_header "kid" = Ok kid
    /\ LitAction.extractPublicKey didDocument
         (if JsVal.truthy kid then kid
          else JStr (JsVal.to_string (JStr Scenario.trusted_issuer) ++ "#controller"))
       = Ok publicKeyJwk
    /\ LitAction.crypto_subtle_importKey Scenario.lit_node publicKeyJwk = Ok publicKey
    /\ LitAction.base64UrlDecode signatureB64 = Ok signature
    /\ LitAction.crypto_subtle_verify Scenario.lit_node publicKey signature
         (TextEncoder_encode (headerB64 ++ "." ++ payloadB64)) = Ok true
    /\ JsVal.get (Scenario.credential_payload 1900000000) "exp" = Ok exp
    /\ LitAction.elapsed exp (LitAction.Date_now Scenario.lit_node / 1000) = false
    /\ JsVal.get (Scenario.credential_payload 1900000000) "nbf" = Ok nbf
    /\ LitAction.still_future nbf (LitAction.Date_now Scenario.lit_node / 1000) = false
    /\ JsVal.get (Scenario.credential_payload 1900000000) "iss" = Ok iss
    /\ JStr Scenario.trusted_issuer = iss
    /\ true = true.
Proof.
  apply (verifyJWTWithEdDSA_accepts_only_signed Scenario.lit_node
           (Scenario.credential_token 1900000000) (JStr Scenario.trusted_issuer)
           Services.verified_credential).
  vm_compute. reflexivity.
Defined.

(** What the node knows once it has validated the scenario's credential
    for Alice. *)
Lemma binds_the_user_witness :
  let jwtPayload := Scenario.credential_payload 1900000000 in
  let requirements := Utils.requirements_to_js (Scenario.requirement None) in
  true = true
  /\ exists vc types credentialType iss issuer credentialSubject id subjectAddress
            githubHandle,
       JsVal.get jwtPayload "vc" = Ok vc
       /\ JsVal.get vc "type" = Ok types
       /\ JsVal.get requirements "credentialType" = Ok credentialType
       /\ LitAction.types_include types credentialType = Ok true
       /\ JsVal.get jwtPayload "iss" = Ok iss
       /\ JsVal.get requirements "issuer" = Ok issuer
       /\ JsVal.strict_eq iss issuer = true
       /\ JsVal.get vc "credentialSubject" = Ok credentialSubject
       /\ JsVal.get credentialSubject "id" = Ok id
       /\ Jwt.last_segment id = Some subjectAddress
       /\ JsString.toLowerCase subjectAddress
          = JsString.toLowerCase (address Scenario.alice_wallet)
       /\ LitAction.claims_field requirements "githubHandle" = Ok githubHandle
       /\ (JsVal.truthy githubHandle = true ->
           exists evidence handle,
             JsVal.get vc "evidence" = Ok evidence
             /\ LitAction.evidence_handle evidence = Ok handle
             /\ JsVal.truthy handle = true
             /\ existsb (JsVal.strict_eq handle) (Utils.as_array githubHandle) = true).
Proof.
  apply (validateCredentialClaims_binds_the_user Scenario.lit_node
           (Scenario.credential_payload 1900000000)
           (Utils.requirements_to_js (Scenario.requirement None))
           (address Scenario.alice_wallet) true).
  vm_compute. reflexivity.
Defined.

(** Alice's decryption token, handed to the node a minute after noon. *)
Lemma token_passes_witness :
  exists decryptionJWT p,
    Jwt.createDecryptionJWT Scenario.noon Scenario.entropy Scenario.alice_wallet
      (Scenario.requirement None) = Ok decryptionJWT
    /\ globals_of_jsParams
         (WalletBased.jsParams Services.alice_bundle
            (Scenario.credential_token 1900000000) (address Scenario.alice_wallet)
            decryptionJWT)
       = Some p
    /\ LitActionES5.verifyES256KJWT Scenario.lit_node (LitAction.userSignedJWT p)
         (LitAction.userAddress p)
       = Ok {| LitAction.header := Jwt.jwt_header (user_did Scenario.alice_wallet);
               LitAction.payload :=
                 Jwt.completePayload
                   (Jwt.purpose_payload "decrypt" (Scenario.requirement None))
                   (user_did Scenario.alice_wallet) (Scenario.noon / 1000) 5
                   (Jwt.generateNonce Scenario.entropy);
               LitAction.valid := true |}
    /\ In user_token_accepted (trace (LitActionES5.litActionCode Scenario.lit_node p)).
Proof.
  apply (decryption_token_passes_the_action Scenario.lit_node Scenario.noon
           Scenario.entropy Scenario.alice_wallet Services.alice_bundle
           (Scenario.credential_token 1900000000)).
  - exact alice_wallet_ok.
  - exact alice_header_round_trips.
  - apply alice_payload_round_trips. now right.
  - apply (alice_signature_recovers "decrypt" Services.decrypt_token). now right.
  - vm_compute. discriminate.
Defined.

(** An encryption for an issuer outside the trust list. *)
Lemma refused_requirement_witness :
  Encryption.encryptToCredentialWithJWT (Utils.Browser None None) Services.online
    Services.lit_sdk Scenario.noon Scenario.entropy "hello world"
    Services.untrusted_requirement Scenario.alice_wallet
  = (Throw (Error ("Untrusted issuer: did:web:untrusted-issuer.com"
                   ++ ". Trusted issuers: did:web:rebasedemokey.pages.dev, did:web:issuer.tinycloud.xyz")),
     [console_log "Validating credential requirements...";
      console_error ("Untrusted issuer: did:web:untrusted-issuer.com"
                     ++ ". Trusted issuers: did:web:rebasedemokey.pages.dev, did:web:issuer.tinycloud.xyz")]).
Proof.
  apply (encrypt_stops_at_a_refused_requirement (Utils.Browser None None)
           Services.online Services.lit_sdk Scenario.noon Scenario.entropy "hello world"
           Services.untrusted_requirement Scenario.alice_wallet
           (Error ("Untrusted issuer: did:web:untrusted-issuer.com"
                   ++ ". Trusted issuers: did:web:rebasedemokey.pages.dev, did:web:issuer.tinycloud.xyz"))).
  vm_compute. reflexivity.
Defined.

(** The bundle of Alice's encryption at noon. *)
Lemma wallets_bundle_witness :
  let bundle := Services.encrypted_bundle in
  Utils.validateGithubCredentialRequirements (Utils.Browser None None)
    (Scenario.requirement None) = Ok tt
  /\ Jwt.createEncryptionJWT Scenario.noon Scenario.entropy Scenario.alice_wallet
       (Scenario.requirement None) = Ok (userSignedJWT bundle)
  /\ userAddress bundle = address Scenario.alice_wallet
  /\ credentialRequirements bundle = Scenario.requirement None
  /\ accessControlConditions bundle = Encryption.universalAccessControlConditions
  /\ Encryption.encryptString Services.lit_sdk Encryption.universalAccessControlConditions
       "hello world"
     = Ok (ciphertext bundle, dataToEncryptHash bundle)
  /\ Encryption.generateResourceString Services.lit_sdk
       Encryption.universalAccessControlConditions (dataToEncryptHash bundle)
     = Ok (accsResourceString bundle)
  /\ metadata bundle = None.
Proof.
  apply (encrypt_returns_the_wallets_bundle (Utils.Browser None None) Services.online
           Services.lit_sdk Scenario.noon Scenario.entropy "hello world"
           (Scenario.requirement None) Scenario.alice_wallet Services.encrypted_bundle).
  vm_compute. reflexivity.
Defined.

(** Bob's wallet on the bundle Alice encrypted. *)
Lemma owner_checks_witness :
  In (mint_token "decrypt" (address Scenario.bob_wallet))
     (trace (WalletBased.decryptFromCredentialsWithJWT (Utils.Browser None None)
               Services.online (Scenario.noon + 60000) Scenario.entropy
               Services.encrypted_bundle Scenario.bob_wallet Services.pool))
  <-> JsString.toLowerCase (address Scenario.bob_wallet)
      = JsString.toLowerCase (address Scenario.alice_wallet).
Proof.
  apply (own_bundle_passes_the_owner_checks (Utils.Browser None None) Services.online
           Services.lit_sdk Scenario.noon (Scenario.noon + 60000) Scenario.entropy
           Scenario.entropy "hello world" (Scenario.requirement None)
           Scenario.alice_wallet Scenario.bob_wallet Services.pool
           Services.encrypted_bundle).
  - exact alice_wallet_ok.
  - exact alice_header_round_trips.
  - apply alice_payload_round_trips. now left.
  - vm_compute. reflexivity.
Defined.

(** The scenario's document gives both editions the same key; the rotated
    document gives the retired key to the executed edition and none to the
    first. *)
Lemma choose_the_key_witness :
  let keyId := JStr (Scenario.trusted_issuer ++ "#key-1") in
  LitActionES5.extractPublicKey Scenario.did_document keyId
  = LitAction.extractPublicKey Scenario.did_document keyId
  /\ LitActionES5.extractPublicKey Rotation.rotated_document keyId
     = Ok Rotation.retired_key
  /\ LitAction.extractPublicKey Rotation.rotated_document keyId
     = LitAction.find_key [] keyId.
Proof.
  split.
  - apply (proj1 (editions_choose_the_key Scenario.did_document
                    (JStr (Scenario.trusted_issuer ++ "#key-1")) _ eq_refl)).
    right. eexists. split; [reflexivity|].
    repeat constructor. eexists. split; reflexivity.
  - apply (proj2 (editions_choose_the_key Rotation.rotated_document
                    (JStr (Scenario.trusted_issuer ++ "#key-1")) _ eq_refl)
             Rotation.retired_method []
             (Scenario.trusted_issuer ++ "#controller-2023") Rotation.retired_key);
      reflexivity.
Defined.

(** The scenario's credential is read alike by both editions; with its
    type written as one string the executed edition refuses it and the
    first edition does not. *)
Lemma credential_type_witness :
  let requirements := Utils.requirements_to_js (Scenario.requirement None) in
  let not_found :=
    Throw (Error ("Required credential type " ++ "GitHubVerification" ++ " not found")) in
  LitActionES5.validateCredentialClaims Scenario.lit_node
    (Scenario.credential_payload 1900000000) requirements Scenario.alice
  = LitAction.validateCredentialClaims Scenario.lit_node
      (Scenario.credential_payload 1900000000) requirements Scenario.alice
  /\ LitActionES5.validateCredentialClaims Scenario.lit_node
       Rotation.single_type_payload requirements Scenario.alice
     = not_found
  /\ LitAction.validateCredentialClaims Scenario.lit_node
       Rotation.single_type_payload requirements Scenario.alice
     <> not_found.
Proof.
  split.
  - apply (proj1 (editions_read_the_credential_type Scenario.lit_node
                    (Scenario.credential_payload 1900000000)
                    (Utils.requirements_to_js (Scenario.requirement None))
                    _ _ Scenario.alice eq_refl eq_refl eq_refl)).
    right. eexists. reflexivity.
  - destruct (proj2 (editions_read_the_credential_type Scenario.lit_node
                       Rotation.single_type_payload
                       (Utils.requirements_to_js (Scenario.requirement None))
                       _ _ Scenario.alice eq_refl eq_refl eq_refl)
                "GitHubVerification" "GitHubVerification" eq_refl eq_refl)
      as [Hrefused Hother].
    + cbn. lia.
    + split; [exact Hrefused|]. apply Hother; [reflexivity | discriminate].
Defined.
